(** * Lending Club anonymisation and stratified sampling

    A shallow embedding of [dataset_anonymization.py]: the loader's
    compression detection, the anonymisation and filtering step, the
    stratified sampler and the temporal distribution report, together with
    the properties the specification states about them; then the download,
    the saving of the sample and the pipeline that chains the steps, and
    further properties of the code.

    Conventions of the embedding.
    - A pandas [DataFrame] is a list of column labels (in order) and a list
      of rows; a row maps a column label to its cell.  Column labels are
      taken to be unique, as [read_csv] produces them.  The row index of a
      frame is not represented: every assignment in the source assigns a
      series computed from the same frame, so the alignment on the index is
      the identity.
    - A function that mutates the frame it receives returns the frame as it
      is left for the caller, next to its result.
    - A Python exception is a value of [exn]; a call that may raise returns
      a [result].
    - The [print] calls are not represented; an expression evaluated only
      to be printed is kept when it can raise.
    - The operating system is a state: the files by path, the listing of a
      directory and the size of a path.  The Kaggle client is a parameter
      that acts on this state, and so is the writing of a file, which the
      system may refuse.
    - Floating point numbers, the date parser and the pseudo random
      permutation belong to the Python run time and to pandas/numpy; they
      are interfaces ([PyFloat], [PandasLib]) with the laws the proofs
      use.  Two instances run the definitions: floats without rounding
      error, and the binary64 floats of the interpreter. *)

From Stdlib Require Import ZArith QArith Qround Qabs Qpower.
From stdpp Require Import base gmap strings list pretty sorting.
From Stdlib Require Init.Byte Strings.Byte.

Local Open Scope Z_scope.

(** ** Exceptions and results *)

Inductive exn :=
| KeyError (label : string)
| AttributeError (msg : string)
| ValueError (msg : string)
| FileNotFoundError (path : string)
| ParserError.

Inductive result (A : Type) :=
| Ok (a : A)
| Raise (e : exn).
Arguments Ok {A} a.
Arguments Raise {A} e.

#[global] Instance result_ret : MRet result := λ A a, Ok a.
#[global] Instance result_bind : MBind result := λ A B k r,
  match r with
  | Ok a => k a
  | Raise e => Raise e
  end.

(** ** Timestamps *)

(** A pandas [Timestamp]: a calendar date and the nanoseconds elapsed since
    midnight.  Timestamps are compared chronologically, which on calendar
    fields is the lexicographic order. *)
Record Timestamp := mkTimestamp {
  ts_year : Z;
  ts_month : Z;
  ts_day : Z;
  ts_nanos : Z
}.

Definition ts_leb (a b : Timestamp) : bool :=
  if ts_year a <? ts_year b then true
  else if ts_year b <? ts_year a then false
  else if ts_month a <? ts_month b then true
  else if ts_month b <? ts_month a then false
  else if ts_day a <? ts_day b then true
  else if ts_day b <? ts_day a then false
  else ts_nanos a <=? ts_nanos b.

(** The value pandas gives the string of a date when it is compared with a
    datetime column: midnight of that day. *)
Definition midnight (y m d : Z) : Timestamp := mkTimestamp y m d 0.

(** ** Floating point numbers *)

(** Python's [float], and numpy's [float64]: the conversion of an integer,
    the product, the quotient, the difference, the absolute value and
    [round(1)].  [fvalue] is the rational number a finite float stands for;
    the laws are the sign rules of IEEE 754 arithmetic on finite floats. *)
Class PyFloat := {
  float : Type;
  of_int : Z → float;
  fmul : float → float → float;
  fdiv : float → float → float;
  fsub : float → float → float;
  fabs : float → float;
  fround1 : float → float;
  fvalue : float → Q;
  of_int_nonneg : ∀ z, 0 ≤ z → (0 <= fvalue (of_int z))%Q;
  fmul_nonneg : ∀ x y,
    (0 <= fvalue x)%Q → (0 <= fvalue y)%Q → (0 <= fvalue (fmul x y))%Q;
  fdiv_nonneg : ∀ x y,
    (0 <= fvalue x)%Q → (0 <= fvalue y)%Q → (0 <= fvalue (fdiv x y))%Q
}.

(** [int(x)]: truncation towards zero. *)
Definition Qtruncate (q : Q) : Z := Z.quot (Qnum q) (Zpos (Qden q)).
Definition to_int `{PyFloat} (x : float) : Z := Qtruncate (fvalue x).

(** [math.floor(x)]. *)
Definition ffloor `{PyFloat} (x : float) : Z := Qfloor (fvalue x).

(** ** Cells, rows and frames *)

Inductive cell `{PyFloat} :=
| CNaN
| CNaT
| CStr (s : string)
| CInt (z : Z)
| CFloat (x : float)
| CDate (t : Timestamp).

Section Frames.
Context `{PyFloat}.

Record DataFrame := mkDataFrame {
  columns : list string;
  rows : list (gmap string cell)
}.

(** The cell of a row under a label; a label the row lacks reads as the
    missing value. *)
Definition cell_of (c : string) (r : gmap string cell) : cell :=
  default CNaN (r !! c).

(** [df[c]]. *)
Definition get_column (c : string) (df : DataFrame) : result (list cell) :=
  if decide (c ∈ columns df) then Ok (cell_of c <$> rows df)
  else Raise (KeyError c).

(** [df[c] = values]: an existing column is replaced where it stands, a
    new one is appended. *)
Definition set_column (c : string) (values : list cell) (df : DataFrame)
  : DataFrame :=
  {| columns := if decide (c ∈ columns df) then columns df
                else columns df ++ [c];
     rows := zip_with (λ r v, <[c := v]> r) (rows df) values |}.

(** [df[mask]]: the rows whose entry of the boolean mask is [True]. *)
Fixpoint masked {A} (l : list A) (mask : list bool) : list A :=
  match l, mask with
  | x :: l, b :: mask => if b then x :: masked l mask else masked l mask
  | _, _ => []
  end.

Definition select_rows (mask : list bool) (df : DataFrame) : DataFrame :=
  {| columns := columns df; rows := masked (rows df) mask |}.

(** [df.drop(columns=labels)]: pandas raises [KeyError] when a label is
    not a column of the frame. *)
Definition drop_columns (labels : list string) (df : DataFrame)
  : result DataFrame :=
  match filter (λ c, c ∉ columns df) labels with
  | [] => Ok {| columns := filter (λ c, c ∉ labels) (columns df);
                rows := (λ r, foldr delete r labels) <$> rows df |}
  | c :: _ => Raise (KeyError c)
  end.

(** [pandas.unique]: the distinct values in order of first appearance. *)
Fixpoint unique {K} `{EqDecision K} (l : list K) : list K :=
  match l with
  | [] => []
  | x :: l => x :: filter (λ y, y ≠ x) (unique l)
  end.

(** [pd.concat(dfs, ignore_index=True)]: the rows of the frames one after
    the other, under the union of their columns in order of appearance;
    an empty list of frames is refused. *)
Definition concat_frames (dfs : list DataFrame) : result DataFrame :=
  match dfs with
  | [] => Raise (ValueError "No objects to concatenate")
  | _ => Ok {| columns := unique (dfs ≫= columns); rows := dfs ≫= rows |}
  end.

(** ** Series *)

Definition count_of {K} `{EqDecision K} (k : K) (l : list K) : nat :=
  length (filter (λ y, y = k) l).

(** [s.value_counts()]: the distinct values with the number of their
    occurrences, the most frequent first; values as frequent as each other
    stay in the order the sort leaves them. *)
Definition more_frequent {K} (a b : K * nat) : Prop := (b.2 ≤ a.2)%nat.

#[global] Instance more_frequent_dec {K} : RelDecision (@more_frequent K).
Proof. intros a b. unfold more_frequent. apply _. Defined.

Definition value_counts {K} `{EqDecision K} (l : list K) : list (K * nat) :=
  merge_sort more_frequent ((λ k, (k, count_of k l)) <$> unique l).

#[global] Instance pretty_string : Pretty string := λ s, s.

(** [s[label]] on a series indexed by labels. *)
Fixpoint series_get {K V} `{EqDecision K} `{Pretty K}
    (label : K) (s : list (K * V)) : result V :=
  match s with
  | [] => Raise (KeyError (pretty label))
  | (k, v) :: s => if decide (k = label) then Ok v else series_get label s
  end.

Definition len (df : DataFrame) : Z := Z.of_nat (length (rows df)).
End Frames.

(** ** The pandas and numpy functions the module calls *)

Inductive compression := gzip.

Class PandasLib `{PyFloat} := {
  (** [pd.to_datetime(column)]: a timestamp or [NaT] ([None]) for every
      cell, or an error when a cell cannot be parsed. *)
  to_datetime : list cell → result (list (option Timestamp));
  to_datetime_length : ∀ l l', to_datetime l = Ok l' → length l' = length l;
  (** [column.astype(str)]. *)
  astype_str : list cell → list string;
  astype_str_length : ∀ l, length (astype_str l) = length l;
  (** [RandomState(seed).permutation(n)]. *)
  permutation : Z → nat → list nat;
  permutation_Permutation : ∀ seed n, permutation seed n ≡ₚ seq 0 n
}.

(** ** The data loader *)

Section Loader.
Context `{PyFloat}.

(** [pd.read_csv(file, compression=..., low_memory=False)], on the bytes of
    the file. *)
Variable read_csv : list Init.Byte.byte → option compression → result DataFrame.

(** [s.endswith(suffix)]: the characters of [suffix] end those of [s]. *)
Definition endswith (s suffix : string) : bool :=
  bool_decide (String.list_ascii_of_string suffix
                 `suffix_of` String.list_ascii_of_string s).

#[global] Instance byte_eq_dec : EqDecision Init.Byte.byte :=
  Strings.Byte.byte_eq_dec.

(** The gzip magic number, [b'\x1f\x8b']. *)
Definition gzip_magic : list Init.Byte.byte := [Init.Byte.x1f; Init.Byte.x8b].

(** A file system: the bytes of the file under a path, when there is one. *)
Definition filesystem := string → option (list Init.Byte.byte).

Definition open_rb (fs : filesystem) (file_path : string)
  : result (list Init.Byte.byte) :=
  match fs file_path with
  | Some content => Ok content
  | None => Raise (FileNotFoundError file_path)
  end.

(** The compression [load_lending_club_data] passes to [read_csv];
    [None] is an uncompressed read.  [f.read(2)] is the first two bytes of
    the file, or fewer when the file is shorter. *)
Definition detect_compression (fs : filesystem) (file_path : string)
  : result (option compression) :=
  if endswith file_path ".gz" then Ok (Some gzip)
  else if endswith file_path ".gzip" then
    f ← open_rb fs file_path;
    let magic := take 2 f in
    Ok (if decide (magic = gzip_magic) then Some gzip else None)
  else Ok None.

Definition load_lending_club_data (fs : filesystem) (file_path : string)
  : result DataFrame :=
  compression ← detect_compression fs file_path;
  content ← open_rb fs file_path;
  read_csv content compression.
End Loader.

(** ** Anonymisation and filtering *)

Section Anonymize.
Context `{PandasLib}.

Definition datetime_cell (d : option Timestamp) : cell :=
  match d with
  | Some t => CDate t
  | None => CNaT
  end.

(** [column >= '2015-01-01'] and [column <= '2020-12-31'] on a datetime
    column: a comparison with [NaT] is false. *)
Definition period_start : Timestamp := midnight 2015 1 1.
Definition period_end : Timestamp := midnight 2020 12 31.

Definition ge_timestamp (bound : Timestamp) (c : cell) : bool :=
  match c with
  | CDate t => ts_leb bound t
  | _ => false
  end.

Definition le_timestamp (bound : Timestamp) (c : cell) : bool :=
  match c with
  | CDate t => ts_leb t bound
  | _ => false
  end.

Definition paid_status : list string :=
  ["Fully Paid"; "Does not meet the credit policy. Status:Fully Paid"].

Definition default_status : list string :=
  ["Charged Off"; "Default"; "Late (31-120 days)"; "In Grace Period";
   "Does not meet the credit policy. Status:Charged Off"; "Late (16-30 days)"].

(** [column.isin(values)] for a list of strings. *)
Definition isin (values : list string) (c : cell) : bool :=
  match c with
  | CStr s => bool_decide (s ∈ values)
  | _ => false
  end.

Definition future_leak_cols : list string :=
  ["last_pymnt_d"; "total_pymnt"; "recoveries"; "collection_recovery_fee";
   "last_credit_pull_d"; "out_prncp"; "out_prncp_inv"; "total_pymnt_inv";
   "total_rec_prncp"; "total_rec_int"; "total_rec_late_fee"; "hardship_flag";
   "settlement_status"; "settlement_date"; "settlement_amount";
   "debt_settlement_flag"].

Definition privacy_cols : list string :=
  ["member_id"; "emp_title"; "url"; "desc"; "title"].

(** [s.value_counts(normalize=True)]: the counts divided by their sum. *)
Definition value_counts_normalize {K} `{EqDecision K} (l : list K)
  : list (K * float) :=
  (λ kc, (kc.1, fdiv (of_int (Z.of_nat kc.2)) (of_int (Z.of_nat (length l)))))
    <$> value_counts l.

(** Lines 103 and 111, on the frame whose dates are parsed: the rows of
    the period with a paid or default status, copied out of the frame. *)
Definition select_period_and_status (df : DataFrame) : result DataFrame :=
  lower ← get_column "issue_d" df;
  upper ← get_column "issue_d" df;
  let df_filtered :=
    select_rows (zip_with andb (ge_timestamp period_start <$> lower)
                               (le_timestamp period_end <$> upper)) df in
  status ← get_column "loan_status" df_filtered;
  Ok (select_rows (isin (paid_status ++ default_status) <$> status)
                  df_filtered).

(** Lines 101 to 111: the parsed dates are assigned to the frame received
    before its rows are selected. *)
Definition filter_period_and_status (df : DataFrame)
  : DataFrame * result DataFrame :=
  match raw ← get_column "issue_d" df; to_datetime raw with
  | Raise e => (df, Raise e)
  | Ok parsed =>
    let df := set_column "issue_d" (datetime_cell <$> parsed) df in
    (df, select_period_and_status df)
  end.

(** Lines 112 to 134, on the rows selected: the label, its distribution
    (read at both labels to be printed), and the columns dropped.  The
    distribution is that of the column just assigned. *)
Definition label_and_drop (df_filtered : DataFrame) : result DataFrame :=
  status ← get_column "loan_status" df_filtered;
  let target_default := (λ c, Z.b2z (isin default_status c)) <$> status in
  let df_filtered :=
    set_column "target_default" (CInt <$> target_default) df_filtered in
  let target_dist := value_counts_normalize target_default in
  _ ← series_get 0 target_dist;
  _ ← series_get 1 target_dist;
  let existing_leak_cols :=
    filter (λ col, col ∈ columns df_filtered) future_leak_cols in
  df_filtered ← drop_columns existing_leak_cols df_filtered;
  let existing_privacy_cols :=
    filter (λ col, col ∈ columns df_filtered) privacy_cols in
  df_filtered ← drop_columns existing_privacy_cols df_filtered;
  Ok df_filtered.

(** The frame the caller passed, as the call leaves it, and the frame
    returned or the exception raised. *)
Definition anonymize_and_filter_data (df : DataFrame)
  : DataFrame * result DataFrame :=
  let '(df, filtered) := filter_period_and_status df in
  (df, df_filtered ← filtered; label_and_drop df_filtered).
End Anonymize.

(** ** Stratified sampling *)

Section Sampling.
Context `{PandasLib}.

(** [column.dt.year]: the accessor exists on a datetime column only (the
    dtype of a column is read off its cells); the year of [NaT] is
    missing. *)
Fixpoint dt_year (column : list cell) : result (list (option Z)) :=
  match column with
  | [] => Ok []
  | CDate t :: column => ys ← dt_year column; Ok (Some (ts_year t) :: ys)
  | CNaT :: column => ys ← dt_year column; Ok (None :: ys)
  | _ :: column =>
    Raise (AttributeError "Can only use .dt accessor with datetimelike values")
  end.

(** The cells of a series of years: integers, or floats with [NaN] as soon
    as one year is missing. *)
Definition year_cells (years : list (option Z)) : list cell :=
  if forallb (λ y, bool_decide (is_Some y)) years
  then (λ y, CInt (default 0 y)) <$> years
  else (λ y, from_option (λ z, CFloat (of_int z)) CNaN y) <$> years.

(** [int(target_size * prop)], set to 1 when it is 0 and the stratum has a
    row, and at most the number of rows of the stratum. *)
Definition stratum_size (target_size : Z) (prop : float) (count : Z) : Z :=
  let sample_size := to_int (fmul (of_int target_size) prop) in
  let sample_size :=
    if bool_decide (sample_size = 0) && bool_decide (0 < count) then 1
    else sample_size in
  Z.min sample_size count.

(** The loop of lines 163 to 168, over [strata_props.items()]. *)
Fixpoint sample_sizes_of (target_size : Z) (strata_counts : list (string * nat))
    (strata_props : list (string * float)) : result (list (string * Z)) :=
  match strata_props with
  | [] => Ok []
  | (strata, prop) :: strata_props =>
    count ← series_get strata strata_counts;
    rest ← sample_sizes_of target_size strata_counts strata_props;
    Ok ((strata, stratum_size target_size prop (Z.of_nat count)) :: rest)
  end.

(** The rows at the first [n] positions of the permutation the generator
    seeded with [random_state] draws. *)
Definition drawn (n : Z) (random_state : Z) (df : DataFrame) : DataFrame :=
  {| columns := columns df;
     rows := omap (λ i, rows df !! i)
               (take (Z.to_nat n) (permutation random_state (length (rows df)))) |}.

(** [df.sample(n=n, random_state=seed)]: [RandomState(seed)] refuses a
    seed that is not between 0 and 2**32 - 1, a negative number of rows is
    refused, and so is a number of rows above that of the frame. *)
Definition sample (n : Z) (random_state : Z) (df : DataFrame)
  : result DataFrame :=
  if negb (bool_decide (0 ≤ random_state < 2 ^ 32)) then
    Raise (ValueError "Seed must be between 0 and 2**32 - 1")
  else if bool_decide (n < 0) then
    Raise (ValueError
             "A negative number of rows requested. Please provide `n` >= 0.")
  else if bool_decide (len df < n) then
    Raise (ValueError
      "Cannot take a larger sample than population when 'replace=False'")
  else Ok (drawn n random_state df).

(** The loop of lines 171 to 179, over [sample_sizes.items()]: the frames
    appended to [dfs_sample]. *)
Fixpoint sample_strata (df : DataFrame) (strata_col : list string)
    (random_state : Z) (sample_sizes : list (string * Z))
  : result (list DataFrame) :=
  match sample_sizes with
  | [] => Ok []
  | (strata, sample_size) :: sample_sizes =>
    if bool_decide (0 < sample_size) then
      let strata_data :=
        select_rows ((λ s, bool_decide (s = strata)) <$> strata_col) df in
      sampled ← (if bool_decide (sample_size ≤ len strata_data)
                 then sample sample_size random_state strata_data
                 else Ok strata_data);
      dfs_sample ← sample_strata df strata_col random_state sample_sizes;
      Ok (sampled :: dfs_sample)
    else sample_strata df strata_col random_state sample_sizes
  end.

(** Lines 156 to 185, on the frame that carries the ['strata'] column whose
    values are [strata_col]. *)
Definition draw_sample (df : DataFrame) (strata_col : list string)
    (target_size random_state : Z) : result DataFrame :=
  let strata_counts := value_counts strata_col in
  let strata_props :=
    (λ kc, (kc.1, fdiv (of_int (Z.of_nat kc.2)) (of_int (len df))))
      <$> strata_counts in
  sample_sizes ← sample_sizes_of target_size strata_counts strata_props;
  dfs_sample ← sample_strata df strata_col random_state sample_sizes;
  df_sample ← concat_frames dfs_sample;
  drop_columns ["strata"] df_sample.

(** The frame the caller passed, as the call leaves it, and the sample
    returned or the exception raised.  Lines 187 to 193 compute what is
    printed and cannot raise. *)
Definition create_stratified_sample (df : DataFrame)
    (target_size random_state : Z) : DataFrame * result DataFrame :=
  match issue_d ← get_column "issue_d" df; dt_year issue_d with
  | Raise e => (df, Raise e)
  | Ok years =>
    let ano := year_cells years in
    let df := set_column "ano" ano df in
    match get_column "target_default" df with
    | Raise e => (df, Raise e)
    | Ok target_default =>
      let strata_col :=
        zip_with (λ a t, a +:+ "_" +:+ t)
                 (astype_str ano) (astype_str target_default) in
      let df := set_column "strata" (CStr <$> strata_col) df in
      (df, draw_sample df strata_col target_size random_state)
    end
  end.
End Sampling.

(** ** Temporal distribution *)

Record comparison_row `{PyFloat} := mkComparisonRow {
  year : Z;
  original_pct : option float;
  amostra_pct : option float;
  diferenca_pp : option float
}.

Section Analysis.
Context `{PandasLib}.

Definition index_le {V} (a b : Z * V) : Prop := a.1 ≤ b.1.

#[global] Instance index_le_dec {V} : RelDecision (@index_le V).
Proof. intros a b. unfold index_le. apply _. Defined.

(** [s.sort_index()]. *)
Definition sort_index {V} (s : list (Z * V)) : list (Z * V) :=
  merge_sort index_le s.

(** [column.value_counts(normalize=True).sort_index()] on a series of
    years; [value_counts] leaves the missing values out. *)
Definition year_distribution (years : list (option Z)) : list (Z * float) :=
  sort_index (value_counts_normalize (omap id years)).

(** The value of a series at a label of another index: missing when the
    series has no such label. *)
Fixpoint series_lookup {V} (label : Z) (s : list (Z * V)) : option V :=
  match s with
  | [] => None
  | (k, v) :: s => if decide (k = label) then Some v else series_lookup label s
  end.

(** The union of indexes of years, which pandas sorts. *)
Definition index_union (indexes : list (list Z)) : list Z :=
  merge_sort Z.le (unique (concat indexes)).

(** [a - b]: the series are aligned on the union of their indexes, and the
    difference is missing where one of them has no value. *)
Definition series_sub (a b : list (Z * float)) : list (Z * option float) :=
  (λ y, (y, x ← series_lookup y a; x' ← series_lookup y b; Some (fsub x x')))
    <$> index_union [a.*1; b.*1].

(** An operation applied to every value of a series. *)
Definition map_values {V W} (f : V → W) (s : list (Z * V)) : list (Z * W) :=
  (λ kv, (kv.1, f kv.2)) <$> s.

(** [(s * 100).round(1)] and [abs(s * 100).round(1)]. *)
Definition percent (x : float) : float := fround1 (fmul x (of_int 100)).
Definition abs_percent (x : float) : float :=
  fround1 (fabs (fmul x (of_int 100))).

(** [pd.DataFrame({...})] of the three series: one row for every label of
    the union of their indexes. *)
Definition comparison_frame (original amostra : list (Z * float))
    (diferenca : list (Z * option float)) : list comparison_row :=
  (λ y, {| year := y;
           original_pct := series_lookup y original;
           amostra_pct := series_lookup y amostra;
           diferenca_pp := mjoin (series_lookup y diferenca) |})
    <$> index_union [original.*1; amostra.*1; diferenca.*1].

(** The two frames as the call leaves them, and the report.  The frames are
    two objects. *)
Definition analyze_temporal_distribution (df_original df_sample : DataFrame)
  : DataFrame * DataFrame * result (list comparison_row) :=
  match issue_d ← get_column "issue_d" df_original; dt_year issue_d with
  | Raise e => (df_original, df_sample, Raise e)
  | Ok original_years =>
    let df_original := set_column "ano" (year_cells original_years) df_original in
    match issue_d ← get_column "issue_d" df_sample; dt_year issue_d with
    | Raise e => (df_original, df_sample, Raise e)
    | Ok sample_years =>
      let df_sample := set_column "ano" (year_cells sample_years) df_sample in
      let original_dist := year_distribution original_years in
      let sample_dist := year_distribution sample_years in
      let comparison :=
        comparison_frame
          (map_values percent original_dist)
          (map_values percent sample_dist)
          (map_values (option_map abs_percent)
             (series_sub original_dist sample_dist)) in
      (df_original, df_sample, Ok comparison)
    end
  end.
End Analysis.

(** ** Download, saving and the pipeline *)

(** The exceptions of these steps: those the module raises itself, those of
    the Kaggle client, those of the system when a file cannot be written,
    and the exceptions of the steps above. *)
Inductive pipeline_exn :=
| ImportError (msg : string)
| Exception (msg : string)
| KaggleError (msg : string)
| OSError (msg : string)
| Exn (e : exn).

Inductive outcome (A : Type) :=
| Returned (a : A)
| Raised (e : pipeline_exn).
Arguments Returned {A} a.
Arguments Raised {A} e.

Definition lift {A} (r : result A) : outcome A :=
  match r with
  | Ok a => Returned a
  | Raise e => Raised (Exn e)
  end.

(** The operating system as the module reads it: the files [open] and
    pandas read, the entries [os.listdir] gives for a directory and the
    size [os.path.getsize] gives for a path. *)
Record os_state := mkOs {
  os_files : filesystem;
  os_listdir : string → result (list string);
  os_getsize : string → result Z
}.

(** [os.path.join(a, b)] on POSIX paths. *)
Definition path_join (a b : string) : string :=
  if String.prefix "/" b then b
  else if bool_decide (a = "") || endswith a "/" then a +:+ b
  else a +:+ "/" +:+ b.

(** [import kaggle]: the module is missing, or it is the client, whose
    [authenticate] and [dataset_download_files(..., unzip=True)] act on the
    files and may raise. *)
Definition kaggle_module : Type :=
  option (string → string → os_state → os_state * option pipeline_exn).

(** [f.endswith((s1, s2, ...))]. *)
Definition endswith_any (s : string) (suffixes : list string) : bool :=
  existsb (endswith s) suffixes.

(** [max(items, key=key)] on a list that has a first item [best] of key
    [best_key]: the keys are computed from left to right, and an item
    replaces the best one when its key is greater. *)
Fixpoint max_by (key : string → result Z) (best : string) (best_key : Z)
    (items : list string) : result string :=
  match items with
  | [] => Ok best
  | f :: items =>
    k ← key f;
    if bool_decide (best_key < k) then max_by key f k items
    else max_by key best best_key items
  end.

Definition download_kaggle_dataset (kaggle : kaggle_module) (os : os_state)
    (dataset_id download_path : string) : os_state * outcome string :=
  match kaggle with
  | None =>
    (os, Raised (ImportError
           "Biblioteca 'kaggle' não encontrada. Instale com: uv add kaggle"))
  | Some api =>
    match api dataset_id download_path os with
    | (os, Some e) => (os, Raised e)
    | (os, None) =>
      (os,
       match os_listdir os download_path with
       | Raise e => Raised (Exn e)
       | Ok files =>
         let data_files :=
           filter (λ f, endswith_any f [".csv"; ".gzip"; ".csv.gz"]) files in
         match data_files with
         | [] =>
           Raised (Exception "Nenhum arquivo de dados encontrado após download")
         | f :: rest =>
           let key f := os_getsize os (path_join download_path f) in
           lift (k ← key f; max_by key f k rest)
         end
       end)
    end
  end.

(** The information [save_sample_for_github] returns. *)
Record FileInfo `{PyFloat} := mkFileInfo {
  file_size_mb : float;
  records : Z;
  github_suitable : bool
}.

(** [df.shape]. *)
Definition shape `{PyFloat} (df : DataFrame) : Z * Z :=
  (len df, Z.of_nat (length (columns df))).

Record ProcessInfo `{PyFloat} := mkProcessInfo {
  original_shape : Z * Z;
  filtered_shape : Z * Z;
  sample_shape : Z * Z;
  file_info : FileInfo;
  temporal_analysis : list comparison_row
}.

Section Pipeline.
Context `{PandasLib}.

(** [pd.read_csv] as above.  [df.to_csv(path, index=False,
    compression=...)] serialises the frame, [to_csv], and has the system
    write the bytes under the path, [write]: the system answers with the
    files as it leaves them and with the exception it raises when it
    refuses ([OSError] or one of its subclasses). *)
Variable read_csv : list Init.Byte.byte → option compression → result DataFrame.
Variable to_csv : DataFrame → option compression → list Init.Byte.byte.
Variable write : filesystem → string → list Init.Byte.byte
                 → filesystem * option pipeline_exn.

(** The files once [content] is written under [path]. *)
Definition write_file (fs : filesystem) (path : string)
    (content : list Init.Byte.byte) : filesystem :=
  λ p, if decide (p = path) then Some content else fs p.

(** The system writes [content] under [path]: nothing is raised, the file
    holds the bytes and the other files are as they were. *)
Definition written (fs : filesystem) (path : string)
    (content : list Init.Byte.byte) : Prop :=
  write fs path content = (write_file fs path content, None).

(** [os.path.getsize(path)]: the number of bytes of the file, which has to
    exist. *)
Definition getsize (fs : filesystem) (path : string) : outcome Z :=
  match fs path with
  | Some content => Returned (Z.of_nat (length content))
  | None => Raised (Exn (FileNotFoundError path))
  end.

(** The files as the call leaves them, and the information returned or the
    exception of the write or of the size: [x / 1024**2] is the division of
    floats, and a float is compared with 100 by its value. *)
Definition save_sample_for_github (fs : filesystem) (df : DataFrame)
    (filename : string) : filesystem * outcome FileInfo :=
  match write fs filename (to_csv df (Some gzip)) with
  | (fs, Some e) => (fs, Raised e)
  | (fs, None) =>
    (fs,
     match getsize fs filename with
     | Raised e => Raised e
     | Returned size =>
       let file_size_mb := fdiv (of_int size) (of_int (1024 ^ 2)) in
       let is_github_suitable := Qle_bool (fvalue file_size_mb) 100 in
       Returned {| file_size_mb := file_size_mb;
                   records := len df;
                   github_suitable := is_github_suitable |}
     end)
  end.

Definition default_filename : string := "lending_club_sample_2015_2020.csv.gz".

(** The files as the call leaves them, and the sample with the information
    on the run, or the exception: an exception caught is printed and raised
    again.  The shapes are read at the end, off the tables as the steps
    have left them. *)
Definition process_lending_club_pipeline (kaggle : kaggle_module)
    (os : os_state) (dataset_id : string) (target_sample_size : Z)
  : filesystem * outcome (DataFrame * ProcessInfo) :=
  let '(os, main_file) := download_kaggle_dataset kaggle os dataset_id "." in
  match main_file with
  | Raised e => (os_files os, Raised e)
  | Returned main_file =>
    match load_lending_club_data read_csv (os_files os) main_file with
    | Raise e => (os_files os, Raised (Exn e))
    | Ok df =>
      let '(df, df_filtered) := anonymize_and_filter_data df in
      match df_filtered with
      | Raise e => (os_files os, Raised (Exn e))
      | Ok df_filtered =>
        let '(df_filtered, df_sample) :=
          create_stratified_sample df_filtered target_sample_size 42 in
        match df_sample with
        | Raise e => (os_files os, Raised (Exn e))
        | Ok df_sample =>
          let '(fs, file_info) :=
            save_sample_for_github (os_files os) df_sample default_filename in
          match file_info with
          | Raised e => (fs, Raised e)
          | Returned file_info =>
            let '(df_filtered, df_sample, temporal_analysis) :=
              analyze_temporal_distribution df_filtered df_sample in
            match temporal_analysis with
            | Raise e => (fs, Raised (Exn e))
            | Ok temporal_analysis =>
              (fs, Returned (df_sample,
                             {| original_shape := shape df;
                                filtered_shape := shape df_filtered;
                                sample_shape := shape df_sample;
                                file_info := file_info;
                                temporal_analysis := temporal_analysis |}))
            end
          end
        end
      end
    end
  end.
End Pipeline.

(** ** The anonymisation read row by row *)

Section AnonymizeRows.
Context `{PandasLib}.

(** The row is in the period: its date is a timestamp between the bounds. *)
Definition in_period (r : gmap string cell) : bool :=
  ge_timestamp period_start (cell_of "issue_d" r)
  && le_timestamp period_end (cell_of "issue_d" r).

(** The status of the row is a paid or a default status. *)
Definition resolved (r : gmap string cell) : bool :=
  isin (paid_status ++ default_status) (cell_of "loan_status" r).

(** The label the row receives. *)
Definition label_of (r : gmap string cell) : Z :=
  Z.b2z (isin default_status (cell_of "loan_status" r)).

Definition label_row (r : gmap string cell) : gmap string cell :=
  <["target_default" := CInt (label_of r)]> r.

(** [df.drop(columns=[c for c in labels if c in df.columns])]. *)
Definition drop_existing (labels : list string) (df : DataFrame) : DataFrame :=
  {| columns :=
       filter (λ c, c ∉ filter (λ col, col ∈ columns df) labels) (columns df);
     rows := (λ r, foldr delete r (filter (λ col, col ∈ columns df) labels))
               <$> rows df |}.

(** The frame [label_and_drop] returns when it returns one. *)
Definition labelled (ft : DataFrame) : DataFrame :=
  set_column "target_default" (CInt <$> (label_of <$> rows ft)) ft.

Definition anonymized (ft : DataFrame) : DataFrame :=
  drop_existing privacy_cols (drop_existing future_leak_cols (labelled ft)).

(** The rows of the frame carry no cell outside its columns. *)
Definition well_formed (df : DataFrame) : Prop :=
  ∀ (r : gmap string cell) (c : string),
    r ∈ rows df → is_Some (r !! c) → c ∈ columns df.

(** Every selected row has the label [lbl]. *)
Definition only_class (ft : DataFrame) (lbl : Z) : Prop :=
  ∀ r : gmap string cell, r ∈ rows ft → label_of r = lbl.
End AnonymizeRows.

(** ** The strata read row by row *)

Section StrataRows.
Context `{PyFloat}.

(** The stratum of a row: the string of its ['strata'] cell. *)
Definition stratum_of (r : gmap string cell) : option string :=
  match r !! "strata" with
  | Some (CStr s) => Some s
  | _ => None
  end.

Definition in_stratum (k : string) (r : gmap string cell) : bool :=
  bool_decide (stratum_of r = Some k).
End StrataRows.

Section StrataPieces.
Context `{PandasLib}.

(** The size line 168 stores for the stratum [k] of a frame whose
    ['strata'] column is [strata_col]. *)
Definition size_of (df : DataFrame) (strata_col : list string)
    (target_size : Z) (k : string) : Z :=
  stratum_size target_size
    (fdiv (of_int (Z.of_nat (count_of k strata_col))) (of_int (len df)))
    (Z.of_nat (count_of k strata_col)).

(** The frame one stratum gives to a sample that is returned: none for a
    size that is not above zero, the rows drawn otherwise. *)
Definition stratum_drawn (df : DataFrame) (strata_col : list string)
    (random_state : Z) (strata : string) (sample_size : Z) : option DataFrame :=
  if bool_decide (0 < sample_size) then
    let strata_data :=
      select_rows ((λ s, bool_decide (s = strata)) <$> strata_col) df in
    Some (if bool_decide (sample_size ≤ len strata_data)
          then drawn sample_size random_state strata_data
          else strata_data)
  else None.

(** The rows the stratum [k] gives to the sample. *)
Definition piece (df : DataFrame) (strata_col : list string)
    (target_size random_state : Z) (k : string) : list (gmap string cell) :=
  from_option rows []
    (stratum_drawn df strata_col random_state k
       (size_of df strata_col target_size k)).
End StrataPieces.

(** The size the specification gives the sample of a stratum of
    [available] rows in a table of [total] rows: the floor of [target_size]
    times the share of the stratum, a product of rational numbers, 1 when
    that is zero and the stratum has a row, and at most the rows
    available. *)
Definition claimed_size (target_size available total : Z) : Z :=
  let share := (inject_Z available / inject_Z total)%Q in
  let desired := Qfloor (inject_Z target_size * share) in
  let desired :=
    if decide (desired = 0 ∧ 0 < available) then 1 else desired in
  Z.min desired available.

(** The same size with the product and the share the code computes, which
    are floats: the floor is that of the float [target_size * prop]. *)
Definition floored_size `{PyFloat} (target_size : Z) (share : float)
    (available : Z) : Z :=
  let desired := ffloor (fmul (of_int target_size) share) in
  let desired :=
    if decide (desired = 0 ∧ 0 < available) then 1 else desired in
  Z.min desired available.

(** ** The distribution of the years, year by year *)

Section Shares.
Context `{PandasLib}.

(** The years of the rows of a table, when its dates can be read. *)
Definition years_of (df : DataFrame) : list (option Z) :=
  match issue_d ← get_column "issue_d" df; dt_year issue_d with
  | Ok years => years
  | Raise _ => []
  end.

(** The share of the year [y] among the years that are not missing. *)
Definition share (years : list (option Z)) (y : Z) : float :=
  fdiv (of_int (Z.of_nat (count_of y (omap id years))))
       (of_int (Z.of_nat (length (omap id years)))).

(** C7 as the specification states it: a row for every year of either
    table, with the share of the year in the source, its share in the
    sample and the absolute difference of the two, each in percent rounded
    to one decimal, the rows in ascending order of the year. *)
Definition report_as_specified (original sample : list (option Z))
    (report : list comparison_row) : Prop :=
  StronglySorted Z.lt (year <$> report) ∧
  (∀ y : Z, y ∈ year <$> report ↔ Some y ∈ original ∨ Some y ∈ sample) ∧
  ∀ row, row ∈ report →
    original_pct row = Some (percent (share original (year row))) ∧
    amostra_pct row = Some (percent (share sample (year row))) ∧
    diferenca_pp row
    = Some (abs_percent (fsub (share original (year row))
                              (share sample (year row)))).
End Shares.

(** ** The year of a date *)

Section Years.
Context `{PyFloat}.

(** The year [dt.year] gives for a cell of a datetime column. *)
Definition cell_year (c : cell) : option Z :=
  match c with
  | CDate d => Some (ts_year d)
  | _ => None
  end.
End Years.

(** ** An instance of the interfaces *)

(** Floats without rounding error: the rationals, kept in lowest terms.
    [fround1] rounds the tenths to the nearest, a tie to the even one, as
    numpy does. *)
Definition rint (q : Q) : Z :=
  let f := Qfloor q in
  match (q - inject_Z f ?= 1 # 2)%Q with
  | Lt => f
  | Gt => f + 1
  | Eq => if Z.even f then f else f + 1
  end.

#[global, refine] Instance exact_float : PyFloat := {|
  float := Q;
  of_int := inject_Z;
  fmul x y := Qred (x * y);
  fdiv x y := Qred (x / y);
  fsub x y := Qred (x - y);
  fabs x := Qabs x;
  fround1 x := Qred (inject_Z (rint (x * inject_Z 10)) / inject_Z 10);
  fvalue x := x
|}.
Proof.
  - intros z Hz. unfold Qle; simpl. lia.
  - intros x y Hx Hy. rewrite Qred_correct. by apply Qmult_le_0_compat.
  - intros x y Hx Hy. rewrite Qred_correct.
    apply Qmult_le_0_compat; [done|]. by apply Qinv_le_0_compat.
Defined.

(** The dates [to_datetime] reads here: ISO dates [YYYY-MM-DD] and the
    [Mon-YYYY] strings of the Lending Club files, one format for the whole
    column; a missing value becomes [NaT], a timestamp is kept, and anything
    else is refused. *)
Definition digit (a : Ascii.ascii) : option Z :=
  let n := Z.of_nat (Ascii.nat_of_ascii a) in
  if bool_decide (48 ≤ n ≤ 57) then Some (n - 48) else None.

Fixpoint digits (acc : Z) (s : list Ascii.ascii) : option Z :=
  match s with
  | [] => Some acc
  | a :: s => d ← digit a; digits (10 * acc + d) s
  end.

Definition hyphen : Ascii.ascii := Ascii.ascii_of_nat 45.

Definition is_leap (y : Z) : bool :=
  bool_decide (y mod 4 = 0) &&
  (negb (bool_decide (y mod 100 = 0)) || bool_decide (y mod 400 = 0)).

Definition days_in_month (y m : Z) : Z :=
  if bool_decide (m = 2) then (if is_leap y then 29 else 28)
  else if bool_decide (m ∈ [4; 6; 9; 11]) then 30
  else 31.

Definition parse_iso (s : string) : option Timestamp :=
  match String.list_ascii_of_string s with
  | [y1; y2; y3; y4; s1; m1; m2; s2; d1; d2] =>
    y ← digits 0 [y1; y2; y3; y4];
    m ← digits 0 [m1; m2];
    d ← digits 0 [d1; d2];
    if bool_decide (s1 = hyphen) && bool_decide (s2 = hyphen)
       && bool_decide (1 ≤ m ≤ 12) && bool_decide (1 ≤ d ≤ days_in_month y m)
    then Some (midnight y m d) else None
  | _ => None
  end.

Definition month_names : list string :=
  ["Jan"; "Feb"; "Mar"; "Apr"; "May"; "Jun";
   "Jul"; "Aug"; "Sep"; "Oct"; "Nov"; "Dec"].

Definition parse_month_year (s : string) : option Timestamp :=
  match String.list_ascii_of_string s with
  | [b1; b2; b3; s1; y1; y2; y3; y4] =>
    y ← digits 0 [y1; y2; y3; y4];
    m ← list_find (λ n, n = String.string_of_list_ascii [b1; b2; b3]) month_names;
    if bool_decide (s1 = hyphen)
    then Some (midnight y (Z.of_nat m.1 + 1) 1) else None
  | _ => None
  end.

Fixpoint parse_column (parse : string → option Timestamp)
    (column : list (@cell exact_float)) : option (list (option Timestamp)) :=
  match column with
  | [] => Some []
  | c :: column =>
    d ← match c with
        | CStr s => Some <$> parse s
        | CDate t => Some (Some t)
        | CNaN | CNaT => Some None
        | _ => None
        end;
    ds ← parse_column parse column;
    Some (d :: ds)
  end.

Definition sample_to_datetime (column : list (@cell exact_float))
  : result (list (option Timestamp)) :=
  match parse_column parse_iso column with
  | Some ds => Ok ds
  | None =>
    match parse_column parse_month_year column with
    | Some ds => Ok ds
    | None => Raise ParserError
    end
  end.

(** The strings [astype(str)] gives here: an integer column prints its
    integers, a float prints with its decimal point when it is integral. *)
Definition two_digits (z : Z) : string :=
  if bool_decide (z < 10) then "0" +:+ pretty z else pretty z.

Definition cell_str (c : @cell exact_float) : string :=
  match c with
  | CNaN => "nan"
  | CNaT => "NaT"
  | CStr s => s
  | CInt z => pretty z
  | CFloat x =>
    if bool_decide (Qden (Qred x) = 1%positive) then pretty (Qnum (Qred x)) +:+ ".0"
    else pretty (Qnum (Qred x)) +:+ "/" +:+ pretty (Zpos (Qden (Qred x)))
  | CDate t =>
    pretty (ts_year t) +:+ "-" +:+ two_digits (ts_month t)
      +:+ "-" +:+ two_digits (ts_day t)
  end.

(** The permutation drawn here: the positions, rotated by the seed. *)
Definition sample_permutation (seed : Z) (n : nat) : list nat :=
  rotate (Z.to_nat (Z.abs seed)) (seq 0 n).

#[global, refine] Instance sample_pandas : @PandasLib exact_float := {|
  to_datetime := sample_to_datetime;
  astype_str column := cell_str <$> column;
  permutation := sample_permutation
|}.
Proof.
  - assert (Hlen : ∀ parse l l',
      parse_column parse l = Some l' → length l' = length l).
    { intros parse l. induction l as [|c l IH]; intros l' Hl; simpl in Hl.
      - by inversion Hl.
      - destruct (match c with CStr s => Some <$> parse s | CDate t => Some (Some t)
                  | CNaN | CNaT => Some None | _ => None end); [|done].
        simpl in Hl. destruct (parse_column parse l) eqn:E; [|done].
        inversion Hl; subst. simpl. f_equal. by apply IH. }
    intros l l'. unfold sample_to_datetime.
    destruct (parse_column parse_iso l) eqn:E1.
    + intros [= <-]. eauto.
    + destruct (parse_column parse_month_year l) eqn:E2; [|done].
      intros [= <-]. eauto.
  - intros l. by rewrite length_fmap.
  - intros seed n. unfold sample_permutation, rotate.
    rewrite Permutation_app_comm. by rewrite take_drop.
Defined.

(** Equality of the frames of this instance is decidable, which lets a
    computed frame be compared with the expected one. *)
#[global] Instance Q_eq_dec : EqDecision Q.
Proof. solve_decision. Defined.

#[global] Instance Timestamp_eq_dec : EqDecision Timestamp.
Proof. solve_decision. Defined.

#[global] Instance cell_eq_dec : EqDecision (@cell exact_float).
Proof. solve_decision. Defined.

#[global] Instance DataFrame_eq_dec : EqDecision (@DataFrame exact_float).
Proof. solve_decision. Defined.

#[global] Instance compression_eq_dec : EqDecision compression.
Proof. solve_decision. Defined.

#[global] Instance exn_eq_dec : EqDecision exn.
Proof. solve_decision. Defined.

#[global] Instance result_eq_dec {A} `{EqDecision A} : EqDecision (result A).
Proof. solve_decision. Defined.

#[global] Instance comparison_row_eq_dec
  : EqDecision (@comparison_row exact_float).
Proof. solve_decision. Defined.

#[global] Instance pipeline_exn_eq_dec : EqDecision pipeline_exn.
Proof. solve_decision. Defined.

#[global] Instance outcome_eq_dec {A} `{EqDecision A} : EqDecision (outcome A).
Proof. solve_decision. Defined.

#[global] Instance FileInfo_eq_dec : EqDecision (@FileInfo exact_float).
Proof. solve_decision. Defined.

#[global] Instance ProcessInfo_eq_dec : EqDecision (@ProcessInfo exact_float).
Proof. solve_decision. Defined.

(** ** The binary64 floats

    The floats of the interpreter and of numpy: a finite float is the
    rational number it stands for, and every operation gives the float
    nearest to the exact result, a tie going to the even significand of 53
    bits.  The exponent is not bounded: the numbers of rows and the shares
    computed here are far from the overflow and underflow thresholds. *)

(** The exponent of [q > 0]: the [k] with [2 ^ k <= q < 2 ^ (k + 1)]. *)
Definition ilog2 (q : Q) : Z :=
  let k := Z.log2 (Qnum q) - Z.log2 (Zpos (Qden q)) in
  if Qle_bool (2 ^ k) q then k else k - 1.

Definition round_to_binary64 (q : Q) : Q :=
  match (q ?= 0)%Q with
  | Eq => 0
  | Gt => let e := ilog2 q - 52 in Qred (inject_Z (rint (q / 2 ^ e)) * 2 ^ e)
  | Lt => let e := ilog2 (- q) - 52 in
          Qred (- (inject_Z (rint (- q / 2 ^ e)) * 2 ^ e))
  end.

(** Rounding keeps the sign: the float nearest to a number that is not
    negative is not negative. *)
Ltac rint_nonneg :=
  lazymatch goal with
  | |- 0 ≤ rint ?q =>
    let Hfloor := fresh in
    assert (0 ≤ Qfloor q) as Hfloor;
    [ rewrite <-(Qfloor_Z 0); apply Qfloor_resp_le
    | unfold rint; destruct (_ - _ ?= _)%Q; [destruct (Z.even _)| |]; lia ]
  end.

Ltac round_to_binary64_nonneg Hq :=
  unfold round_to_binary64;
  let Hcmp := fresh in
  destruct (_ ?= 0)%Q eqn:Hcmp;
  [ apply Qle_refl
  | apply Qlt_alt in Hcmp; by apply Qle_not_lt in Hq
  | rewrite Qred_correct; apply Qmult_le_0_compat;
    [ change 0%Q with (inject_Z 0); rewrite <-Zle_Qle; rint_nonneg;
      apply Qmult_le_0_compat; [done|];
      apply Qinv_le_0_compat, Qpower_0_le; by unfold Qle
    | apply Qpower_0_le; by unfold Qle ] ].

#[global, refine] Instance binary64 : PyFloat | 100 := {|
  float := Q;
  of_int z := round_to_binary64 (inject_Z z);
  fmul x y := round_to_binary64 (x * y);
  fdiv x y := round_to_binary64 (x / y);
  fsub x y := round_to_binary64 (x - y);
  fabs x := Qabs x;
  fround1 x :=
    round_to_binary64
      (inject_Z (rint (round_to_binary64 (x * inject_Z 10))) / inject_Z 10);
  fvalue x := x
|}.
Proof.
  - intros z Hz.
    assert (0 <= inject_Z z)%Q as Hq by (unfold Qle; simpl; lia).
    round_to_binary64_nonneg Hq.
  - intros x y Hx Hy.
    assert (0 <= x * y)%Q as Hq by by apply Qmult_le_0_compat.
    round_to_binary64_nonneg Hq.
  - intros x y Hx Hy.
    assert (0 <= x / y)%Q as Hq
      by (apply Qmult_le_0_compat; [done|]; by apply Qinv_le_0_compat).
    round_to_binary64_nonneg Hq.
Defined.

(** The parser, the strings and the permutation above, for the cells of
    binary64 floats. *)
Definition exact_cell (c : @cell binary64) : @cell exact_float :=
  match c with
  | CNaN => CNaN
  | CNaT => CNaT
  | CStr s => CStr s
  | CInt z => CInt z
  | CFloat x => @CFloat exact_float x
  | CDate t => CDate t
  end.

#[global, refine] Instance binary64_pandas : @PandasLib binary64 | 100 := {|
  to_datetime column := sample_to_datetime (exact_cell <$> column);
  astype_str column := cell_str <$> (exact_cell <$> column);
  permutation := sample_permutation
|}.
Proof.
  - intros l l' Hl.
    apply (@to_datetime_length exact_float sample_pandas) in Hl.
    by rewrite length_fmap in Hl.
  - intros l. by rewrite !length_fmap.
  - apply (@permutation_Permutation exact_float sample_pandas).
Defined.

#[global] Instance binary64_cell_eq_dec : EqDecision (@cell binary64).
Proof. solve_decision. Defined.

(** A decidable proposition is proved by the evaluation of its decision. *)
Ltac by_evaluation :=
  lazymatch goal with
  | |- ?P =>
    let d := constr:(ltac:(apply _) : Decision P) in
    apply (@bool_decide_unpack P d); vm_compute; exact I
  end.

(** ** Tables to run the definitions on *)

Definition loan (id : Z) (issue_d : @cell exact_float) (loan_status : string)
  : gmap string (@cell exact_float) :=
  list_to_map
    ([("id", CInt id); ("issue_d", issue_d); ("loan_status", CStr loan_status);
      ("loan_amnt", CInt (1000 * id))]
     ++ ((λ c, (c, CStr "x")) <$> future_leak_cols ++ privacy_cols)).

Definition loan_columns : list string :=
  ["id"; "issue_d"; "loan_status"; "loan_amnt"]
    ++ future_leak_cols ++ privacy_cols.

(** Seven loans as [read_csv] gives them, with the sixteen leakage columns
    and the five privacy columns. *)
Definition loans : @DataFrame exact_float :=
  {| columns := loan_columns;
     rows := [loan 1 (CStr "2015-03-01") "Fully Paid";
              loan 2 (CStr "2014-12-31") "Fully Paid";
              loan 3 (CStr "2016-05-01") "Current";
              loan 4 (CStr "2020-12-31") "Charged Off";
              loan 5 (CStr "2016-07-01") "Default";
              loan 6 (CStr "2016-08-01") "Fully Paid";
              loan 7 (CStr "2021-01-01") "Charged Off"] |}.

(** The same loans once [anonymize_and_filter_data] has run on them. *)
Definition loans_parsed : @DataFrame exact_float :=
  {| columns := loan_columns;
     rows := [loan 1 (CDate (midnight 2015 3 1)) "Fully Paid";
              loan 2 (CDate (midnight 2014 12 31)) "Fully Paid";
              loan 3 (CDate (midnight 2016 5 1)) "Current";
              loan 4 (CDate (midnight 2020 12 31)) "Charged Off";
              loan 5 (CDate (midnight 2016 7 1)) "Default";
              loan 6 (CDate (midnight 2016 8 1)) "Fully Paid";
              loan 7 (CDate (midnight 2021 1 1)) "Charged Off"] |}.

Definition anonymized_loan (id : Z) (issue_d : Timestamp) (loan_status : string)
    (target_default : Z) : gmap string (@cell exact_float) :=
  list_to_map
    [("id", CInt id); ("issue_d", CDate issue_d);
     ("loan_status", CStr loan_status); ("loan_amnt", CInt (1000 * id));
     ("target_default", CInt target_default)].

(** The frame [anonymize_and_filter_data] returns for them. *)
Definition loans_anonymized : @DataFrame exact_float :=
  {| columns := ["id"; "issue_d"; "loan_status"; "loan_amnt"; "target_default"];
     rows := [anonymized_loan 1 (midnight 2015 3 1) "Fully Paid" 0;
              anonymized_loan 4 (midnight 2020 12 31) "Charged Off" 1;
              anonymized_loan 5 (midnight 2016 7 1) "Default" 1;
              anonymized_loan 6 (midnight 2016 8 1) "Fully Paid" 0] |}.

(** The rows of [loans_parsed] the date and status filters keep. *)
Definition loans_selected : @DataFrame exact_float :=
  {| columns := loan_columns;
     rows := [loan 1 (CDate (midnight 2015 3 1)) "Fully Paid";
              loan 4 (CDate (midnight 2020 12 31)) "Charged Off";
              loan 5 (CDate (midnight 2016 7 1)) "Default";
              loan 6 (CDate (midnight 2016 8 1)) "Fully Paid"] |}.

(** Loans of which the filters keep paid ones only. *)
Definition paid_loans : @DataFrame exact_float :=
  {| columns := ["id"; "issue_d"; "loan_status"];
     rows := [list_to_map [("id", CInt 1); ("issue_d", CStr "Mar-2015");
                           ("loan_status", CStr "Fully Paid")];
              list_to_map [("id", CInt 2); ("issue_d", CStr "Apr-2016");
                           ("loan_status", CStr "Current")];
              list_to_map [("id", CInt 3); ("issue_d", CStr "Dec-2020");
                           ("loan_status", CStr "Fully Paid")]] |}.

Definition paid_loans_parsed : @DataFrame exact_float :=
  {| columns := ["id"; "issue_d"; "loan_status"];
     rows := [list_to_map [("id", CInt 1); ("issue_d", CDate (midnight 2015 3 1));
                           ("loan_status", CStr "Fully Paid")];
              list_to_map [("id", CInt 2); ("issue_d", CDate (midnight 2016 4 1));
                           ("loan_status", CStr "Current")];
              list_to_map [("id", CInt 3); ("issue_d", CDate (midnight 2020 12 1));
                           ("loan_status", CStr "Fully Paid")]] |}.

Definition paid_loans_selected : @DataFrame exact_float :=
  {| columns := ["id"; "issue_d"; "loan_status"];
     rows := [list_to_map [("id", CInt 1); ("issue_d", CDate (midnight 2015 3 1));
                           ("loan_status", CStr "Fully Paid")];
              list_to_map [("id", CInt 3); ("issue_d", CDate (midnight 2020 12 1));
                           ("loan_status", CStr "Fully Paid")]] |}.

(** Two loans in a table that has none of the leakage and privacy
    columns, and the frame returned for them. *)
Definition plain_loans : @DataFrame exact_float :=
  {| columns := ["id"; "issue_d"; "loan_status"];
     rows := [list_to_map [("id", CInt 1); ("issue_d", CStr "Mar-2015");
                           ("loan_status", CStr "Fully Paid")];
              list_to_map [("id", CInt 2); ("issue_d", CStr "Apr-2016");
                           ("loan_status", CStr "Late (31-120 days)")]] |}.

Definition plain_loans_anonymized : @DataFrame exact_float :=
  {| columns := ["id"; "issue_d"; "loan_status"; "target_default"];
     rows := [list_to_map [("id", CInt 1); ("issue_d", CDate (midnight 2015 3 1));
                           ("loan_status", CStr "Fully Paid");
                           ("target_default", CInt 0)];
              list_to_map [("id", CInt 2); ("issue_d", CDate (midnight 2016 4 1));
                           ("loan_status", CStr "Late (31-120 days)");
                           ("target_default", CInt 1)]] |}.

(** Four labelled loans: three paid ones of 2016 and a default of 2017. *)
Definition labelled_loan (id : Z) (issue_d : Timestamp) (target_default : Z)
  : gmap string (@cell exact_float) :=
  list_to_map [("id", CInt id); ("issue_d", CDate issue_d);
               ("target_default", CInt target_default)].

Definition labelled_loans : @DataFrame exact_float :=
  {| columns := ["id"; "issue_d"; "target_default"];
     rows := [labelled_loan 1 (midnight 2016 1 1) 0;
              labelled_loan 2 (midnight 2016 2 1) 0;
              labelled_loan 3 (midnight 2017 3 1) 1;
              labelled_loan 4 (midnight 2016 4 1) 0] |}.

(** The loans as [create_stratified_sample] leaves them. *)
Definition stratified_loan (id : Z) (issue_d : Timestamp) (target_default : Z)
    (strata : string) : gmap string (@cell exact_float) :=
  <["strata" := CStr strata]>
    (<["ano" := CInt (ts_year issue_d)]>
       (labelled_loan id issue_d target_default)).

Definition stratified_loans : @DataFrame exact_float :=
  {| columns := ["id"; "issue_d"; "target_default"; "ano"; "strata"];
     rows := [stratified_loan 1 (midnight 2016 1 1) 0 "2016_0";
              stratified_loan 2 (midnight 2016 2 1) 0 "2016_0";
              stratified_loan 3 (midnight 2017 3 1) 1 "2017_1";
              stratified_loan 4 (midnight 2016 4 1) 0 "2016_0"] |}.

Definition sampled_loan (id : Z) (issue_d : Timestamp) (target_default : Z)
  : gmap string (@cell exact_float) :=
  <["ano" := CInt (ts_year issue_d)]> (labelled_loan id issue_d target_default).

(** The sample of target size 2 and seed 43: the second of the three loans
    of 2016 and the loan of 2017. *)
Definition sample_of_two : @DataFrame exact_float :=
  {| columns := ["id"; "issue_d"; "target_default"; "ano"];
     rows := [sampled_loan 2 (midnight 2016 2 1) 0;
              sampled_loan 3 (midnight 2017 3 1) 1] |}.

(** The sample of target size -2: the loan of 2017 alone. *)
Definition sample_of_minus_two : @DataFrame exact_float :=
  {| columns := ["id"; "issue_d"; "target_default"; "ano"];
     rows := [sampled_loan 3 (midnight 2017 3 1) 1] |}.

(** A hundred labelled loans of 2016 with binary64 floats: 29 defaults
    followed by 71 paid loans. *)
Definition hundred_loans : @DataFrame binary64 :=
  {| columns := ["id"; "issue_d"; "target_default"];
     rows := (λ id : Z,
                list_to_map [("id", CInt id);
                             ("issue_d", CDate (midnight 2016 1 1));
                             ("target_default",
                              CInt (if bool_decide (id ≤ 29) then 1 else 0))])
             <$> seqZ 1 100 |}.

(** A file system with one file, [data.gzip], of plain text, and a reader
    that records the compression it is asked for. *)
Definition plain_file : list Init.Byte.byte :=
  [Init.Byte.x69; Init.Byte.x64; Init.Byte.x0a].

Definition one_file : filesystem :=
  λ path, if decide (path = "data.gzip") then Some plain_file else None.

Definition recording_reader (content : list Init.Byte.byte)
    (c : option compression) : result (@DataFrame exact_float) :=
  Ok {| columns := [if c is Some gzip then "gzip" else "plain"]; rows := [] |}.

(** A table of loans of 2015 and a table of loans of 2016. *)
Definition loans_of_2015 : @DataFrame exact_float :=
  {| columns := ["id"; "issue_d"];
     rows := [list_to_map [("id", CInt 1); ("issue_d", CDate (midnight 2015 1 1))];
              list_to_map [("id", CInt 2); ("issue_d", CDate (midnight 2015 6 1))]] |}.

Definition loans_of_2016 : @DataFrame exact_float :=
  {| columns := ["id"; "issue_d"];
     rows := [list_to_map [("id", CInt 3); ("issue_d", CDate (midnight 2016 1 1))]] |}.

(** The report the code returns for them. *)
Definition report_2015_2016 : list (@comparison_row exact_float) :=
  [{| year := 2015; original_pct := Some (inject_Z 100);
      amostra_pct := None; diferenca_pp := None |};
   {| year := 2016; original_pct := None;
      amostra_pct := Some (inject_Z 100); diferenca_pp := None |}].

(** The report on the labelled loans and their sample of two. *)
Definition report_of_two : list (@comparison_row exact_float) :=
  [{| year := 2016; original_pct := Some (inject_Z 75);
      amostra_pct := Some (inject_Z 50); diferenca_pp := Some (inject_Z 25) |};
   {| year := 2017; original_pct := Some (inject_Z 25);
      amostra_pct := Some (inject_Z 50); diferenca_pp := Some (inject_Z 25) |}].

(** A machine before and after a download: the client leaves three files
    in the working directory, of which the archive is the largest; the
    reader gives the seven loans for a compressed file, and the writer
    writes a gzip header followed by a byte for every row. *)
Definition before_download : os_state :=
  {| os_files := λ _, None;
     os_listdir := λ path, Raise (FileNotFoundError path);
     os_getsize := λ path, Raise (FileNotFoundError path) |}.

Definition archive : list Init.Byte.byte :=
  [Init.Byte.x1f; Init.Byte.x8b; Init.Byte.x08; Init.Byte.x00].

Definition after_download : os_state :=
  {| os_files := λ path,
       if decide (path = "loans.csv.gz") then Some archive
       else if decide (path = "sample.csv") then Some plain_file
       else None;
     os_listdir := λ path,
       if decide (path = ".") then Ok ["README.md"; "sample.csv"; "loans.csv.gz"]
       else Raise (FileNotFoundError path);
     os_getsize := λ path,
       if decide (path = "./loans.csv.gz") then Ok 4
       else if decide (path = "./sample.csv") then Ok 3
       else if decide (path = "./README.md") then Ok 100
       else Raise (FileNotFoundError path) |}.

Definition kaggle_client : kaggle_module :=
  Some (λ _ _ _, (after_download, None)).

Definition only_readme : os_state :=
  {| os_files := λ _, None;
     os_listdir := λ path, Ok ["README.md"; "data.json"; "loans.gz"];
     os_getsize := λ path, Ok 100 |}.

Definition loans_reader (content : list Init.Byte.byte)
    (c : option compression) : result (@DataFrame exact_float) :=
  if decide (content = archive ∧ c = Some gzip) then Ok loans
  else Raise ParserError.

Definition rows_writer (df : @DataFrame exact_float) (c : option compression)
  : list Init.Byte.byte :=
  (if c is Some gzip then [Init.Byte.x1f; Init.Byte.x8b] else [])
    ++ replicate (length (rows df)) Init.Byte.x0a.

(** A system that writes every file, and one whose files cannot be
    written. *)
Definition file_writer (fs : filesystem) (path : string)
    (content : list Init.Byte.byte) : filesystem * option pipeline_exn :=
  (write_file fs path content, None).


(** The information on the file of the four anonymised loans: six bytes. *)
Definition saved_info : @FileInfo exact_float :=
  {| file_size_mb := 3 # 524288; records := 4; github_suitable := true |}.

(** The sample and the information the pipeline returns on this machine
    for the target size 2: every loan is alone in its stratum, and the
    sample has the four of them. *)
Definition pipeline_sample : @DataFrame exact_float :=
  {| columns := ["id"; "issue_d"; "loan_status"; "loan_amnt"; "target_default";
                 "ano"];
     rows := [<["ano" := CInt 2015]>
                (anonymized_loan 1 (midnight 2015 3 1) "Fully Paid" 0);
              <["ano" := CInt 2020]>
                (anonymized_loan 4 (midnight 2020 12 31) "Charged Off" 1);
              <["ano" := CInt 2016]>
                (anonymized_loan 5 (midnight 2016 7 1) "Default" 1);
              <["ano" := CInt 2016]>
                (anonymized_loan 6 (midnight 2016 8 1) "Fully Paid" 0)] |}.

Definition pipeline_info : @ProcessInfo exact_float :=
  {| original_shape := (7, 25);
     filtered_shape := (4, 7);
     sample_shape := (4, 6);
     file_info := saved_info;
     temporal_analysis :=
       [{| year := 2015; original_pct := Some (inject_Z 25);
           amostra_pct := Some (inject_Z 25);
           diferenca_pp := Some (inject_Z 0) |};
        {| year := 2016; original_pct := Some (inject_Z 50);
           amostra_pct := Some (inject_Z 50);
           diferenca_pp := Some (inject_Z 0) |};
        {| year := 2020; original_pct := Some (inject_Z 25);
           amostra_pct := Some (inject_Z 25);
           diferenca_pp := Some (inject_Z 0) |}] |}.

(** * Properties *)

(** ** Results *)

Lemma bind_Ok {A B} (a : A) (k : A → result B) : Ok a ≫= k = k a.
Proof. done. Qed.

Lemma bind_Raise {A B} e (k : A → result B) : Raise e ≫= k = Raise e.
Proof. done. Qed.

(** ** Lists, rows and frames *)

Section FrameFacts.
Context {HF : PyFloat}.

Lemma masked_fmap {A} (f : A → bool) (l : list A) :
  masked l (f <$> l) = filter (λ x, f x) l.
Proof.
  induction l as [|x l IH]; [done|].
  rewrite filter_cons, fmap_cons. simpl. rewrite IH.
  destruct (f x); case_decide; naive_solver.
Qed.

Lemma zip_with_fmap_same {A B C D} (g : B → C → D) (f1 : A → B) (f2 : A → C)
    (l : list A) :
  zip_with g (f1 <$> l) (f2 <$> l) = (λ x, g (f1 x) (f2 x)) <$> l.
Proof. induction l as [|x l IH]; [done|]. csimpl. by f_equal. Qed.

Lemma zip_with_fmap_self {A B C} (g : A → B → C) (f : A → B) (l : list A) :
  zip_with g l (f <$> l) = (λ x, g x (f x)) <$> l.
Proof. induction l as [|x l IH]; [done|]. csimpl. by f_equal. Qed.

Lemma elem_of_zip_with_insert (c : string) (l : list (gmap string cell))
    (vals : list cell) r :
  r ∈ zip_with (λ r v, <[c := v]> r) l vals →
  ∃ r0 v, r0 ∈ l ∧ v ∈ vals ∧ r = <[c := v]> r0.
Proof.
  intros (r0 & v & -> & Hr & Hv)%elem_of_zip_with. eauto.
Qed.

Lemma set_column_get (c : string) (vals : list cell) (df : DataFrame) :
  length vals = length (rows df) →
  get_column c (set_column c vals df) = Ok vals.
Proof.
  intros Hlen. unfold get_column, set_column; simpl.
  rewrite decide_True
    by (destruct (decide (c ∈ columns df));
        [done|apply elem_of_app; right; apply list_elem_of_singleton; done]).
  f_equal. revert vals Hlen. induction (rows df) as [|r l IH];
    intros [|v vals] Hlen; simplify_eq/=; [done|].
  unfold cell_of at 1. rewrite lookup_insert_eq. simpl. f_equal. eauto.
Qed.

Lemma set_column_cells_ne (c c' : string) (vals : list cell) (df : DataFrame) :
  c ≠ c' → length vals = length (rows df) →
  cell_of c' <$> rows (set_column c vals df) = cell_of c' <$> rows df.
Proof.
  intros Hne Hlen. unfold set_column; simpl.
  revert vals Hlen. induction (rows df) as [|r l IH];
    intros [|v vals] Hlen; simplify_eq/=; [done|].
  unfold cell_of at 1 3. rewrite lookup_insert_ne by done. f_equal. eauto.
Qed.

Lemma set_column_length (c : string) (vals : list cell) (df : DataFrame) :
  length vals = length (rows df) →
  length (rows (set_column c vals df)) = length (rows df).
Proof. intros Hlen. simpl. rewrite length_zip_with. lia. Qed.

Lemma elem_of_set_column_columns (c c' : string) vals (df : DataFrame) :
  c' ∈ columns (set_column c vals df) ↔ c' ∈ columns df ∨ c' = c.
Proof.
  simpl. destruct (decide (c ∈ columns df)).
  - split; [auto|]. by intros [?| ->].
  - rewrite elem_of_app, list_elem_of_singleton. done.
Qed.

Lemma get_column_Ok (c : string) (df : DataFrame) col :
  get_column c df = Ok col → c ∈ columns df ∧ col = cell_of c <$> rows df.
Proof. unfold get_column. case_decide; naive_solver. Qed.

Lemma get_column_elem (c : string) (df : DataFrame) :
  c ∈ columns df → get_column c df = Ok (cell_of c <$> rows df).
Proof. intros. unfold get_column. by rewrite decide_True. Qed.

Lemma drop_columns_existing (labels : list string) (df : DataFrame) :
  drop_columns (filter (λ col, col ∈ columns df) labels) df
  = Ok {| columns :=
            filter (λ c, c ∉ filter (λ col, col ∈ columns df) labels) (columns df);
          rows := (λ r, foldr delete r (filter (λ col, col ∈ columns df) labels))
                    <$> rows df |}.
Proof.
  unfold drop_columns.
  replace (filter (λ c, c ∉ columns df) (filter (λ col, col ∈ columns df) labels))
    with (@nil string); [done|].
  symmetry. induction labels as [|c l IH]; [done|].
  rewrite filter_cons. destruct (decide (c ∈ columns df)); [|done].
  rewrite filter_cons. by destruct (decide (c ∉ columns df)).
Qed.

Lemma lookup_foldr_delete (labels : list string) (r : gmap string cell) c :
  foldr delete r labels !! c = if decide (c ∈ labels) then None else r !! c.
Proof.
  induction labels as [|l labels IH]; simpl.
  - destruct (decide (c ∈ [])) as [Hin|]; [by apply elem_of_nil in Hin|done].
  - destruct (decide (l = c)) as [->|Hne].
    + rewrite lookup_delete_eq.
      destruct (decide (c ∈ c :: labels)) as [|Hn]; [done|].
      destruct Hn. left.
    + rewrite lookup_delete_ne by done. rewrite IH.
      destruct (decide (c ∈ labels)), (decide (c ∈ l :: labels)) as [Hin|Hn];
        try done.
      * destruct Hn. by right.
      * apply elem_of_cons in Hin as [->|?]; done.
Qed.
End FrameFacts.

(** ** Value counts *)

Section SeriesFacts.
Context {K : Type} `{EqDecision K}.

Lemma elem_of_unique (x : K) (l : list K) : x ∈ unique l ↔ x ∈ l.
Proof.
  induction l as [|y l IH]; [done|]. simpl.
  rewrite !elem_of_cons, list_elem_of_filter, IH.
  destruct (decide (x = y)); naive_solver.
Qed.

Lemma NoDup_unique (l : list K) : NoDup (unique l).
Proof.
  induction l as [|y l IH]; simpl; [constructor|].
  constructor; [|by apply NoDup_filter].
  rewrite list_elem_of_filter. naive_solver.
Qed.

Lemma value_counts_Permutation (l : list K) :
  value_counts l ≡ₚ (λ k, (k, count_of k l)) <$> unique l.
Proof. apply merge_sort_Permutation. Qed.

Lemma value_counts_keys (l : list K) : (value_counts l).*1 ≡ₚ unique l.
Proof.
  rewrite value_counts_Permutation, <-list_fmap_compose.
  unfold compose; simpl. by rewrite list_fmap_id.
Qed.

Lemma elem_of_value_counts (l : list K) k n :
  (k, n) ∈ value_counts l ↔ k ∈ l ∧ n = count_of k l.
Proof.
  rewrite value_counts_Permutation, list_elem_of_fmap.
  setoid_rewrite elem_of_unique. naive_solver.
Qed.

Lemma series_get_elem {V} `{Pretty K} (k : K) (s : list (K * V)) :
  k ∈ s.*1 → ∃ v, series_get k s = Ok v ∧ (k, v) ∈ s.
Proof.
  induction s as [|[k' v'] s IH]; simpl; [by intros ?%elem_of_nil|].
  intros Hin. destruct (decide (k' = k)) as [->|Hne].
  - exists v'. split; [done|]. left.
  - apply elem_of_cons in Hin as [?|Hin]; [done|].
    destruct (IH Hin) as (v & ? & ?). exists v. split; [done|]. by right.
Qed.

Lemma series_get_not_elem {V} `{Pretty K} (k : K) (s : list (K * V)) :
  k ∉ s.*1 → series_get k s = Raise (KeyError (pretty k)).
Proof.
  induction s as [|[k' v'] s IH]; simpl; [done|].
  intros Hin. rewrite not_elem_of_cons in Hin. destruct Hin as [Hne Hin].
  rewrite decide_False by done. auto.
Qed.

Lemma count_of_pos (k : K) (l : list K) : k ∈ l → (0 < count_of k l)%nat.
Proof.
  intros Hin. unfold count_of.
  assert (k ∈ filter (λ y, y = k) l) as Hk by by apply list_elem_of_filter.
  destruct (filter (λ y, y = k) l); [by apply elem_of_nil in Hk|simpl; lia].
Qed.
End SeriesFacts.

Section NormalizeFacts.
Context {HF : PyFloat}.

Lemma value_counts_normalize_keys {K} `{EqDecision K} (l : list K) k :
  k ∈ (value_counts_normalize l).*1 ↔ k ∈ l.
Proof.
  unfold value_counts_normalize. rewrite <-list_fmap_compose.
  change (k ∈ (value_counts l).*1 ↔ k ∈ l).
  by rewrite value_counts_keys, elem_of_unique.
Qed.
End NormalizeFacts.

(** ** Anonymisation and filtering *)

Section AnonymizeFacts.
Context {HF : PyFloat} {HP : PandasLib}.

Lemma select_rows_fmap (f : gmap string cell → bool) (df : DataFrame) :
  select_rows (f <$> rows df) df
  = {| columns := columns df; rows := filter (λ r, f r) (rows df) |}.
Proof. unfold select_rows. by rewrite masked_fmap. Qed.

Lemma select_period_and_status_spec (df : DataFrame) :
  "issue_d" ∈ columns df →
  select_period_and_status df
  = if decide ("loan_status" ∈ columns df)
    then Ok {| columns := columns df;
               rows := filter (λ r, resolved r)
                         (filter (λ r, in_period r) (rows df)) |}
    else Raise (KeyError "loan_status").
Proof.
  intros Hin. unfold select_period_and_status.
  rewrite (get_column_elem _ _ Hin), !bind_Ok.
  rewrite <-!list_fmap_compose, zip_with_fmap_same.
  rewrite (select_rows_fmap
    (λ r, ge_timestamp period_start (cell_of "issue_d" r)
          && le_timestamp period_end (cell_of "issue_d" r))).
  unfold get_column at 1. cbn [columns].
  destruct (decide ("loan_status" ∈ columns df)); [|done].
  rewrite bind_Ok, <-list_fmap_compose. by rewrite select_rows_fmap.
Qed.

Lemma filter_period_and_status_Ok df df' ft :
  filter_period_and_status df = (df', Ok ft) →
  ∃ raw parsed,
    get_column "issue_d" df = Ok raw ∧ to_datetime raw = Ok parsed ∧
    df' = set_column "issue_d" (datetime_cell <$> parsed) df ∧
    "loan_status" ∈ columns df' ∧
    ft = {| columns := columns df';
            rows := filter (λ r, resolved r)
                      (filter (λ r, in_period r) (rows df')) |}.
Proof.
  unfold filter_period_and_status.
  destruct (get_column "issue_d" df) as [raw|e] eqn:Hraw;
    [rewrite bind_Ok|by rewrite bind_Raise].
  destruct (to_datetime raw) as [parsed|e] eqn:Hparsed; [|done].
  intros [= <- Hft]. exists raw, parsed. do 3 (split; [done|]).
  rewrite select_period_and_status_spec in Hft
    by (apply elem_of_set_column_columns; by right).
  destruct (decide ("loan_status" ∈ _)); [|done]. by injection Hft as <-.
Qed.

Lemma drop_columns_drop_existing labels df :
  drop_columns (filter (λ col, col ∈ columns df) labels) df
  = Ok (drop_existing labels df).
Proof. apply drop_columns_existing. Qed.

Lemma elem_of_drop_existing_columns labels df c :
  c ∈ columns (drop_existing labels df) ↔ c ∈ columns df ∧ c ∉ labels.
Proof.
  unfold drop_existing; cbn [columns].
  rewrite list_elem_of_filter, list_elem_of_filter. naive_solver.
Qed.

Lemma lookup_drop_existing_row labels df (r : gmap string cell) c :
  foldr delete r (filter (λ col, col ∈ columns df) labels) !! c
  = if decide (c ∈ labels ∧ c ∈ columns df) then None else r !! c.
Proof.
  rewrite lookup_foldr_delete.
  destruct (decide (c ∈ filter _ labels)) as [Hin|Hin];
    rewrite list_elem_of_filter in Hin.
  - by rewrite decide_True by naive_solver.
  - by rewrite decide_False by naive_solver.
Qed.

Lemma label_and_drop_spec (ft : DataFrame) :
  "loan_status" ∈ columns ft →
  label_and_drop ft
  = if decide (0 ∈ label_of <$> rows ft) then
      if decide (1 ∈ label_of <$> rows ft) then Ok (anonymized ft)
      else Raise (KeyError "1")
    else Raise (KeyError "0").
Proof.
  intros Hin. unfold label_and_drop.
  rewrite (get_column_elem _ _ Hin), bind_Ok. cbv zeta.
  rewrite <-!list_fmap_compose.
  change ((λ c, Z.b2z (isin default_status c)) ∘ cell_of "loan_status")
    with label_of.
  destruct (decide (0 ∈ label_of <$> rows ft)) as [Hz|Hz].
  - apply value_counts_normalize_keys in Hz.
    destruct (series_get_elem _ _ Hz) as (v0 & -> & _). rewrite bind_Ok.
    destruct (decide (1 ∈ label_of <$> rows ft)) as [Ho|Ho].
    + apply value_counts_normalize_keys in Ho.
      destruct (series_get_elem _ _ Ho) as (v1 & -> & _). rewrite bind_Ok.
      rewrite drop_columns_drop_existing, bind_Ok.
      rewrite drop_columns_drop_existing, bind_Ok.
      unfold anonymized, labelled. rewrite <-list_fmap_compose. reflexivity.
    + rewrite (series_get_not_elem 1); [by vm_compute|].
      by rewrite value_counts_normalize_keys.
  - rewrite (series_get_not_elem 0); [by vm_compute|].
    by rewrite value_counts_normalize_keys.
Qed.

Lemma rows_labelled (ft : DataFrame) : rows (labelled ft) = label_row <$> rows ft.
Proof.
  unfold labelled, set_column; cbn [rows].
  by rewrite <-list_fmap_compose, zip_with_fmap_self.
Qed.
End AnonymizeFacts.

Section AnonymizeTheorems.
Context {HF : PyFloat} {HP : PandasLib}.

Lemma kept_labels c :
  c ∈ ["issue_d"; "loan_status"; "target_default"] →
  (c ∉ future_leak_cols) ∧ (c ∉ privacy_cols).
Proof.
  rewrite !elem_of_cons, elem_of_nil.
  intros [->|[->|[->|[]]]]; split;
    (eapply bool_decide_unpack with (dec := decide _); by vm_compute).
Qed.

Lemma anonymize_Ok df df' out :
  anonymize_and_filter_data df = (df', Ok out) →
  ∃ ft, filter_period_and_status df = (df', Ok ft) ∧ out = anonymized ft
        ∧ 0 ∈ label_of <$> rows ft ∧ 1 ∈ label_of <$> rows ft.
Proof.
  unfold anonymize_and_filter_data.
  destruct (filter_period_and_status df) as [d [ft|e]] eqn:Hf; [|done].
  rewrite bind_Ok. intros [= -> Hout]. exists ft. split; [done|].
  apply filter_period_and_status_Ok in Hf as (_ & _ & _ & _ & _ & Hst & Hft).
  rewrite label_and_drop_spec in Hout by (by rewrite Hft).
  repeat case_decide; naive_solver.
Qed.

(** A row of the frame returned is a selected row with its label, less the
    dropped columns. *)
Lemma elem_of_anonymized_rows ft (r : gmap string cell) :
  r ∈ rows (anonymized ft) →
  ∃ r0 : gmap string cell, r0 ∈ rows ft ∧
    (∀ c : string, c ∉ future_leak_cols → c ∉ privacy_cols →
       r !! c = label_row r0 !! c) ∧
    (∀ c : string, c ∈ (future_leak_cols ++ privacy_cols) →
       c ∈ columns (labelled ft) → r !! c = None) ∧
    (∀ c : string, r !! c = None ∨ r !! c = label_row r0 !! c).
Proof.
  unfold anonymized. unfold drop_existing at 1. cbn [rows].
  intros (r1 & -> & Hr1)%list_elem_of_fmap.
  unfold drop_existing in Hr1 at 1. cbn [rows] in Hr1.
  apply list_elem_of_fmap in Hr1 as (r2 & -> & Hr2).
  rewrite rows_labelled in Hr2.
  apply list_elem_of_fmap in Hr2 as (r0 & -> & Hr0).
  exists r0. split; [done|]. split; [|split].
  - intros c Hl Hp. rewrite !lookup_drop_existing_row.
    rewrite !decide_False by naive_solver. done.
  - intros c Hc Hin. rewrite !lookup_drop_existing_row.
    destruct (decide (c ∈ privacy_cols ∧ _)) as [|Hn1]; [done|].
    destruct (decide (c ∈ future_leak_cols ∧ _)) as [|Hn2]; [done|].
    apply elem_of_app in Hc as [Hc|Hc]; [naive_solver|].
    destruct Hn1. split; [done|].
    apply elem_of_drop_existing_columns. naive_solver.
  - intros c. rewrite !lookup_drop_existing_row.
    repeat destruct (decide _); auto.
Qed.

Lemma in_period_inv (r : gmap string cell) :
  in_period r = true →
  ∃ t, r !! "issue_d" = Some (CDate t)
       ∧ ts_leb period_start t = true ∧ ts_leb t period_end = true.
Proof.
  unfold in_period, cell_of.
  destruct (r !! "issue_d") as [[| | | | |t]|]; simpl; try done.
  intros [??]%andb_true_iff. eauto.
Qed.

Lemma isin_inv values (r : gmap string cell) c :
  isin values (cell_of c r) = true →
  ∃ s, r !! c = Some (CStr s) ∧ s ∈ values.
Proof.
  unfold cell_of. destruct (r !! c) as [[| |s| | |]|]; simpl; try done.
  intros ?%bool_decide_eq_true. eauto.
Qed.

Lemma selected_row df df' ft r :
  filter_period_and_status df = (df', Ok ft) → r ∈ rows ft →
  r ∈ rows df' ∧ in_period r = true ∧ resolved r = true.
Proof.
  intros (_ & _ & _ & _ & _ & _ & ->)%filter_period_and_status_Ok.
  cbn [rows]. rewrite !list_elem_of_filter.
  intros (?%Is_true_true & ?%Is_true_true & ?). done.
Qed.

Lemma anonymized_row_kept df df' out (r : gmap string cell) :
  anonymize_and_filter_data df = (df', Ok out) → r ∈ rows out →
  ∃ r0 : gmap string cell,
    r0 ∈ rows df' ∧ in_period r0 = true ∧ resolved r0 = true ∧
    r !! "issue_d" = r0 !! "issue_d" ∧ r !! "loan_status" = r0 !! "loan_status" ∧
    r !! "target_default" = Some (CInt (label_of r0)).
Proof.
  intros (ft & Hft & -> & _)%anonymize_Ok Hr.
  apply elem_of_anonymized_rows in Hr as (r0 & Hr0 & Hkeep & _ & _).
  destruct (selected_row _ _ _ _ Hft Hr0) as (? & ? & ?).
  exists r0. do 3 (split; [done|]).
  rewrite !Hkeep by (apply kept_labels; set_solver).
  unfold label_row. rewrite !lookup_insert_ne by done.
  by rewrite lookup_insert_eq.
Qed.

(** C1: every row [anonymize_and_filter_data] returns has an issue date
    between 2015-01-01 and 2020-12-31, bounds included, and a loan status
    of the paid or of the default list. *)
Theorem anonymize_keeps_period_and_status df df' out (r : gmap string cell) :
  anonymize_and_filter_data df = (df', Ok out) → r ∈ rows out →
  ∃ t s,
    r !! "issue_d" = Some (CDate t) ∧
    ts_leb (midnight 2015 1 1) t = true ∧ ts_leb t (midnight 2020 12 31) = true ∧
    r !! "loan_status" = Some (CStr s) ∧
    s ∈ (paid_status ++ default_status).
Proof.
  intros Hout Hr.
  destruct (anonymized_row_kept _ _ _ _ Hout Hr)
    as (r0 & _ & Hperiod & Hres & -> & -> & _).
  apply in_period_inv in Hperiod as (t & ? & ? & ?).
  apply isin_inv in Hres as (s & ? & ?). by exists t, s.
Qed.

(** C2: in every row returned the label [target_default] is 1 when the
    loan status is of the default list and 0 when it is not; every row has
    a label, and the label is a function of the status. *)
Theorem target_default_iff_default_status df df' out (r : gmap string cell) :
  anonymize_and_filter_data df = (df', Ok out) → r ∈ rows out →
  ∃ s, r !! "loan_status" = Some (CStr s) ∧
       r !! "target_default"
       = Some (CInt (if decide (s ∈ default_status) then 1 else 0)).
Proof.
  intros Hout Hr.
  destruct (anonymized_row_kept _ _ _ _ Hout Hr)
    as (r0 & _ & _ & Hres & _ & -> & ->).
  apply isin_inv in Hres as (s & Hs & _). exists s. split; [done|].
  unfold label_of, cell_of. rewrite Hs. simpl.
  by destruct (decide (s ∈ default_status));
    [rewrite bool_decide_eq_true_2|rewrite bool_decide_eq_false_2].
Qed.
End AnonymizeTheorems.

Section AnonymizeMore.
Context {HF : PyFloat} {HP : PandasLib}.

Lemma label_of_cases (r : gmap string cell) : label_of r = 0 ∨ label_of r = 1.
Proof. unfold label_of. destruct (isin _ _); auto. Qed.

Lemma well_formed_set_column c vals (df : DataFrame) :
  well_formed df → well_formed (set_column c vals df).
Proof.
  intros Hwf r c' (r0 & v & Hr0 & _ & ->)%elem_of_zip_with_insert Hc'.
  apply elem_of_set_column_columns.
  destruct (decide (c = c')) as [->|Hne]; [by right|left].
  rewrite lookup_insert_ne in Hc' by done. eauto.
Qed.

Lemma well_formed_filtered df df' ft :
  filter_period_and_status df = (df', Ok ft) →
  well_formed df → well_formed ft.
Proof.
  intros (raw & parsed & _ & _ & -> & _ & ->)%filter_period_and_status_Ok Hwf.
  intros r c Hr Hc. cbn [rows columns] in *.
  apply list_elem_of_filter in Hr as [_ Hr].
  apply list_elem_of_filter in Hr as [_ Hr].
  by apply (well_formed_set_column _ _ _ Hwf r c).
Qed.

(** C3: when the rows selected hold both labels, the call returns a frame,
    whichever of the twenty-one columns the table has; the frame returned
    has none of the sixteen leakage columns and none of the five privacy
    columns, and its rows have no cell under these labels. *)
Theorem anonymize_drops_leak_and_privacy df df' ft :
  filter_period_and_status df = (df', Ok ft) →
  0 ∈ label_of <$> rows ft → 1 ∈ label_of <$> rows ft →
  ∃ out,
    anonymize_and_filter_data df = (df', Ok out) ∧
    ∀ c : string, c ∈ future_leak_cols ++ privacy_cols →
      (c ∉ columns out) ∧
      (well_formed df → ∀ r : gmap string cell, r ∈ rows out → r !! c = None).
Proof.
  intros Hft Hz Ho. exists (anonymized ft). split.
  - unfold anonymize_and_filter_data. rewrite Hft, bind_Ok.
    pose proof Hft as (_ & _ & _ & _ & _ & Hst & Heq)%filter_period_and_status_Ok.
    rewrite label_and_drop_spec by (by rewrite Heq).
    by rewrite !decide_True by done.
  - intros c Hc. split.
    + unfold anonymized. rewrite !elem_of_drop_existing_columns.
      apply elem_of_app in Hc. naive_solver.
    + intros Hwf r Hr.
      apply elem_of_anonymized_rows in Hr as (r0 & Hr0 & _ & Hdrop & Hsame).
      destruct (decide (c ∈ columns (labelled ft))) as [Hin|Hout]; [auto|].
      destruct (Hsame c) as [?|Heq]; [done|]. rewrite Heq.
      destruct (label_row r0 !! c) as [v|] eqn:Hv; [|done].
      destruct Hout.
      assert (well_formed (labelled ft)) as Hwl.
      { apply well_formed_set_column. by eapply well_formed_filtered. }
      apply (Hwl (label_row r0) c); [|by rewrite Hv].
      rewrite rows_labelled. by apply list_elem_of_fmap_2.
Qed.

(** C9: when the rows selected are not empty and all have the same label,
    the call raises [KeyError] for the other label where it reads the
    distribution of the labels, and returns no frame. *)
Theorem anonymize_one_class_raises df df' ft lbl :
  filter_period_and_status df = (df', Ok ft) →
  rows ft ≠ [] → only_class ft lbl →
  anonymize_and_filter_data df = (df', Raise (KeyError (pretty (1 - lbl)))).
Proof.
  intros Hft Hne Hall.
  unfold anonymize_and_filter_data. rewrite Hft, bind_Ok.
  pose proof Hft as (_ & _ & _ & _ & _ & Hst & Heq)%filter_period_and_status_Ok.
  rewrite label_and_drop_spec by (by rewrite Heq).
  assert (∀ z, z ∈ label_of <$> rows ft ↔ z = lbl) as Hlabels.
  { intros z. rewrite list_elem_of_fmap. split.
    - intros (r & -> & Hr). by apply Hall.
    - intros ->. destruct (rows ft) as [|r l] eqn:Hrows; [done|].
      exists r. split; [symmetry; apply Hall|]; rewrite ?Hrows; left. }
  assert (lbl = 0 ∨ lbl = 1) as [-> | ->].
  { destruct (rows ft) as [|r l] eqn:Hrows; [done|].
    rewrite <-(Hall r) by (rewrite Hrows; left). apply label_of_cases. }
  - rewrite decide_True by by apply Hlabels.
    rewrite decide_False; [done|]. by rewrite Hlabels.
  - rewrite decide_False; [done|]. by rewrite Hlabels.
Qed.

Lemma Forall2_zip_with_insert_other (c : string)
    (l : list (gmap string cell)) (vals : list cell) :
  length vals = length l →
  Forall2 (λ r r' : gmap string cell, ∀ c' : string, c' ≠ c → r' !! c' = r !! c')
          l (zip_with (λ r v, <[c := v]> r) l vals).
Proof.
  revert vals. induction l as [|r l IH]; intros [|v vals] Hlen; simplify_eq/=;
    constructor; [|by apply IH].
  intros c' Hc'. by rewrite lookup_insert_ne.
Qed.

(** C6, as the code has it: the call replaces the ['issue_d'] column of the
    caller's table by the parsed dates, and leaves the table with the
    columns and the number of rows it had and with every cell it had in the
    other columns; when the dates cannot be read the table is left as it
    was. *)
Theorem anonymize_changes_only_issue_d df :
  columns (anonymize_and_filter_data df).1 = columns df ∧
  Forall2 (λ r r' : gmap string cell,
             ∀ c : string, c ≠ "issue_d" → r' !! c = r !! c)
          (rows df) (rows (anonymize_and_filter_data df).1) ∧
  match raw ← get_column "issue_d" df; to_datetime raw with
  | Ok parsed =>
    cell_of "issue_d" <$> rows (anonymize_and_filter_data df).1
    = datetime_cell <$> parsed
  | Raise _ => (anonymize_and_filter_data df).1 = df
  end.
Proof.
  unfold anonymize_and_filter_data, filter_period_and_status.
  destruct (get_column "issue_d" df ≫= _) as [parsed|e] eqn:Hparsed; cbn [fst].
  - destruct (get_column "issue_d" df) as [raw|] eqn:Hraw; [|done].
    rewrite bind_Ok in Hparsed.
    apply get_column_Ok in Hraw as [Hin ->].
    apply to_datetime_length in Hparsed. rewrite length_fmap in Hparsed.
    assert (length (datetime_cell <$> parsed) = length (rows df)) as Hlen
      by by rewrite length_fmap.
    split; [|split].
    + cbn [set_column columns]. by rewrite decide_True.
    + cbn [set_column rows]. by apply Forall2_zip_with_insert_other.
    + pose proof (set_column_get "issue_d" _ df Hlen) as Hget.
      by apply get_column_Ok in Hget as [_ <-].
  - split; [done|]. split; [|done].
    by apply Forall_Forall2_diag, Forall_true.
Qed.
End AnonymizeMore.

(** ** Stratified sampling *)

Section SamplingFacts.
Context {HF : PyFloat} {HP : PandasLib}.

Lemma dt_year_length column years :
  dt_year column = Ok years → length years = length column.
Proof.
  revert years. induction column as [|c column IH]; intros years; simpl.
  - by intros [= <-].
  - destruct c; try done;
      (destruct (dt_year column) as [ys|] eqn:E; [|done]);
      rewrite bind_Ok; intros [= <-]; simpl; f_equal; by apply IH.
Qed.

Lemma year_cells_length years : length (year_cells years) = length years.
Proof. unfold year_cells. destruct (forallb _ _); by rewrite length_fmap. Qed.

Lemma Forall2_zip_with_insert (c : string) (l : list (gmap string cell)) vals :
  length vals = length l →
  Forall2 (λ r v, r !! c = Some v) (zip_with (λ r v, <[c := v]> r) l vals) vals.
Proof.
  revert vals. induction l as [|r l IH]; intros [|v vals] Hlen; simplify_eq/=;
    constructor; [by rewrite lookup_insert_eq|by apply IH].
Qed.

Lemma Forall2_zip_with_insert_ne (c c' : string) (l : list (gmap string cell))
    (vals vals' : list cell) :
  c ≠ c' → length vals' = length l →
  Forall2 (λ r v, r !! c = Some v) l vals →
  Forall2 (λ r v, r !! c = Some v) (zip_with (λ r v, <[c' := v]> r) l vals') vals.
Proof.
  intros Hne Hlen Hall. revert vals' Hlen.
  induction Hall as [|r v l vals Hr Hall IH]; intros [|v' vals'] Hlen;
    simplify_eq/=; constructor; [|by apply IH].
  by rewrite lookup_insert_ne.
Qed.

Lemma zip_with_insert_id (c : string) (l : list (gmap string cell)) vals :
  Forall2 (λ r v, r !! c = Some v) l vals →
  zip_with (λ r v, <[c := v]> r) l vals = l.
Proof.
  induction 1 as [|r v l vals Hr Hall IH]; simpl; [done|].
  by rewrite insert_id, IH.
Qed.

Lemma set_column_id (c : string) vals (df : DataFrame) :
  c ∈ columns df → Forall2 (λ r v, r !! c = Some v) (rows df) vals →
  set_column c vals df = df.
Proof.
  intros Hin Hall. destruct df as [cols rs]. unfold set_column; simpl in *.
  by rewrite decide_True, zip_with_insert_id.
Qed.

Lemma omap_lookup_seq_from {A} (pre l : list A) :
  omap (λ i, (pre ++ l) !! i) (seq (length pre) (length l)) = l.
Proof.
  revert pre. induction l as [|x l IH]; intros pre; [done|].
  cbn [length seq omap list_omap]. rewrite list_lookup_middle by done.
  f_equal. specialize (IH (pre ++ [x])).
  rewrite length_app, Nat.add_comm, <-(assoc_L (++)) in IH. exact IH.
Qed.

Lemma omap_lookup_seq {A} (l : list A) :
  omap (λ i, l !! i) (seq 0 (length l)) = l.
Proof. exact (omap_lookup_seq_from [] l). Qed.

Lemma sublist_omap {A B} (f : A → option B) (l1 l2 : list A) :
  l1 `sublist_of` l2 → omap f l1 `sublist_of` omap f l2.
Proof.
  induction 1 as [|x l1 l2 _ IH|x l1 l2 _ IH]; simpl.
  - constructor.
  - destruct (f x); [by constructor|done].
  - destruct (f x); [by constructor|done].
Qed.

Lemma length_omap_lookup {A} (l : list A) (positions : list nat) :
  Forall (λ i, (i < length l)%nat) positions →
  length (omap (λ i, l !! i) positions) = length positions.
Proof.
  induction 1 as [|i positions Hi _ IH]; simpl; [done|].
  apply lookup_lt_is_Some in Hi as [x ->]. simpl. by f_equal.
Qed.

(** The rows a seeded draw of [n] rows takes: [n] of the rows of the
    frame, none of them twice. *)
Lemma sample_rows (n seed : Z) (df : DataFrame) :
  0 ≤ n ≤ len df →
  rows (drawn n seed df) ⊆+ rows df ∧
  length (rows (drawn n seed df)) = Z.to_nat n.
Proof.
  intros Hn. unfold drawn, len in *. cbn [rows].
  pose proof (permutation_Permutation seed (length (rows df))) as Hperm.
  split.
  - trans (omap (λ i, rows df !! i) (permutation seed (length (rows df)))).
    + apply sublist_submseteq, sublist_omap, sublist_take.
    + rewrite Hperm, omap_lookup_seq. done.
  - rewrite length_omap_lookup.
    + rewrite length_take, Hperm, length_seq. lia.
    + apply Forall_take. rewrite Hperm. apply Forall_forall.
      intros i Hi%elem_of_seq. lia.
Qed.
End SamplingFacts.

Section PartitionFacts.
Context {A K : Type} (P : K → A → Prop) `{∀ k x, Decision (P k x)}.
Hypothesis P_functional : ∀ k k' x, P k x → P k' x → k = k'.

Lemma filter_other_key k k' (l : list A) :
  k ≠ k' → filter (P k) (filter (P k') l) = [].
Proof.
  intros Hne. induction l as [|x l IH]; [done|].
  rewrite (filter_cons (P k')). destruct (decide (P k' x)); [|done].
  rewrite filter_cons, IH. destruct (decide (P k x)); [|done].
  destruct Hne. eauto.
Qed.

Lemma filter_submseteq_filter k (l1 l2 : list A) :
  l1 ⊆+ filter (P k) l2 → filter (P k) l1 = l1.
Proof.
  intros Hsub. assert (Forall (P k) l1) as Hall.
  { apply Forall_forall. intros x Hx.
    eapply elem_of_submseteq in Hx; [|done].
    by apply list_elem_of_filter in Hx as [? _]. }
  clear Hsub. induction Hall as [|x l1 Hx _ IH]; [done|].
  by rewrite filter_cons_True, IH.
Qed.

Lemma filter_submseteq_other k k' (l1 l2 : list A) :
  k ≠ k' → l1 ⊆+ filter (P k') l2 → filter (P k) l1 = [].
Proof.
  intros Hne Hsub. apply elem_of_nil_inv. intros x Hx.
  apply list_elem_of_filter in Hx as [Hk Hx].
  eapply elem_of_submseteq in Hx; [|done].
  apply list_elem_of_filter in Hx as [Hk' _]. destruct Hne. eauto.
Qed.

(** Pieces taken from the classes of distinct keys make up a part of the
    list, each class giving its piece and nothing else. *)
Lemma pieces_submseteq (pc : K → list A) (ks : list K) (l : list A) :
  NoDup ks → (∀ k, k ∈ ks → pc k ⊆+ filter (P k) l) →
  ks ≫= pc ⊆+ l.
Proof.
  intros Hnd. revert l. induction Hnd as [|k ks Hk Hnd IH]; intros l Hpc.
  - apply submseteq_nil_l.
  - rewrite bind_cons, <-(filter_app_complement (P k) l).
    apply submseteq_app; [apply Hpc; left|].
    apply IH. intros k' Hk'.
    assert (k' ≠ k) as Hne by (intros ->; done).
    rewrite list_filter_filter.
    erewrite (list_filter_iff _ (P k')); [apply Hpc; by right|].
    intros x. split; [by intros [? _]|]. intros Hx. split; [done|].
    intros Hx'. destruct Hne. eauto.
Qed.

Lemma filter_pieces (pc : K → list A) (ks : list K) (l : list A) k :
  NoDup ks → (∀ k, k ∈ ks → pc k ⊆+ filter (P k) l) → k ∈ ks →
  filter (P k) (ks ≫= pc) = pc k.
Proof.
  intros Hnd Hpc. induction Hnd as [|k' ks Hk' Hnd IH]; intros Hk.
  - by apply elem_of_nil in Hk.
  - rewrite bind_cons, filter_app.
    assert (∀ k0, k0 ∈ ks → k0 ≠ k → filter (P k) (pc k0) = []) as Hother.
    { intros k0 Hk0 Hne. apply (filter_submseteq_other k k0 _ l); [congruence|].
      apply Hpc. by right. }
    apply elem_of_cons in Hk as [->|Hk].
    + rewrite (filter_submseteq_filter k' _ l) by (apply Hpc; left).
      replace (filter (P k') (ks ≫= pc)) with (@nil A); [by rewrite app_nil_r|].
      symmetry. clear IH Hnd Hpc. induction ks as [|k0 ks IH]; [done|].
      rewrite bind_cons, filter_app, Hother, IH; try done.
      * intros Hin. apply Hk'. by right.
      * intros k1 Hk1. apply Hother. by right.
      * left.
      * intros ->. apply Hk'. left.
    + rewrite (filter_submseteq_other k k' _ l), IH; try done.
      * intros k0 Hk0. apply Hpc. by right.
      * intros ->. done.
      * apply Hpc. left.
Qed.
End PartitionFacts.

Section DrawFacts.
Context {HF : PyFloat} {HP : PandasLib}.

Lemma series_get_NoDup {K V} `{EqDecision K} `{Pretty K}
    (s : list (K * V)) k v :
  NoDup s.*1 → (k, v) ∈ s → series_get k s = Ok v.
Proof.
  induction s as [|[k' v'] s IH]; simpl; [by intros _ ?%elem_of_nil|].
  intros [Hk' Hnd]%NoDup_cons [[= -> ->]|Hin]%elem_of_cons.
  - by rewrite decide_True.
  - rewrite decide_False; [by apply IH|].
    intros ->. apply Hk'. apply list_elem_of_fmap. by exists (k, v).
Qed.

Lemma NoDup_value_counts_keys {K} `{EqDecision K} (l : list K) :
  NoDup (value_counts l).*1.
Proof. rewrite value_counts_keys. apply NoDup_unique. Qed.

Lemma value_counts_shape {K} `{EqDecision K} (l : list K) :
  value_counts l = (λ k, (k, count_of k l)) <$> (value_counts l).*1.
Proof.
  rewrite <-list_fmap_compose. rewrite <-(list_fmap_id (value_counts l)) at 1.
  apply list_fmap_ext. intros i [k n] Hi.
  apply list_elem_of_lookup_2, elem_of_value_counts in Hi as [_ ->]. done.
Qed.

Lemma elem_of_value_counts_keys {K} `{EqDecision K} (l : list K) k :
  k ∈ (value_counts l).*1 ↔ k ∈ l.
Proof. by rewrite value_counts_keys, elem_of_unique. Qed.

Lemma sample_sizes_of_spec (df : DataFrame) (col : list string) t
    (keys : list string) :
  keys ⊆ (value_counts col).*1 →
  sample_sizes_of t (value_counts col)
    ((λ k, (k, fdiv (of_int (Z.of_nat (count_of k col))) (of_int (len df))))
       <$> keys)
  = Ok ((λ k, (k, size_of df col t k)) <$> keys).
Proof.
  induction keys as [|k keys IH]; intros Hsub; [done|].
  rewrite fmap_cons. cbn [sample_sizes_of].
  rewrite (series_get_NoDup _ k (count_of k col)).
  - rewrite bind_Ok, IH, bind_Ok; [done|].
    intros k' Hk'. apply Hsub. by right.
  - apply NoDup_value_counts_keys.
  - apply elem_of_value_counts. split; [|done].
    apply elem_of_value_counts_keys, Hsub. left.
Qed.

(** The mask [df['strata'] == k] reads the stratum of every row. *)
Lemma strata_mask (df : DataFrame) (col : list string) k :
  (λ r : gmap string cell, r !! "strata") <$> rows df
  = (λ s, Some (CStr s)) <$> col →
  (λ s, bool_decide (s = k)) <$> col = in_stratum k <$> rows df.
Proof.
  revert col. induction (rows df) as [|r l IH]; intros [|s col] Heq;
    try done.
  rewrite !fmap_cons in Heq. injection Heq as Hr Hl.
  rewrite !fmap_cons. f_equal; [|by apply IH].
  unfold in_stratum, stratum_of. rewrite Hr.
  apply bool_decide_ext. naive_solver.
Qed.

Lemma count_of_stratum (df : DataFrame) (col : list string) k :
  (λ r : gmap string cell, r !! "strata") <$> rows df
  = (λ s, Some (CStr s)) <$> col →
  count_of k col = length (filter (λ r, in_stratum k r) (rows df)).
Proof.
  unfold count_of. revert col.
  induction (rows df) as [|r l IH]; intros [|s col] Heq; try done.
  rewrite !fmap_cons in Heq. injection Heq as Hcell Hl.
  assert (in_stratum k r = bool_decide (s = k)) as Hr.
  { unfold in_stratum, stratum_of. rewrite Hcell.
    apply bool_decide_ext. naive_solver. }
  rewrite !filter_cons.
  destruct (decide (s = k)) as [Hs|Hs], (decide (in_stratum k r)) as [Hi|Hi];
    rewrite Hr in Hi; simpl; try (f_equal; eauto).
  - destruct Hi. by apply bool_decide_pack.
  - by apply bool_decide_unpack in Hi.
Qed.

Lemma size_of_le (df : DataFrame) col t k :
  size_of df col t k ≤ Z.of_nat (count_of k col).
Proof. unfold size_of, stratum_size. lia. Qed.

Lemma stratum_sample_columns (df : DataFrame) col seed k n d :
  stratum_drawn df col seed k n = Some d → columns d = columns df.
Proof.
  unfold stratum_drawn. destruct (bool_decide (0 < n)); [|done].
  intros [= <-]. by destruct (bool_decide _).
Qed.

(** A call of [sample] that returns, returns the rows drawn. *)
Lemma sample_Ok (n seed : Z) (df d : DataFrame) :
  sample n seed df = Ok d →
  d = drawn n seed df ∧ 0 ≤ seed < 2 ^ 32 ∧ 0 ≤ n ≤ len df.
Proof.
  unfold sample.
  destruct (bool_decide (0 ≤ seed < 2 ^ 32)) eqn:Hseed; [|done].
  destruct (bool_decide (n < 0)) eqn:Hn; [done|].
  destruct (bool_decide (len df < n)) eqn:Hlen; [done|].
  apply bool_decide_eq_true in Hseed.
  apply bool_decide_eq_false in Hn, Hlen. intros [= <-]. split; [done|]. lia.
Qed.

Lemma sample_in_range (n seed : Z) (df : DataFrame) :
  0 ≤ seed < 2 ^ 32 → 0 ≤ n ≤ len df → sample n seed df = Ok (drawn n seed df).
Proof.
  intros Hseed Hn. unfold sample.
  rewrite (bool_decide_eq_true_2 _ Hseed).
  by rewrite !bool_decide_eq_false_2 by lia.
Qed.

(** The frames of a loop that ends: those of the strata of a size above
    zero. *)
Lemma sample_strata_Ok (df : DataFrame) col seed sizes dfs :
  sample_strata df col seed sizes = Ok dfs →
  dfs = omap (λ ks, stratum_drawn df col seed ks.1 ks.2) sizes.
Proof.
  revert dfs. induction sizes as [|[k n] sizes IH]; intros dfs; simpl.
  - by intros [= <-].
  - unfold stratum_drawn. cbn [fst snd].
    destruct (bool_decide (0 < n)); [|apply IH].
    set (strata_data := select_rows _ df).
    destruct (bool_decide (n ≤ len strata_data)).
    + destruct (sample n seed strata_data) as [d|] eqn:Hd; [|done].
      apply sample_Ok in Hd as [-> _]. rewrite bind_Ok.
      destruct (sample_strata df col seed sizes) as [rest|]; [|done].
      rewrite bind_Ok. intros [= <-]. f_equal. by apply IH.
    + rewrite bind_Ok.
      destruct (sample_strata df col seed sizes) as [rest|]; [|done].
      rewrite bind_Ok. intros [= <-]. f_equal. by apply IH.
Qed.

(** With a seed in the range the loop ends. *)
Lemma sample_strata_in_range (df : DataFrame) col seed sizes :
  0 ≤ seed < 2 ^ 32 →
  sample_strata df col seed sizes
  = Ok (omap (λ ks, stratum_drawn df col seed ks.1 ks.2) sizes).
Proof.
  intros Hseed. induction sizes as [|[k n] sizes IH]; simpl; [done|].
  unfold stratum_drawn. cbn [fst snd].
  destruct (bool_decide (0 < n)) eqn:Hn; [|apply IH].
  apply bool_decide_eq_true in Hn.
  set (strata_data := select_rows _ df).
  destruct (bool_decide (n ≤ len strata_data)) eqn:Hlen.
  - apply bool_decide_eq_true in Hlen.
    rewrite sample_in_range by (done || lia). by rewrite bind_Ok, IH, bind_Ok.
  - by rewrite bind_Ok, IH, bind_Ok.
Qed.

(** [draw_sample] with the sizes written out. *)
Lemma draw_sample_sizes (df : DataFrame) col t seed :
  draw_sample df col t seed
  = (dfs_sample ← sample_strata df col seed
                     ((λ k, (k, size_of df col t k)) <$> (value_counts col).*1);
     df_sample ← concat_frames dfs_sample;
     drop_columns ["strata"] df_sample).
Proof.
  unfold draw_sample.
  assert ((λ kc : string * nat,
             (kc.1, fdiv (of_int (Z.of_nat kc.2)) (of_int (len df))))
            <$> value_counts col
          = (λ k, (k, fdiv (of_int (Z.of_nat (count_of k col))) (of_int (len df))))
            <$> (value_counts col).*1) as ->.
  { rewrite (value_counts_shape col) at 1. by rewrite <-list_fmap_compose. }
  rewrite sample_sizes_of_spec by done. by rewrite bind_Ok.
Qed.

Lemma piece_spec (df : DataFrame) col t seed k :
  (λ r : gmap string cell, r !! "strata") <$> rows df
  = (λ s, Some (CStr s)) <$> col →
  piece df col t seed k ⊆+ filter (λ r, in_stratum k r) (rows df) ∧
  length (piece df col t seed k) = Z.to_nat (size_of df col t k).
Proof.
  intros Hcol. unfold piece, stratum_drawn.
  pose proof (size_of_le df col t k) as Hle.
  rewrite (count_of_stratum df col k Hcol) in Hle.
  set (n := size_of df col t k) in *.
  destruct (bool_decide (0 < n)) eqn:Hpos.
  - apply bool_decide_eq_true in Hpos.
    rewrite (strata_mask df col k Hcol), select_rows_fmap.
    rewrite bool_decide_eq_true_2 by done. cbn [from_option].
    apply (sample_rows n seed
             {| columns := columns df;
                rows := filter (λ r, in_stratum k r) (rows df) |}).
    unfold len; cbn [rows]. lia.
  - apply bool_decide_eq_false in Hpos. cbn [from_option]. split.
    + apply submseteq_nil_l.
    + simpl. lia.
Qed.

Lemma bind_omap {A B C} (g : A → option B) (f : B → list C) (l : list A) :
  omap g l ≫= f = l ≫= (λ x, from_option f [] (g x)).
Proof.
  induction l as [|x l IH]; [done|].
  rewrite bind_cons. cbn [omap list_omap].
  destruct (g x); [by rewrite bind_cons, IH|done].
Qed.

Lemma omap_fmap_keys {A B C} (g : B → option C) (f : A → B) (l : list A) :
  omap g (f <$> l) = omap (λ x, g (f x)) l.
Proof.
  induction l as [|x l IH]; [done|].
  rewrite fmap_cons. cbn [omap list_omap]. by rewrite IH.
Qed.

(** The frame [draw_sample] returns when it returns one: the pieces of the
    strata one after the other, less the ['strata'] column. *)
Lemma draw_sample_Ok (df : DataFrame) col t seed out :
  (λ r : gmap string cell, r !! "strata") <$> rows df
  = (λ s, Some (CStr s)) <$> col →
  draw_sample df col t seed = Ok out →
  rows out
  = delete "strata" <$> ((value_counts col).*1 ≫= piece df col t seed) ∧
  ∀ c : string, c ∈ columns out ↔ c ∈ columns df ∧ c ≠ "strata".
Proof.
  intros Hcol. rewrite draw_sample_sizes.
  destruct (sample_strata df col seed _) as [dfs0|] eqn:Hloop; [|done].
  apply sample_strata_Ok in Hloop. rewrite omap_fmap_keys in Hloop.
  cbn [fst snd] in Hloop. subst dfs0. rewrite bind_Ok.
  set (dfs := omap _ _).
  assert (∀ d, d ∈ dfs → columns d = columns df) as Hcols.
  { intros d (k & _ & Hd)%list_elem_of_omap.
    by apply stratum_sample_columns in Hd. }
  assert (dfs ≫= rows = (value_counts col).*1 ≫= piece df col t seed) as Hrows.
  { unfold dfs. by rewrite bind_omap. }
  destruct dfs as [|d dfs]; [done|].
  unfold concat_frames. rewrite bind_Ok.
  assert (∀ c, c ∈ unique ((d :: dfs) ≫= columns) ↔ c ∈ columns df) as Hunion.
  { intros c. rewrite elem_of_unique, list_elem_of_bind. split.
    - intros (d' & Hc & Hd'). by rewrite <-(Hcols d').
    - intros Hc. exists d. split; [|left]. rewrite Hcols; [done|left]. }
  unfold drop_columns. cbn [columns rows].
  destruct (decide ("strata" ∈ columns df)) as [Hin|Hout].
  - rewrite filter_cons_False, filter_nil by (intros Hn; apply Hn, Hunion, Hin).
    intros [= <-]. cbn [columns rows]. split.
    + rewrite <-Hrows. reflexivity.
    + intros c. rewrite list_elem_of_filter, Hunion, list_elem_of_singleton.
      naive_solver.
  - by rewrite filter_cons_True by (by rewrite Hunion).
Qed.
End DrawFacts.

Section CreateFacts.
Context {HF : PyFloat} {HP : PandasLib}.

Lemma lookup_zip_with_insert (c : string) (l : list (gmap string cell)) vals :
  length vals = length l →
  (λ r : gmap string cell, r !! c) <$> zip_with (λ r v, <[c := v]> r) l vals
  = Some <$> vals.
Proof.
  revert vals. induction l as [|r l IH]; intros [|v vals] Hlen; simplify_eq/=;
    [done|].
  rewrite lookup_insert_eq. f_equal. by apply IH.
Qed.

(** The steps of a call that returns a sample. *)
Lemma create_stratified_sample_Ok df t seed df' out :
  create_stratified_sample df t seed = (df', Ok out) →
  ∃ years target col,
    get_column "issue_d" df ≫= dt_year = Ok years ∧
    length years = length (rows df) ∧
    get_column "target_default" (set_column "ano" (year_cells years) df)
    = Ok target ∧
    length col = length (rows df) ∧
    df' = set_column "strata" (CStr <$> col)
            (set_column "ano" (year_cells years) df) ∧
    (λ r : gmap string cell, r !! "strata") <$> rows df'
    = (λ s, Some (CStr s)) <$> col ∧
    draw_sample df' col t seed = Ok out.
Proof.
  unfold create_stratified_sample.
  destruct (get_column "issue_d" df ≫= dt_year) as [years|e] eqn:Hyears;
    [|done].
  assert (length years = length (rows df)) as Hlen.
  { destruct (get_column "issue_d" df) as [raw|] eqn:Hraw; [|done].
    rewrite bind_Ok in Hyears. apply dt_year_length in Hyears.
    apply get_column_Ok in Hraw as [_ ->]. by rewrite length_fmap in Hyears. }
  set (df1 := set_column "ano" (year_cells years) df).
  assert (length (rows df1) = length (rows df)) as Hlen1.
  { apply set_column_length. by rewrite year_cells_length. }
  destruct (get_column "target_default" df1) as [target|e] eqn:Htarget;
    [|done].
  set (col := zip_with _ _ _).
  assert (length col = length (rows df)) as Hcol.
  { unfold col. rewrite length_zip_with, !astype_str_length, year_cells_length.
    apply get_column_Ok in Htarget as [_ ->]. rewrite length_fmap. lia. }
  intros [= <- Hout]. exists years, target, col.
  do 5 (split; [done|]). split; [|done].
  cbn [set_column rows]. fold df1.
  rewrite lookup_zip_with_insert by (rewrite length_fmap; lia).
  by rewrite <-list_fmap_compose.
Qed.

Lemma Qtruncate_nonneg (q : Q) : (0 <= q)%Q → Qtruncate q = Qfloor q.
Proof.
  destruct q as [a b]. unfold Qle, Qtruncate, Qfloor; simpl. intros Ha.
  apply Z.quot_div_nonneg; lia.
Qed.

(** For a target size that is not negative, the size stored for a stratum
    that has rows is the floor of the float product, 1 when that is zero,
    capped by the rows of the stratum; it is at least 1. *)
Lemma stratum_size_floored (t : Z) (count total : Z) :
  0 ≤ t → 0 < count → 0 ≤ total →
  stratum_size t (fdiv (of_int count) (of_int total)) count
  = floored_size t (fdiv (of_int count) (of_int total)) count ∧
  1 ≤ stratum_size t (fdiv (of_int count) (of_int total)) count ≤ count.
Proof.
  intros Ht Hc Hn. unfold stratum_size, floored_size, to_int, ffloor.
  set (x := fmul _ _).
  assert (0 <= fvalue x)%Q as Hx.
  { apply fmul_nonneg; [by apply of_int_nonneg|].
    apply fdiv_nonneg; apply of_int_nonneg; lia. }
  rewrite (Qtruncate_nonneg _ Hx).
  assert (0 ≤ Qfloor (fvalue x)) as Hfloor.
  { rewrite <-(Qfloor_Z 0). by apply Qfloor_resp_le. }
  rewrite (bool_decide_eq_true_2 (0 < count)), andb_true_r by done.
  destruct (decide (Qfloor (fvalue x) = 0)) as [Hz|Hz].
  - rewrite bool_decide_eq_true_2, decide_True by done. lia.
  - rewrite bool_decide_eq_false_2, decide_False by naive_solver. lia.
Qed.

(** The size computed with floats is the size the specification gives when
    the float product has the floor of the exact product. *)
Lemma floored_size_claimed (t : Z) (share : float) (available total : Z) :
  ffloor (fmul (of_int t) share)
  = Qfloor (inject_Z t * (inject_Z available / inject_Z total)) →
  floored_size t share available = claimed_size t available total.
Proof. intros Hfloor. unfold floored_size, claimed_size. by rewrite Hfloor. Qed.
End CreateFacts.

Section SamplingTheorems.
Context {HF : PyFloat} {HP : PandasLib}.

Lemma in_stratum_functional (k k' : string) (r : gmap string cell) :
  in_stratum k r → in_stratum k' r → k = k'.
Proof.
  unfold in_stratum. intros Hk%bool_decide_unpack Hk'%bool_decide_unpack.
  congruence.
Qed.

Lemma in_stratum_elem (df : DataFrame) (col : list string) k r :
  (λ r : gmap string cell, r !! "strata") <$> rows df
  = (λ s, Some (CStr s)) <$> col →
  r ∈ rows df → in_stratum k r → k ∈ col.
Proof.
  intros Hcol Hr Hk.
  assert (r !! "strata" ∈ (λ r : gmap string cell, r !! "strata") <$> rows df)
    as Hin by by apply list_elem_of_fmap_2.
  rewrite Hcol in Hin. apply list_elem_of_fmap in Hin as (s & Hs & Hin).
  apply bool_decide_unpack in Hk. unfold stratum_of in Hk. rewrite Hs in Hk.
  by simplify_eq.
Qed.

(** C4, for a target size that is not negative: the sample is made of
    rows of the table, none taken twice; a stratum that has rows gives the
    sample as many rows as the floor of the float product of the target
    size and its share, 1 when that is zero, at most the rows it has; so it
    gives at least one row and no more than it has.  The number is the one
    the specification states, with the floor of the product of rational
    numbers, whenever the float product has that floor, as it has when no
    rounding error is made. *)
Theorem stratum_sample_sizes df t seed df' out :
  create_stratified_sample df t seed = (df', Ok out) → 0 ≤ t →
  ∃ picked : list (gmap string cell),
    rows out = delete "strata" <$> picked ∧
    picked ⊆+ rows df' ∧
    ∀ (k : string) (r : gmap string cell),
      r ∈ rows df' → in_stratum k r →
      let available := length (filter (λ r, in_stratum k r) (rows df')) in
      let taken := length (filter (λ r, in_stratum k r) picked) in
      let share := fdiv (of_int (Z.of_nat available)) (of_int (len df')) in
      Z.of_nat taken = floored_size t share (Z.of_nat available) ∧
      (1 ≤ taken ≤ available)%nat ∧
      (ffloor (fmul (of_int t) share)
       = Qfloor (inject_Z t
                 * (inject_Z (Z.of_nat available) / inject_Z (len df'))) →
       Z.of_nat taken = claimed_size t (Z.of_nat available) (len df')).
Proof.
  intros (years & target & col & _ & _ & _ & _ & _ & Hcol & Hdraw)
    %create_stratified_sample_Ok Ht.
  apply draw_sample_Ok in Hdraw as [Hrows _]; [|done].
  set (keys := (value_counts col).*1) in *.
  assert (∀ k, k ∈ keys →
            piece df' col t seed k ⊆+ filter (λ r, in_stratum k r) (rows df'))
    as Hpieces by (intros k _; by apply piece_spec).
  exists (keys ≫= piece df' col t seed). split; [done|]. split.
  { apply (pieces_submseteq (λ k r, in_stratum k r) in_stratum_functional);
      [apply NoDup_value_counts_keys|done]. }
  intros k r Hr Hk available taken share.
  assert (k ∈ keys) as Hkeys.
  { apply elem_of_value_counts_keys. by eapply in_stratum_elem. }
  pose proof (filter_pieces (λ k r, in_stratum k r) in_stratum_functional
                (piece df' col t seed) keys (rows df') k
                (NoDup_value_counts_keys col) Hpieces Hkeys) as Htaken.
  cbv beta in Htaken. unfold taken. rewrite Htaken.
  destruct (piece_spec df' col t seed k Hcol) as [_ ->].
  unfold size_of. rewrite (count_of_stratum df' col k Hcol). fold available.
  assert (0 < available)%nat as Hpos.
  { unfold available.
    assert (r ∈ filter (λ r, in_stratum k r) (rows df')) as Hin
      by by apply list_elem_of_filter.
    destruct (filter _ _); [by apply elem_of_nil in Hin|simpl; lia]. }
  destruct (stratum_size_floored t (Z.of_nat available) (len df'))
    as [Heq Hbounds]; [done|lia|unfold len; lia|].
  subst share. split; [lia|]. split; [lia|].
  intros Hfloor. rewrite <-(floored_size_claimed _ _ _ _ Hfloor). lia.
Qed.

Lemma elem_of_strata_rows (df : DataFrame) ano strata (r : gmap string cell) :
  r ∈ rows (set_column "strata" strata (set_column "ano" ano df)) →
  ∃ (r0 : gmap string cell) a s,
    r0 ∈ rows df ∧ r = <["strata" := s]> (<["ano" := a]> r0).
Proof.
  cbn [set_column rows].
  intros (r1 & s & Hr1 & _ & ->)%elem_of_zip_with_insert.
  apply elem_of_zip_with_insert in Hr1 as (r0 & a & Hr0 & _ & ->). eauto.
Qed.

(** C10: a call that returns a sample leaves the table it received with an
    ['ano'] and a ['strata'] column, filled in every row; the sample has
    the columns of the table received and ['ano'], without ['strata'], and
    its rows have a year and no stratum. *)
Theorem sample_keeps_year_drops_strata df t seed df' out :
  create_stratified_sample df t seed = (df', Ok out) →
  (∀ c : string,
     c ∈ columns df' ↔ c ∈ columns df ∨ c = "ano" ∨ c = "strata") ∧
  (∀ r : gmap string cell,
     r ∈ rows df' → is_Some (r !! "ano") ∧ is_Some (r !! "strata")) ∧
  (∀ c : string,
     c ∈ columns out ↔ (c ∈ columns df ∨ c = "ano") ∧ c ≠ "strata") ∧
  (∀ r : gmap string cell,
     r ∈ rows out → is_Some (r !! "ano") ∧ r !! "strata" = None).
Proof.
  intros (years & target & col & _ & _ & _ & _ & -> & Hcol & Hdraw)
    %create_stratified_sample_Ok.
  set (df' := set_column "strata" _ _) in *.
  assert (∀ c : string,
     c ∈ columns df' ↔ c ∈ columns df ∨ c = "ano" ∨ c = "strata") as Hcols.
  { intros c. unfold df'. rewrite !elem_of_set_column_columns. naive_solver. }
  assert (∀ r : gmap string cell,
     r ∈ rows df' → is_Some (r !! "ano") ∧ is_Some (r !! "strata")) as Hrows.
  { intros r (r0 & a & s & _ & ->)%elem_of_strata_rows.
    rewrite lookup_insert_eq, lookup_insert_ne, lookup_insert_eq by done.
    eauto. }
  do 2 (split; [done|]).
  apply draw_sample_Ok in Hdraw as [Hout Hcout]; [|done]. split.
  - intros c. rewrite Hcout, Hcols. naive_solver.
  - intros r. rewrite Hout. intros (r0 & -> & Hr0)%list_elem_of_fmap.
    rewrite lookup_delete_eq, lookup_delete_ne by done. split; [|done].
    apply Hrows.
    assert ((value_counts col).*1 ≫= piece df' col t seed ⊆+ rows df') as Hsub.
    { apply (pieces_submseteq (λ k r, in_stratum k r) in_stratum_functional);
        [apply NoDup_value_counts_keys|].
      intros k _. by apply piece_spec. }
    by eapply elem_of_submseteq.
Qed.

Lemma year_cells_lookup (df : DataFrame) years :
  length years = length (rows df) →
  Forall2 (λ (r : gmap string cell) v, r !! "ano" = Some v)
          (rows (set_column "ano" (year_cells years) df)) (year_cells years).
Proof.
  intros Hlen. cbn [set_column rows].
  apply Forall2_zip_with_insert. by rewrite year_cells_length.
Qed.

(** C5: the sample is a function of the table, the target size and the
    seed, and a second call on the table the first call has left returns
    the same sample and leaves the table as it found it. *)
Theorem repeated_sample_identical df t seed :
  create_stratified_sample (create_stratified_sample df t seed).1 t seed
  = create_stratified_sample df t seed.
Proof.
  unfold create_stratified_sample at 2 3.
  destruct (get_column "issue_d" df ≫= _) as [years|e] eqn:Hyears.
  2:{ cbn [fst]. unfold create_stratified_sample. by rewrite Hyears. }
  assert (length years = length (rows df) ∧ "issue_d" ∈ columns df)
    as [Hlen Hissue].
  { destruct (get_column "issue_d" df) as [raw|] eqn:Hraw; [|done].
    rewrite bind_Ok in Hyears. apply dt_year_length in Hyears.
    apply get_column_Ok in Hraw as [? ->]. by rewrite length_fmap in Hyears. }
  set (ano := year_cells years) in *.
  assert (length ano = length (rows df)) as Hano
    by (unfold ano; by rewrite year_cells_length).
  set (df1 := set_column "ano" ano df) in *.
  assert (get_column "issue_d" df1 = get_column "issue_d" df) as Hissue1.
  { rewrite !get_column_elem;
      [|done|apply elem_of_set_column_columns; by left].
    unfold df1. by rewrite set_column_cells_ne. }
  assert (set_column "ano" ano df1 = df1) as Hid1.
  { apply set_column_id; [apply elem_of_set_column_columns; by right|].
    by apply year_cells_lookup. }
  destruct (get_column "target_default" df1) as [target|e] eqn:Htarget.
  2:{ cbn [fst]. unfold create_stratified_sample.
      rewrite Hissue1, Hyears. fold ano. rewrite Hid1. by rewrite Htarget. }
  set (col := zip_with _ _ _) in *.
  assert (length (CStr <$> col) = length (rows df1)) as Hcol.
  { unfold col. rewrite length_fmap, length_zip_with, !astype_str_length.
    apply get_column_Ok in Htarget as [_ ->].
    rewrite length_fmap. unfold ano. rewrite year_cells_length.
    unfold df1. rewrite set_column_length by done. lia. }
  set (df2 := set_column "strata" (CStr <$> col) df1) in *.
  cbn [fst]. unfold create_stratified_sample.
  assert (get_column "issue_d" df2 = get_column "issue_d" df) as ->.
  { rewrite <-Hissue1. rewrite !get_column_elem.
    - unfold df2. by rewrite set_column_cells_ne.
    - apply elem_of_set_column_columns; by left.
    - apply elem_of_set_column_columns. left.
      apply elem_of_set_column_columns; by left. }
  rewrite Hyears. fold ano.
  assert (set_column "ano" ano df2 = df2) as ->.
  { apply set_column_id.
    - apply elem_of_set_column_columns. left.
      apply elem_of_set_column_columns; by right.
    - unfold df2. cbn [set_column rows].
      apply Forall2_zip_with_insert_ne; [done|done|].
      by apply year_cells_lookup. }
  assert (get_column "target_default" df2 = Ok target) as ->.
  { rewrite <-Htarget. pose proof Htarget as [Hin _]%get_column_Ok.
    rewrite !get_column_elem;
      [|done|apply elem_of_set_column_columns; by left].
    unfold df2. by rewrite set_column_cells_ne. }
  fold col.
  assert (set_column "strata" (CStr <$> col) df2 = df2) as ->; [|done].
  apply set_column_id; [apply elem_of_set_column_columns; by right|].
  unfold df2. cbn [set_column rows]. by apply Forall2_zip_with_insert.
Qed.
End SamplingTheorems.

(** ** The data loader *)

Section LoaderFacts.
Context {HF : PyFloat}.
Variable read_csv : list Init.Byte.byte → option compression → result DataFrame.

Lemma endswith_gzip_not_gz (path : string) :
  endswith path ".gzip" = true → endswith path ".gz" = false.
Proof.
  unfold endswith. intros [pre Hpre]%bool_decide_eq_true.
  apply bool_decide_eq_false. intros [pre' Hpre'].
  rewrite Hpre in Hpre'. apply (f_equal reverse) in Hpre'.
  rewrite !reverse_app in Hpre'. by vm_compute in Hpre'.
Qed.

Lemma magic_prefix (content : list Init.Byte.byte) :
  take 2 content = gzip_magic
  ↔ ∃ rest, content = Init.Byte.x1f :: Init.Byte.x8b :: rest.
Proof.
  unfold gzip_magic. split.
  - destruct content as [|b1 [|b2 rest]]; simpl; try done.
    intros [= -> ->]. eauto.
  - by intros [rest ->].
Qed.

(** C8: a file whose path ends in [.gz] is read as gzip; a file whose path
    ends in [.gzip] is read as gzip when its first two bytes are 1f 8b and
    uncompressed when they are not; any other file is read uncompressed. *)
Theorem load_compression_decision (fs : filesystem) (path : string) content :
  fs path = Some content →
  (endswith path ".gz" = true →
   load_lending_club_data read_csv fs path = read_csv content (Some gzip)) ∧
  (endswith path ".gzip" = true →
   (∃ rest, content = Init.Byte.x1f :: Init.Byte.x8b :: rest) →
   load_lending_club_data read_csv fs path = read_csv content (Some gzip)) ∧
  (endswith path ".gzip" = true →
   ¬ (∃ rest, content = Init.Byte.x1f :: Init.Byte.x8b :: rest) →
   load_lending_club_data read_csv fs path = read_csv content None) ∧
  (endswith path ".gz" = false → endswith path ".gzip" = false →
   load_lending_club_data read_csv fs path = read_csv content None).
Proof.
  intros Hfile.
  assert (open_rb fs path = Ok content) as Hopen
    by (unfold open_rb; by rewrite Hfile).
  unfold load_lending_club_data, detect_compression.
  split; [|split; [|split]].
  - intros ->. cbv iota. by rewrite bind_Ok, Hopen.
  - intros Hgzip Hmagic%magic_prefix.
    rewrite (endswith_gzip_not_gz _ Hgzip), Hgzip. cbv iota.
    rewrite Hopen, !bind_Ok. by rewrite decide_True.
  - intros Hgzip Hmagic. rewrite <-magic_prefix in Hmagic.
    rewrite (endswith_gzip_not_gz _ Hgzip), Hgzip. cbv iota.
    rewrite Hopen, !bind_Ok. by rewrite decide_False.
  - intros -> ->. cbv iota. by rewrite bind_Ok, Hopen.
Qed.
End LoaderFacts.

(** ** Temporal distribution *)

Section SeriesLookupFacts.
Context {V : Type}.

Lemma series_lookup_index (g : Z → V) (index : list Z) y :
  series_lookup y ((λ y, (y, g y)) <$> index)
  = if decide (y ∈ index) then Some (g y) else None.
Proof.
  induction index as [|x index IH]; [done|].
  rewrite fmap_cons. cbn [series_lookup].
  destruct (decide (x = y)) as [->|Hne].
  - rewrite decide_True; [done|left].
  - rewrite IH. destruct (decide (y ∈ index)) as [Hin|Hout].
    + rewrite decide_True; [done|by right].
    + rewrite decide_False; [done|].
      intros [?|?]%elem_of_cons; congruence.
Qed.

Lemma series_lookup_map_values {W} (f : V → W) (s : list (Z * V)) y :
  series_lookup y (map_values f s) = f <$> series_lookup y s.
Proof.
  induction s as [|[k v] s IH]; [done|].
  unfold map_values in *. rewrite fmap_cons. cbn [series_lookup fst snd].
  by destruct (decide (k = y)).
Qed.

Lemma series_lookup_NoDup (s : list (Z * V)) y v :
  NoDup s.*1 → (y, v) ∈ s → series_lookup y s = Some v.
Proof.
  induction s as [|[k v'] s IH]; [by intros _ ?%elem_of_nil|].
  rewrite fmap_cons. cbn [series_lookup fst].
  intros [Hk Hnd]%NoDup_cons [[= -> ->]|Hin]%elem_of_cons.
  - by rewrite decide_True.
  - rewrite decide_False; [by apply IH|].
    intros ->. apply Hk. apply list_elem_of_fmap. by exists (y, v).
Qed.

Lemma series_lookup_None (s : list (Z * V)) y :
  y ∉ s.*1 → series_lookup y s = None.
Proof.
  induction s as [|[k v'] s IH]; [done|].
  rewrite fmap_cons. cbn [series_lookup fst].
  intros [Hne Hout]%not_elem_of_cons.
  rewrite decide_False by done. by apply IH.
Qed.
End SeriesLookupFacts.

Section IndexFacts.

Lemma elem_of_index_union (indexes : list (list Z)) y :
  y ∈ index_union indexes ↔ ∃ index, index ∈ indexes ∧ y ∈ index.
Proof.
  unfold index_union. rewrite merge_sort_Permutation, elem_of_unique.
  rewrite list_elem_of_In, in_concat. setoid_rewrite <-list_elem_of_In.
  naive_solver.
Qed.

Lemma StronglySorted_lt_of_le (l : list Z) :
  StronglySorted Z.le l → NoDup l → StronglySorted Z.lt l.
Proof.
  induction 1 as [|x l Hl IH Hx]; intros Hnd; constructor.
  - apply IH. by apply NoDup_cons in Hnd as [_ ?].
  - apply NoDup_cons in Hnd as [Hout _].
    apply Forall_forall. intros y Hy.
    rewrite Forall_forall in Hx. specialize (Hx y Hy).
    assert (x ≠ y) by (intros ->; done). lia.
Qed.

Lemma index_union_sorted (indexes : list (list Z)) :
  StronglySorted Z.lt (index_union indexes).
Proof.
  apply StronglySorted_lt_of_le.
  - apply StronglySorted_merge_sort; apply _.
  - unfold index_union. rewrite merge_sort_Permutation. apply NoDup_unique.
Qed.
End IndexFacts.

Section AnalysisFacts.
Context {HF : PyFloat} {HP : PandasLib}.

Lemma elem_of_present (years : list (option Z)) y :
  y ∈ omap id years ↔ Some y ∈ years.
Proof. rewrite list_elem_of_omap. naive_solver. Qed.

Lemma year_distribution_keys (years : list (option Z)) :
  (year_distribution years).*1 ≡ₚ (value_counts (omap id years)).*1.
Proof.
  unfold year_distribution, sort_index, value_counts_normalize.
  rewrite merge_sort_Permutation, <-list_fmap_compose. done.
Qed.

Lemma elem_of_year_distribution_keys (years : list (option Z)) y :
  y ∈ (year_distribution years).*1 ↔ Some y ∈ years.
Proof.
  by rewrite year_distribution_keys, elem_of_value_counts_keys,
    elem_of_present.
Qed.

(** The distribution gives a year of the table its share and has no entry
    for another year. *)
Lemma series_lookup_year_distribution (years : list (option Z)) y :
  series_lookup y (year_distribution years)
  = if decide (Some y ∈ years) then Some (share years y) else None.
Proof.
  destruct (decide (Some y ∈ years)) as [Hin|Hout].
  - apply series_lookup_NoDup.
    + rewrite year_distribution_keys. apply NoDup_value_counts_keys.
    + unfold year_distribution, sort_index, value_counts_normalize.
      rewrite merge_sort_Permutation. apply list_elem_of_fmap.
      exists (y, count_of y (omap id years)). split; [done|].
      apply elem_of_value_counts. by rewrite elem_of_present.
  - apply series_lookup_None. by rewrite elem_of_year_distribution_keys.
Qed.

Lemma map_values_keys {V W} (f : V → W) (s : list (Z * V)) :
  (map_values f s).*1 = s.*1.
Proof. unfold map_values. by rewrite <-list_fmap_compose. Qed.

Lemma series_sub_keys (a b : list (Z * float)) :
  (series_sub a b).*1 = index_union [a.*1; b.*1].
Proof.
  unfold series_sub. rewrite <-list_fmap_compose. apply list_fmap_id.
Qed.

(** The report of a call that returns one. *)
Lemma analyze_temporal_distribution_Ok df_original df_sample d1 d2 report :
  analyze_temporal_distribution df_original df_sample = (d1, d2, Ok report) →
  report
  = comparison_frame
      (map_values percent (year_distribution (years_of df_original)))
      (map_values percent (year_distribution (years_of df_sample)))
      (map_values (option_map abs_percent)
         (series_sub (year_distribution (years_of df_original))
                     (year_distribution (years_of df_sample)))).
Proof.
  unfold analyze_temporal_distribution, years_of.
  destruct (get_column "issue_d" df_original ≫= _) as [yo|]; [|done].
  destruct (get_column "issue_d" df_sample ≫= _) as [ys|]; [|done].
  by intros [= _ _ <-].
Qed.
End AnalysisFacts.

Section AnalysisTheorems.
Context {HF : PyFloat} {HP : PandasLib}.

Lemma series_lookup_series_sub (a b : list (Z * float)) y :
  mjoin (series_lookup y (series_sub a b))
  = x ← series_lookup y a; x' ← series_lookup y b; Some (fsub x x').
Proof.
  unfold series_sub.
  rewrite (series_lookup_index
    (λ y, x ← series_lookup y a; x' ← series_lookup y b; Some (fsub x x'))).
  destruct (decide (y ∈ index_union [a.*1; b.*1])) as [|Hout]; [done|].
  simpl. rewrite (series_lookup_None a); [reflexivity|].
  intros Hin. apply Hout, elem_of_index_union.
  exists a.*1. split; [left|done].
Qed.

(** C7, as the code has it: the report has a row for every year of either
    table, in ascending order; a year of both tables has its two shares in
    percent and the absolute difference of the shares in percentage
    points, each rounded to one decimal; a year one table lacks has no
    share for that table and no difference. *)
Theorem temporal_report df_original df_sample d1 d2 report :
  analyze_temporal_distribution df_original df_sample = (d1, d2, Ok report) →
  StronglySorted Z.lt (year <$> report) ∧
  (∀ y : Z, y ∈ year <$> report
            ↔ Some y ∈ years_of df_original ∨ Some y ∈ years_of df_sample) ∧
  ∀ row, row ∈ report →
    original_pct row
    = (if decide (Some (year row) ∈ years_of df_original)
       then Some (percent (share (years_of df_original) (year row)))
       else None) ∧
    amostra_pct row
    = (if decide (Some (year row) ∈ years_of df_sample)
       then Some (percent (share (years_of df_sample) (year row)))
       else None) ∧
    diferenca_pp row
    = (if decide (Some (year row) ∈ years_of df_original
                  ∧ Some (year row) ∈ years_of df_sample)
       then Some (abs_percent (fsub (share (years_of df_original) (year row))
                                    (share (years_of df_sample) (year row))))
       else None).
Proof.
  intros ->%analyze_temporal_distribution_Ok.
  set (original := years_of df_original).
  set (sample := years_of df_sample).
  unfold comparison_frame.
  rewrite !map_values_keys, series_sub_keys.
  set (index := index_union _).
  assert (year <$> ((λ y, {|
      year := y;
      original_pct :=
        series_lookup y (map_values percent (year_distribution original));
      amostra_pct :=
        series_lookup y (map_values percent (year_distribution sample));
      diferenca_pp :=
        mjoin (series_lookup y
                 (map_values (option_map abs_percent)
                    (series_sub (year_distribution original)
                                (year_distribution sample)))) |}) <$> index)
          = index) as Hyears.
  { rewrite <-list_fmap_compose. apply list_fmap_id. }
  rewrite Hyears. split; [apply index_union_sorted|]. split.
  - intros y. unfold index. rewrite elem_of_index_union.
    rewrite <-!elem_of_year_distribution_keys. split.
    + intros (l & Hl & Hy). rewrite !elem_of_cons, elem_of_nil in Hl.
      destruct Hl as [->|[->|[->|[]]]]; auto.
      apply elem_of_index_union in Hy as (l & Hl & Hy).
      rewrite !elem_of_cons, elem_of_nil in Hl.
      destruct Hl as [->|[->|[]]]; auto.
    + intros [Hy|Hy]; eexists; (split; [|exact Hy]).
      * left.
      * right; left.
  - intros row (y & -> & _)%list_elem_of_fmap. cbn [year original_pct
      amostra_pct diferenca_pp].
    rewrite !series_lookup_map_values, !series_lookup_year_distribution.
    split; [by destruct (decide _)|]. split; [by destruct (decide _)|].
    assert (mjoin (option_map abs_percent
                     <$> series_lookup y
                           (series_sub (year_distribution original)
                                       (year_distribution sample)))
            = abs_percent
                <$> mjoin (series_lookup y
                             (series_sub (year_distribution original)
                                         (year_distribution sample)))) as ->.
    { by destruct (series_lookup y _) as [[?|]|]. }
    rewrite series_lookup_series_sub, !series_lookup_year_distribution.
    destruct (decide (Some y ∈ original)), (decide (Some y ∈ sample)); simpl.
    + by rewrite decide_True.
    + by rewrite decide_False by naive_solver.
    + by rewrite decide_False by naive_solver.
    + by rewrite decide_False by naive_solver.
Qed.
End AnalysisTheorems.

(** ** The anonymisation on the tables of loans *)

Example anonymize_loans :
  anonymize_and_filter_data loans = (loans_parsed, Ok loans_anonymized).
Proof. by_evaluation. Qed.

Example select_loans :
  filter_period_and_status loans = (loans_parsed, Ok loans_selected).
Proof. by_evaluation. Qed.

Example select_paid_loans :
  filter_period_and_status paid_loans
  = (paid_loans_parsed, Ok paid_loans_selected).
Proof. by_evaluation. Qed.

Example anonymize_plain_loans :
  (anonymize_and_filter_data plain_loans).2 = Ok plain_loans_anonymized.
Proof. by_evaluation. Qed.

Example loans_well_formed : well_formed loans.
Proof.
  assert (Forall (λ r : gmap string cell,
                    dom r ⊆ list_to_set (C:=gset string) (columns loans))
                 (rows loans)) as Hall by by_evaluation.
  intros r c Hr Hc. rewrite Forall_forall in Hall.
  apply elem_of_dom, (Hall r Hr), elem_of_list_to_set in Hc. done.
Qed.

Lemma anonymize_keeps_period_and_status_witness :
  ∃ t s,
    anonymized_loan 4 (midnight 2020 12 31) "Charged Off" 1 !! "issue_d"
    = Some (CDate t) ∧
    ts_leb (midnight 2015 1 1) t = true ∧ ts_leb t (midnight 2020 12 31) = true ∧
    anonymized_loan 4 (midnight 2020 12 31) "Charged Off" 1 !! "loan_status"
    = Some (CStr s) ∧
    s ∈ paid_status ++ default_status.
Proof.
  apply (anonymize_keeps_period_and_status loans loans_parsed loans_anonymized).
  - exact anonymize_loans.
  - unfold loans_anonymized; cbn [rows].
    apply elem_of_cons; right. apply elem_of_cons; by left.
Defined.

Lemma target_default_iff_default_status_witness :
  ∃ s,
    anonymized_loan 5 (midnight 2016 7 1) "Default" 1 !! "loan_status"
    = Some (CStr s) ∧
    anonymized_loan 5 (midnight 2016 7 1) "Default" 1 !! "target_default"
    = Some (CInt (if decide (s ∈ default_status) then 1 else 0)).
Proof.
  apply (target_default_iff_default_status loans loans_parsed loans_anonymized).
  - exact anonymize_loans.
  - unfold loans_anonymized; cbn [rows].
    do 2 (apply elem_of_cons; right). apply elem_of_cons; by left.
Defined.

Lemma anonymize_drops_leak_and_privacy_witness :
  ∃ out,
    anonymize_and_filter_data loans = (loans_parsed, Ok out) ∧
    ∀ c : string, c ∈ future_leak_cols ++ privacy_cols →
      (c ∉ columns out) ∧
      (well_formed loans →
       ∀ r : gmap string cell, r ∈ rows out → r !! c = None).
Proof.
  apply (anonymize_drops_leak_and_privacy loans loans_parsed loans_selected).
  - exact select_loans.
  - eapply bool_decide_unpack with (dec := decide _). by vm_compute.
  - eapply bool_decide_unpack with (dec := decide _). by vm_compute.
Defined.

Lemma anonymize_one_class_raises_witness :
  anonymize_and_filter_data paid_loans
  = (paid_loans_parsed, Raise (KeyError (pretty (1 - 0)))).
Proof.
  apply (anonymize_one_class_raises paid_loans paid_loans_parsed
           paid_loans_selected 0).
  - exact select_paid_loans.
  - discriminate.
  - unfold only_class. apply Forall_forall. by_evaluation.
Defined.

(** C6, as the claim states it, fails: the call replaces the strings of the
    ['issue_d'] column of the caller's table by timestamps. *)
Lemma anonymize_mutates_caller_table :
  cell_of "issue_d" <$> rows (anonymize_and_filter_data loans).1
  ≠ cell_of "issue_d" <$> rows loans.
Proof. by_evaluation. Qed.

(** ** The sampler on the labelled loans *)

Example sample_two_loans :
  create_stratified_sample labelled_loans 2 43
  = (stratified_loans, Ok sample_of_two).
Proof. by_evaluation. Qed.

Example sample_minus_two_loans :
  create_stratified_sample labelled_loans (-2) 43
  = (stratified_loans, Ok sample_of_minus_two).
Proof. by_evaluation. Qed.

Lemma stratum_sample_sizes_witness :
  ∃ picked : list (gmap string cell),
    rows sample_of_two = delete "strata" <$> picked ∧
    picked ⊆+ rows stratified_loans ∧
    ∀ (k : string) (r : gmap string cell),
      r ∈ rows stratified_loans → in_stratum k r →
      let available :=
        length (filter (λ r, in_stratum k r) (rows stratified_loans)) in
      let taken := length (filter (λ r, in_stratum k r) picked) in
      let share :=
        fdiv (of_int (Z.of_nat available)) (of_int (len stratified_loans)) in
      Z.of_nat taken = floored_size 2 share (Z.of_nat available) ∧
      (1 ≤ taken ≤ available)%nat ∧
      (ffloor (fmul (of_int 2) share)
       = Qfloor (inject_Z 2
                 * (inject_Z (Z.of_nat available)
                    / inject_Z (len stratified_loans))) →
       Z.of_nat taken
       = claimed_size 2 (Z.of_nat available) (len stratified_loans)).
Proof.
  apply (stratum_sample_sizes labelled_loans 2 43).
  - exact sample_two_loans.
  - lia.
Defined.

(** C4, as the claim states it, fails in two ways.  With the binary64
    floats of the interpreter the product can fall below the exact one: of
    a hundred loans of 2016 the 29 defaults have the share 0.29, the float
    [100 * 0.29] is below 29, [int] gives 28, and the sample of target size
    100 has 28 of the defaults where the floor of 100 times 29/100 is 29.
    And for a negative target size [int] rounds -1.5 to -1, not to the
    floor -2, the stratum of 2016 is given the size -1 and no row of it is
    in the sample returned. *)
Lemma stratum_size_differs_from_claimed :
  (len (create_stratified_sample hundred_loans 100 42).1 = 100 ∧
   length (filter (λ r, in_stratum "2016_1" r)
             (rows (create_stratified_sample hundred_loans 100 42).1))
   = 29%nat ∧
   stratum_size 100 (@fdiv binary64 (of_int 29) (of_int 100)) 29 = 28 ∧
   claimed_size 100 29 100 = 29 ∧
   (out ← (create_stratified_sample hundred_loans 100 42).2;
    Ok (length (filter (λ r, r !! "target_default" = Some (CInt 1))
                  (rows out))))
   = Ok 28%nat) ∧
  (create_stratified_sample labelled_loans (-2) 43
   = (stratified_loans, Ok sample_of_minus_two) ∧
   stratum_size (-2) (@fdiv exact_float (of_int 3) (of_int 4)) 3 = -1 ∧
   claimed_size (-2) 3 4 = -2 ∧
   length (filter (λ r, in_stratum "2016_0" r) (rows stratified_loans))
   = 3%nat ∧
   ∀ r : gmap string cell,
     r ∈ rows stratified_loans → in_stratum "2016_0" r →
     delete "strata" r ∉ rows sample_of_minus_two).
Proof.
  split.
  { do 4 (split; [by vm_compute|]). by vm_compute. }
  split; [exact sample_minus_two_loans|].
  do 3 (split; [by vm_compute|]).
  apply (proj1 (Forall_forall
    (λ r : gmap string cell,
       in_stratum "2016_0" r → delete "strata" r ∉ rows sample_of_minus_two)
    (rows stratified_loans))).
  by_evaluation.
Qed.

Lemma sample_keeps_year_drops_strata_witness :
  (∀ c : string,
     c ∈ columns stratified_loans
     ↔ c ∈ columns labelled_loans ∨ c = "ano" ∨ c = "strata") ∧
  (∀ r : gmap string cell,
     r ∈ rows stratified_loans →
     is_Some (r !! "ano") ∧ is_Some (r !! "strata")) ∧
  (∀ c : string,
     c ∈ columns sample_of_two
     ↔ (c ∈ columns labelled_loans ∨ c = "ano") ∧ c ≠ "strata") ∧
  (∀ r : gmap string cell,
     r ∈ rows sample_of_two → is_Some (r !! "ano") ∧ r !! "strata" = None).
Proof.
  apply (sample_keeps_year_drops_strata labelled_loans 2 43).
  exact sample_two_loans.
Defined.

Lemma load_compression_decision_witness :
  (endswith "data.gzip" ".gz" = true →
   load_lending_club_data recording_reader one_file "data.gzip"
   = recording_reader plain_file (Some gzip)) ∧
  (endswith "data.gzip" ".gzip" = true →
   (∃ rest, plain_file = Init.Byte.x1f :: Init.Byte.x8b :: rest) →
   load_lending_club_data recording_reader one_file "data.gzip"
   = recording_reader plain_file (Some gzip)) ∧
  (endswith "data.gzip" ".gzip" = true →
   ¬ (∃ rest, plain_file = Init.Byte.x1f :: Init.Byte.x8b :: rest) →
   load_lending_club_data recording_reader one_file "data.gzip"
   = recording_reader plain_file None) ∧
  (endswith "data.gzip" ".gz" = false → endswith "data.gzip" ".gzip" = false →
   load_lending_club_data recording_reader one_file "data.gzip"
   = recording_reader plain_file None).
Proof.
  apply (load_compression_decision recording_reader one_file "data.gzip").
  reflexivity.
Defined.

Example load_plain_gzip_file :
  endswith "data.gzip" ".gzip" = true ∧
  load_lending_club_data recording_reader one_file "data.gzip"
  = Ok {| columns := ["plain"]; rows := [] |}.
Proof. split; by_evaluation. Qed.

Example detect_gz_path :
  detect_compression one_file "loans.csv.gz" = Ok (Some gzip).
Proof. by_evaluation. Qed.

(** ** The report on the example tables *)

Example report_labelled_loans :
  analyze_temporal_distribution labelled_loans sample_of_two
  = (set_column "ano" (year_cells (years_of labelled_loans)) labelled_loans,
     sample_of_two, Ok report_of_two).
Proof. by_evaluation. Qed.

Lemma temporal_report_witness :
  StronglySorted Z.lt (year <$> report_of_two) ∧
  (∀ y : Z, y ∈ year <$> report_of_two
            ↔ Some y ∈ years_of labelled_loans ∨ Some y ∈ years_of sample_of_two) ∧
  ∀ row, row ∈ report_of_two →
    original_pct row
    = (if decide (Some (year row) ∈ years_of labelled_loans)
       then Some (percent (share (years_of labelled_loans) (year row)))
       else None) ∧
    amostra_pct row
    = (if decide (Some (year row) ∈ years_of sample_of_two)
       then Some (percent (share (years_of sample_of_two) (year row)))
       else None) ∧
    diferenca_pp row
    = (if decide (Some (year row) ∈ years_of labelled_loans
                  ∧ Some (year row) ∈ years_of sample_of_two)
       then Some (abs_percent (fsub (share (years_of labelled_loans) (year row))
                                    (share (years_of sample_of_two) (year row))))
       else None).
Proof.
  apply (temporal_report labelled_loans sample_of_two
           (set_column "ano" (year_cells (years_of labelled_loans)) labelled_loans)
           sample_of_two).
  exact report_labelled_loans.
Defined.

Example report_loans_2015_2016 :
  (analyze_temporal_distribution loans_of_2015 loans_of_2016).2
  = Ok report_2015_2016.
Proof. by_evaluation. Qed.

(** C7, as the claim states it, fails: for a year that one of the tables
    lacks the report has no share for that table and no difference, where
    the claim has the share 0 and the share of the other table. *)
Lemma missing_year_has_no_share :
  (analyze_temporal_distribution loans_of_2015 loans_of_2016).2
  = Ok report_2015_2016 ∧
  ¬ report_as_specified (years_of loans_of_2015) (years_of loans_of_2016)
      report_2015_2016.
Proof.
  split; [exact report_loans_2015_2016|].
  intros (_ & _ & Hrows).
  destruct (Hrows (@mkComparisonRow exact_float 2015 (Some (inject_Z 100))
                                    None None))
    as (_ & Hsample & _); [left|].
  discriminate Hsample.
Qed.

(** * Further properties *)

(** ** The rows and columns the anonymisation returns *)

Lemma filter_ext_elem {A} (P Q : A → Prop) `{∀ x, Decision (P x)}
    `{∀ x, Decision (Q x)} (l : list A) :
  (∀ x, x ∈ l → P x ↔ Q x) → filter P l = filter Q l.
Proof.
  induction l as [|x l IH]; intros Hext; [done|].
  rewrite !filter_cons, IH by (intros y Hy; apply Hext; by right).
  destruct (decide (P x)) as [HP|HP], (decide (Q x)) as [HQ|HQ]; try done;
    apply Hext in HP || apply Hext in HQ; try done; left.
Qed.

Section AnonymizeOrder.
Context {HF : PyFloat} {HP : PandasLib}.

Lemma disjoint_leak_privacy c : c ∈ future_leak_cols → c ∉ privacy_cols.
Proof.
  intros Hc. revert c Hc. apply Forall_forall.
  eapply bool_decide_unpack with (dec := decide _). by vm_compute.
Qed.

Lemma target_default_kept :
  ("target_default" ∉ future_leak_cols) ∧ ("target_default" ∉ privacy_cols).
Proof. apply kept_labels. set_solver. Qed.

Lemma filter_period_and_status_columns df df' ft :
  filter_period_and_status df = (df', Ok ft) →
  columns df' = columns df ∧ columns ft = columns df.
Proof.
  intros (raw & parsed & [Hin _]%get_column_Ok & _ & -> & _ & ->)
    %filter_period_and_status_Ok.
  cbn [set_column columns]. by rewrite decide_True.
Qed.

(** The cells of the row returned for a selected row. *)
Lemma lookup_anonymized_row ft (r0 : gmap string cell) (c : string) :
  foldr delete
    (foldr delete (label_row r0)
       (filter (λ col, col ∈ columns (labelled ft)) future_leak_cols))
    (filter (λ col, col ∈ columns (drop_existing future_leak_cols (labelled ft)))
       privacy_cols) !! c
  = if decide (c ∈ future_leak_cols ++ privacy_cols ∧ c ∈ columns ft) then None
    else if decide (c = "target_default") then Some (CInt (label_of r0))
    else r0 !! c.
Proof.
  rewrite !lookup_drop_existing_row.
  pose proof target_default_kept as [Hl Hp].
  pose proof (disjoint_leak_privacy c) as Hdis.
  pose proof (elem_of_set_column_columns "target_default" c
                (CInt <$> (label_of <$> rows ft)) ft) as Hcols.
  fold (labelled ft) in Hcols.
  pose proof (elem_of_drop_existing_columns future_leak_cols (labelled ft) c)
    as Hdrop.
  pose proof (elem_of_app future_leak_cols privacy_cols c) as Happ.
  unfold label_row.
  destruct (decide (c = "target_default")) as [->|Hne].
  - rewrite lookup_insert_eq.
    by rewrite !decide_False by tauto.
  - rewrite lookup_insert_ne by done.
    repeat case_decide; try done; exfalso; tauto.
Qed.

Lemma rows_anonymized ft :
  rows (anonymized ft)
  = (λ r0 : gmap string cell,
       foldr delete
         (foldr delete (label_row r0)
            (filter (λ col, col ∈ columns (labelled ft)) future_leak_cols))
         (filter (λ col, col ∈ columns (drop_existing future_leak_cols (labelled ft)))
            privacy_cols)) <$> rows ft.
Proof.
  unfold anonymized. unfold drop_existing at 1. cbn [rows].
  change (rows (drop_existing future_leak_cols (labelled ft)))
    with ((λ r : gmap string cell,
             foldr delete r
               (filter (λ col, col ∈ columns (labelled ft)) future_leak_cols))
            <$> rows (labelled ft)).
  by rewrite rows_labelled, <-!list_fmap_compose.
Qed.

(** X1: the frame returned has one row for every row of the parsed table
    that is in the period with a paid or default status, in the order of the
    table: the row without the cells of the dropped columns and with its
    label.  A row is in the period when its issue date is a timestamp from
    midnight of 2015-01-01 to midnight of 2020-12-31, both included: a
    later time of 2020-12-31 is outside. *)
Theorem anonymize_returns_kept_rows_in_order df df' out :
  anonymize_and_filter_data df = (df', Ok out) →
  Forall2 (λ r0 r : gmap string cell,
             ∀ c : string,
               r !! c
               = if decide (c ∈ future_leak_cols ++ privacy_cols ∧ c ∈ columns df)
                 then None
                 else if decide (c = "target_default")
                      then Some (CInt (label_of r0))
                      else r0 !! c)
          (filter (λ r, in_period r ∧ resolved r) (rows df'))
          (rows out) ∧
  ∀ r : gmap string cell,
    in_period r
    ↔ ∃ d, r !! "issue_d" = Some (CDate d) ∧
           ts_leb (midnight 2015 1 1) d ∧ ts_leb d (midnight 2020 12 31).
Proof.
  intros Hout. split.
  2:{ intros r. unfold in_period, cell_of.
      destruct (r !! "issue_d") as [[| | | | |d]|]; simpl;
        try (split; [done|by intros (? & [=] & _)]).
      fold period_start period_end. rewrite andb_True. split.
      - intros [??]. by exists d.
      - by intros (? & [= <-] & ? & ?). }
  revert Hout. intros (ft & Hft & -> & _)%anonymize_Ok.
  pose proof (filter_period_and_status_columns _ _ _ Hft) as [_ Hcols].
  apply filter_period_and_status_Ok in Hft as (_ & _ & _ & _ & _ & _ & Hrows).
  rewrite rows_anonymized. apply Forall2_fmap_r.
  assert (rows ft = filter (λ r, in_period r ∧ resolved r) (rows df')) as ->.
  { rewrite Hrows. cbn [rows]. rewrite list_filter_filter.
    apply list_filter_iff. naive_solver. }
  apply Forall_Forall2_diag, Forall_forall. intros r _ c.
  by rewrite lookup_anonymized_row, Hcols.
Qed.

Lemma columns_drop_existing labels (df : DataFrame) :
  columns (drop_existing labels df) = filter (λ c, c ∉ labels) (columns df).
Proof.
  unfold drop_existing; cbn [columns]. apply filter_ext_elem.
  intros c Hc. rewrite list_elem_of_filter. naive_solver.
Qed.

(** X2: the columns of the frame returned are those of the table received,
    in their order, without the leakage and privacy columns, and the label
    after them when the table had no column of that name. *)
Theorem anonymize_keeps_column_order df df' out :
  anonymize_and_filter_data df = (df', Ok out) →
  columns out
  = filter (λ c, c ∉ future_leak_cols ++ privacy_cols)
      (if decide ("target_default" ∈ columns df) then columns df
       else columns df ++ ["target_default"]).
Proof.
  intros (ft & Hft & -> & _)%anonymize_Ok.
  pose proof (filter_period_and_status_columns _ _ _ Hft) as [_ Hcols].
  unfold anonymized. rewrite !columns_drop_existing, list_filter_filter.
  replace (columns (labelled ft))
    with (if decide ("target_default" ∈ columns df) then columns df
          else columns df ++ ["target_default"])
    by (unfold labelled; cbn [set_column columns]; by rewrite Hcols).
  apply list_filter_iff. intros c. rewrite elem_of_app. naive_solver.
Qed.

(** X3: a frame returned holds a paid loan and a default: both labels are
    present in it. *)
Theorem anonymize_returns_both_classes df df' out :
  anonymize_and_filter_data df = (df', Ok out) →
  (∃ r : gmap string cell,
     r ∈ rows out ∧ r !! "target_default" = Some (CInt 0)) ∧
  (∃ r : gmap string cell,
     r ∈ rows out ∧ r !! "target_default" = Some (CInt 1)).
Proof.
  intros (ft & Hft & -> & Hz & Ho)%anonymize_Ok.
  assert (∀ z, z ∈ label_of <$> rows ft →
            ∃ r : gmap string cell,
              r ∈ rows (anonymized ft) ∧ r !! "target_default" = Some (CInt z))
    as Hlabel.
  { intros z (r0 & -> & Hr0)%list_elem_of_fmap.
    eexists. split.
    - rewrite rows_anonymized. by apply list_elem_of_fmap_2.
    - rewrite lookup_anonymized_row.
      pose proof target_default_kept as [Hl Hp].
      rewrite decide_False by (rewrite elem_of_app; naive_solver).
      by rewrite decide_True. }
  split; by apply Hlabel.
Qed.

(** X4: a table without a ['loan_status'] column: the call raises [KeyError]
    once it has replaced the ['issue_d'] column of the table by the parsed
    dates. *)
Theorem anonymize_without_loan_status df parsed :
  (raw ← get_column "issue_d" df; to_datetime raw) = Ok parsed →
  "loan_status" ∉ columns df →
  anonymize_and_filter_data df
  = (set_column "issue_d" (datetime_cell <$> parsed) df,
     Raise (KeyError "loan_status")).
Proof.
  intros Hparsed Hst. unfold anonymize_and_filter_data, filter_period_and_status.
  rewrite Hparsed.
  rewrite select_period_and_status_spec
    by (apply elem_of_set_column_columns; by right).
  rewrite decide_False; [done|].
  rewrite elem_of_set_column_columns. naive_solver.
Qed.
End AnonymizeOrder.

Lemma anonymize_without_loan_status_witness :
  anonymize_and_filter_data loans_of_2015
  = (set_column "issue_d"
       (datetime_cell <$> [Some (midnight 2015 1 1); Some (midnight 2015 6 1)])
       loans_of_2015,
     Raise (KeyError "loan_status")).
Proof.
  apply (anonymize_without_loan_status loans_of_2015).
  - by_evaluation.
  - by_evaluation.
Defined.

Lemma anonymize_returns_kept_rows_in_order_witness :
  Forall2 (λ r0 r : gmap string cell,
             ∀ c : string,
               r !! c
               = if decide (c ∈ future_leak_cols ++ privacy_cols ∧ c ∈ columns loans)
                 then None
                 else if decide (c = "target_default")
                      then Some (CInt (label_of r0))
                      else r0 !! c)
          (filter (λ r, in_period r ∧ resolved r) (rows loans_parsed))
          (rows loans_anonymized) ∧
  ∀ r : gmap string (@cell exact_float),
    in_period r
    ↔ ∃ d, r !! "issue_d" = Some (CDate d) ∧
           ts_leb (midnight 2015 1 1) d ∧ ts_leb d (midnight 2020 12 31).
Proof.
  apply (anonymize_returns_kept_rows_in_order loans loans_parsed loans_anonymized).
  exact anonymize_loans.
Defined.

Lemma anonymize_keeps_column_order_witness :
  columns loans_anonymized
  = filter (λ c, c ∉ future_leak_cols ++ privacy_cols)
      (if decide ("target_default" ∈ columns loans) then columns loans
       else columns loans ++ ["target_default"]).
Proof.
  apply (anonymize_keeps_column_order loans loans_parsed loans_anonymized).
  exact anonymize_loans.
Defined.

Lemma anonymize_returns_both_classes_witness :
  (∃ r : gmap string cell,
     r ∈ rows loans_anonymized ∧ r !! "target_default" = Some (CInt 0)) ∧
  (∃ r : gmap string cell,
     r ∈ rows loans_anonymized ∧ r !! "target_default" = Some (CInt 1)).
Proof.
  apply (anonymize_returns_both_classes loans loans_parsed loans_anonymized).
  exact anonymize_loans.
Defined.

Section AnonymizeLabels.
Context {HF : PyFloat} {HP : PandasLib}.

Lemma paid_not_default s : s ∈ paid_status → s ∉ default_status.
Proof.
  intros Hs. revert s Hs. apply Forall_forall.
  eapply bool_decide_unpack with (dec := decide _). by vm_compute.
Qed.

(** X5: the paid and the default statuses are disjoint, so the label splits
    the rows returned in two: it is 0 for the loans of a paid status and 1
    for those of a default status, and a row has one of the two. *)
Theorem target_zero_iff_paid_status df df' out (r : gmap string cell) :
  anonymize_and_filter_data df = (df', Ok out) → r ∈ rows out →
  ∃ s, r !! "loan_status" = Some (CStr s) ∧
       (r !! "target_default" = Some (CInt 0) ↔ s ∈ paid_status) ∧
       (r !! "target_default" = Some (CInt 1) ↔ s ∈ default_status).
Proof.
  intros Hout Hr.
  destruct (anonymized_row_kept _ _ _ _ Hout Hr)
    as (r0 & _ & _ & Hres & _ & -> & ->).
  apply isin_inv in Hres as (s & Hs & Hin). exists s. split; [done|].
  unfold label_of, cell_of. rewrite Hs. simpl.
  apply elem_of_app in Hin. pose proof (paid_not_default s) as Hdis.
  destruct (decide (s ∈ default_status)) as [Hd|Hd].
  - rewrite bool_decide_eq_true_2 by done. simpl. naive_solver.
  - rewrite bool_decide_eq_false_2 by done. simpl. naive_solver.
Qed.
End AnonymizeLabels.

Lemma target_zero_iff_paid_status_witness :
  ∃ s,
    anonymized_loan 1 (midnight 2015 3 1) "Fully Paid" 0 !! "loan_status"
    = Some (CStr s) ∧
    (anonymized_loan 1 (midnight 2015 3 1) "Fully Paid" 0 !! "target_default"
     = Some (CInt 0) ↔ s ∈ paid_status) ∧
    (anonymized_loan 1 (midnight 2015 3 1) "Fully Paid" 0 !! "target_default"
     = Some (CInt 1) ↔ s ∈ default_status).
Proof.
  apply (target_zero_iff_paid_status loans loans_parsed loans_anonymized).
  - exact anonymize_loans.
  - unfold loans_anonymized; cbn [rows]. apply elem_of_cons; by left.
Defined.

(** ** The sampler: seeds, rows, errors and sizes *)

Section SamplingMore.
Context {HF : PyFloat} {HP : PandasLib}.

(** [draw_sample] with a seed that [sample] accepts: every draw returns,
    and the frames of the strata are joined. *)
Lemma draw_sample_unfold (df : DataFrame) col t seed :
  0 ≤ seed < 2 ^ 32 →
  draw_sample df col t seed
  = (df_sample ← concat_frames
       (omap (λ k, stratum_drawn df col seed k (size_of df col t k))
             (value_counts col).*1);
     drop_columns ["strata"] df_sample).
Proof.
  intros Hseed. rewrite draw_sample_sizes.
  rewrite sample_strata_in_range by done.
  by rewrite bind_Ok, omap_fmap_keys.
Qed.

(** The columns and the number of rows of the frame a stratum gives do not
    depend on the seed. *)
Lemma stratum_sample_seed (df : DataFrame) col seed seed' k n :
  (λ d, (columns d, length (rows d))) <$> stratum_drawn df col seed k n
  = (λ d, (columns d, length (rows d))) <$> stratum_drawn df col seed' k n.
Proof.
  unfold stratum_drawn. destruct (bool_decide (0 < n)) eqn:Hn; [|done].
  apply bool_decide_eq_true in Hn.
  destruct (bool_decide (n ≤ _)) eqn:Hle; [|done].
  apply bool_decide_eq_true in Hle. cbn [fmap option_fmap option_map].
  do 2 f_equal.
  destruct (sample_rows n seed (select_rows ((λ s, bool_decide (s = k)) <$> col) df))
    as [_ ->]; [lia|].
  destruct (sample_rows n seed' (select_rows ((λ s, bool_decide (s = k)) <$> col) df))
    as [_ ->]; [lia|]. done.
Qed.

Lemma omap_seed {A} (f g : A → option DataFrame) (l : list A) :
  (∀ x, (λ d, (columns d, length (rows d))) <$> f x
        = (λ d, (columns d, length (rows d))) <$> g x) →
  Forall2 (λ d d', columns d = columns d' ∧ length (rows d) = length (rows d'))
          (omap f l) (omap g l).
Proof.
  intros Hfg. induction l as [|x l IH]; [constructor|].
  cbn [omap list_omap]. specialize (Hfg x).
  destruct (f x) as [d|], (g x) as [d'|]; simplify_eq/=; [|done].
  constructor; [done|exact IH].
Qed.

Lemma concat_frames_seed (dfs dfs' : list DataFrame) :
  Forall2 (λ d d', columns d = columns d' ∧ length (rows d) = length (rows d'))
          dfs dfs' →
  match concat_frames dfs, concat_frames dfs' with
  | Ok d, Ok d' => columns d = columns d' ∧ length (rows d) = length (rows d')
  | Raise e, Raise e' => e = e'
  | _, _ => False
  end.
Proof.
  intros Hall.
  assert (dfs ≫= columns = dfs' ≫= columns
          ∧ length (dfs ≫= rows) = length (dfs' ≫= rows)) as [Hc Hr].
  { induction Hall as [|d d' dfs dfs' [Hc Hr] _ [IHc IHr]]; [done|].
    rewrite !bind_cons, !length_app. by rewrite Hc, Hr, IHc, IHr. }
  destruct Hall; [done|]. cbn [concat_frames columns rows].
  by rewrite Hc, Hr.
Qed.

Lemma drop_columns_seed labels (d d' : DataFrame) :
  columns d = columns d' → length (rows d) = length (rows d') →
  match drop_columns labels d, drop_columns labels d' with
  | Ok d, Ok d' => columns d = columns d' ∧ length (rows d) = length (rows d')
  | Raise e, Raise e' => e = e'
  | _, _ => False
  end.
Proof.
  intros Hc Hr. unfold drop_columns. rewrite Hc.
  destruct (filter _ labels); [|done]. cbn [columns rows].
  by rewrite !length_fmap.
Qed.

(** X6: among the seeds [sample] accepts, those from 0 to 2**32 - 1, the
    seed decides which rows are drawn, and nothing else: with another such
    seed the call leaves the table received the same, fails with the same
    error when it fails, and returns a sample of the same columns and the
    same number of rows when it returns one. *)
Theorem sample_shape_independent_of_seed df t seed seed' :
  0 ≤ seed < 2 ^ 32 → 0 ≤ seed' < 2 ^ 32 →
  (create_stratified_sample df t seed).1
  = (create_stratified_sample df t seed').1 ∧
  match (create_stratified_sample df t seed).2,
        (create_stratified_sample df t seed').2 with
  | Ok out, Ok out' =>
    columns out = columns out' ∧ length (rows out) = length (rows out')
  | Raise e, Raise e' => e = e'
  | _, _ => False
  end.
Proof.
  intros Hseed Hseed'. unfold create_stratified_sample.
  destruct (get_column "issue_d" df ≫= _) as [years|e]; [|done].
  destruct (get_column "target_default" _) as [target|e]; [|done].
  cbn [fst snd]. split; [done|].
  set (col := zip_with _ _ _). set (df2 := set_column "strata" _ _).
  rewrite !draw_sample_unfold by done.
  pose proof (concat_frames_seed _ _
    (omap_seed
       (λ k, stratum_drawn df2 col seed k (size_of df2 col t k))
       (λ k, stratum_drawn df2 col seed' k (size_of df2 col t k))
       (value_counts col).*1
       (λ k, stratum_sample_seed df2 col seed seed' k _))) as Hconcat.
  destruct (concat_frames _) as [d|e], (concat_frames _) as [d'|e'];
    try done.
  rewrite !bind_Ok. destruct Hconcat. by apply drop_columns_seed.
Qed.
End SamplingMore.

Lemma sample_shape_independent_of_seed_witness :
  (create_stratified_sample labelled_loans 2 43).1
  = (create_stratified_sample labelled_loans 2 7).1 ∧
  match (create_stratified_sample labelled_loans 2 43).2,
        (create_stratified_sample labelled_loans 2 7).2 with
  | Ok out, Ok out' =>
    columns out = columns out' ∧ length (rows out) = length (rows out')
  | Raise e, Raise e' => e = e'
  | _, _ => False
  end.
Proof.
  apply (sample_shape_independent_of_seed labelled_loans 2 43 7).
  - lia.
  - lia.
Defined.

Section SamplingRows.
Context {HF : PyFloat} {HP : PandasLib}.

(** The years [dt_year] reads, cell by cell. *)
Lemma dt_year_cells column years :
  dt_year column = Ok years →
  Forall2 (λ (c : cell) (y : option Z),
             match y with
             | Some z => ∃ d, c = CDate d ∧ z = ts_year d
             | None => c = CNaT
             end) column years.
Proof.
  revert years. induction column as [|c column IH]; intros years; simpl.
  - intros [= <-]. constructor.
  - destruct c; try done;
      (destruct (dt_year column) as [ys|] eqn:E; [|done]);
      rewrite bind_Ok; intros [= <-]; constructor; eauto.
Qed.

Lemma missing_year_missing_date (column : list cell) (years : list (option Z)) :
  Forall2 (λ (c : cell) (y : option Z),
             match y with
             | Some z => ∃ d, c = CDate d ∧ z = ts_year d
             | None => c = CNaT
             end) column years →
  None ∉ years ↔ CNaT ∉ column.
Proof.
  induction 1 as [|c y cs ys Hcy _ IH].
  - split; intros _ ?%elem_of_nil; done.
  - rewrite !not_elem_of_cons, IH.
    destruct y as [z|]; [destruct Hcy as (d & -> & _)|subst c]; naive_solver.
Qed.

Lemma dt_year_of_string column s :
  CStr s ∈ column →
  dt_year column
  = Raise (AttributeError "Can only use .dt accessor with datetimelike values").
Proof.
  induction column as [|c column IH]; [by intros ?%elem_of_nil|].
  intros [<-|Hin]%elem_of_cons; [done|].
  destruct c; simpl; try done; by rewrite (IH Hin).
Qed.

Lemma all_years_present (years : list (option Z)) :
  forallb (λ y, bool_decide (is_Some y)) years = true ↔ None ∉ years.
Proof.
  induction years as [|y years IH]; simpl.
  - split; [intros _ ?%elem_of_nil; done|done].
  - rewrite andb_true_iff, IH, not_elem_of_cons, bool_decide_eq_true.
    destruct y; split; intros [??]; try done; split; eauto.
Qed.

Lemma year_cells_lookup_Some years i y :
  years !! i = Some y →
  year_cells years !! i
  = Some (if forallb (λ y, bool_decide (is_Some y)) years
          then CInt (default 0 y)
          else from_option (λ z, CFloat (of_int z)) CNaN y).
Proof.
  intros Hy. unfold year_cells.
  destruct (forallb _ years); by rewrite list_lookup_fmap, Hy.
Qed.

(** A row of the table as the call leaves it: a row of the table received
    with the year and the stratum of its position. *)
Lemma elem_of_strata_rows_lookup (df : DataFrame) ano strata
    (r : gmap string cell) :
  r ∈ rows (set_column "strata" strata (set_column "ano" ano df)) →
  ∃ (i : nat) (r0 : gmap string cell) a s,
    rows df !! i = Some r0 ∧ ano !! i = Some a ∧ strata !! i = Some s ∧
    r = <["strata" := s]> (<["ano" := a]> r0).
Proof.
  cbn [set_column rows]. intros [i Hi]%list_elem_of_lookup.
  apply lookup_zip_with_Some in Hi as (r1 & s & -> & Hr1 & Hs).
  apply lookup_zip_with_Some in Hr1 as (r0 & a & -> & Hr0 & Ha).
  by exists i, r0, a, s.
Qed.

(** A row of the sample is a row of the table the call leaves, less its
    stratum. *)
Lemma sample_row_of_table df t seed df' out (r : gmap string cell) :
  create_stratified_sample df t seed = (df', Ok out) → r ∈ rows out →
  ∃ r' : gmap string cell, r' ∈ rows df' ∧ r = delete "strata" r'.
Proof.
  intros (years & target & col & _ & _ & _ & _ & _ & Hcol & Hdraw)
    %create_stratified_sample_Ok.
  apply draw_sample_Ok in Hdraw as [-> _]; [|done].
  intros (r' & -> & Hr')%list_elem_of_fmap. exists r'. split; [|done].
  assert ((value_counts col).*1 ≫= piece df' col t seed ⊆+ rows df') as Hsub.
  { apply (pieces_submseteq (λ k r, in_stratum k r) in_stratum_functional);
      [apply NoDup_value_counts_keys|].
    intros k _. by apply piece_spec. }
  by eapply elem_of_submseteq.
Qed.

(** X7: every row of the sample is a row of the table received, with its
    cells as they were, with no stratum and with the year of its issue date:
    an integer when no date of the table is missing, a float when one is. *)
Theorem sample_rows_carry_issue_year df t seed df' out (r : gmap string cell) :
  create_stratified_sample df t seed = (df', Ok out) → r ∈ rows out →
  ∃ r0 : gmap string cell,
    r0 ∈ rows df ∧
    (∀ c : string, c ≠ "ano" → c ≠ "strata" → r !! c = r0 !! c) ∧
    r !! "strata" = None ∧
    match r0 !! "issue_d" with
    | Some (CDate d) =>
      (CNaT ∉ cell_of "issue_d" <$> rows df →
       r !! "ano" = Some (CInt (ts_year d))) ∧
      (CNaT ∈ cell_of "issue_d" <$> rows df →
       r !! "ano" = Some (CFloat (of_int (ts_year d))))
    | Some CNaT => r !! "ano" = Some CNaN
    | _ => False
    end.
Proof.
  intros Hcreate Hr.
  destruct (sample_row_of_table _ _ _ _ _ _ Hcreate Hr) as (r' & Hr' & ->).
  apply create_stratified_sample_Ok in Hcreate
    as (years & target & col & Hyears & Hlen & _ & _ & -> & _ & _).
  apply elem_of_strata_rows_lookup in Hr'
    as (i & r0 & a & s & Hr0 & Ha & _ & ->).
  exists r0. split; [by eapply list_elem_of_lookup_2|]. split; [|split].
  - intros c Hano Hstrata.
    by rewrite lookup_delete_ne, !lookup_insert_ne by done.
  - by rewrite lookup_delete_eq.
  - rewrite lookup_delete_ne, lookup_insert_ne, lookup_insert_eq by done.
    destruct (get_column "issue_d" df) as [column|] eqn:Hcolumn; [|done].
    rewrite bind_Ok in Hyears. apply get_column_Ok in Hcolumn as [_ ->].
    apply dt_year_cells in Hyears.
    pose proof (missing_year_missing_date _ _ Hyears) as Hnat.
    destruct (years !! i) as [y|] eqn:Hy.
    2:{ apply lookup_ge_None in Hy. apply lookup_lt_Some in Hr0. lia. }
    pose proof (Forall2_lookup_lr _ _ _ i _ _ Hyears
                  ltac:(by rewrite list_lookup_fmap, Hr0) Hy) as Hcell.
    rewrite (year_cells_lookup_Some _ _ _ Hy) in Ha. injection Ha as <-.
    unfold cell_of in Hcell at 1.
    destruct y as [z|].
    + destruct Hcell as (d & Hd & ->).
      destruct (r0 !! "issue_d") as [c|]; simplify_eq/=.
      split; intros Hmiss.
      * apply Hnat, all_years_present in Hmiss. by rewrite Hmiss.
      * destruct (forallb _ years) eqn:Hall; [|done].
        apply all_years_present, Hnat in Hall. done.
    + destruct (r0 !! "issue_d") as [c|]; simplify_eq/=.
      destruct (forallb _ years) eqn:Hall; [|done].
      apply all_years_present in Hall. destruct Hall.
      by eapply list_elem_of_lookup_2.
Qed.

(** X8: a table that has no ['target_default'] column: the call raises
    [KeyError] once it has given the table its ['ano'] column. *)
Theorem sample_without_target_default df t seed years :
  (issue_d ← get_column "issue_d" df; dt_year issue_d) = Ok years →
  "target_default" ∉ columns df →
  create_stratified_sample df t seed
  = (set_column "ano" (year_cells years) df, Raise (KeyError "target_default")).
Proof.
  intros Hyears Hout. unfold create_stratified_sample. rewrite Hyears.
  unfold get_column at 1. rewrite decide_False; [done|].
  rewrite elem_of_set_column_columns. naive_solver.
Qed.

(** X9: a table whose issue dates are still strings, as [read_csv] gives
    them: the call raises [AttributeError] where it reads the year, and
    leaves the table as it was. *)
Theorem sample_of_unparsed_dates_raises df t seed (r : gmap string cell) s :
  "issue_d" ∈ columns df → r ∈ rows df → r !! "issue_d" = Some (CStr s) →
  create_stratified_sample df t seed
  = (df, Raise (AttributeError
                  "Can only use .dt accessor with datetimelike values")).
Proof.
  intros Hin Hr Hs. unfold create_stratified_sample.
  rewrite (get_column_elem _ _ Hin), bind_Ok.
  rewrite (dt_year_of_string _ s); [done|].
  apply list_elem_of_fmap. exists r. split; [|done].
  unfold cell_of. by rewrite Hs.
Qed.
End SamplingRows.

Lemma sample_rows_carry_issue_year_witness :
  ∃ r0 : gmap string cell,
    r0 ∈ rows labelled_loans ∧
    (∀ c : string, c ≠ "ano" → c ≠ "strata" →
       sampled_loan 2 (midnight 2016 2 1) 0 !! c = r0 !! c) ∧
    sampled_loan 2 (midnight 2016 2 1) 0 !! "strata" = None ∧
    match r0 !! "issue_d" with
    | Some (CDate d) =>
      (CNaT ∉ cell_of "issue_d" <$> rows labelled_loans →
       sampled_loan 2 (midnight 2016 2 1) 0 !! "ano" = Some (CInt (ts_year d))) ∧
      (CNaT ∈ cell_of "issue_d" <$> rows labelled_loans →
       sampled_loan 2 (midnight 2016 2 1) 0 !! "ano"
       = Some (CFloat (of_int (ts_year d))))
    | Some CNaT => sampled_loan 2 (midnight 2016 2 1) 0 !! "ano" = Some CNaN
    | _ => False
    end.
Proof.
  apply (sample_rows_carry_issue_year labelled_loans 2 43
           stratified_loans sample_of_two).
  - exact sample_two_loans.
  - unfold sample_of_two; cbn [rows]. apply elem_of_cons; by left.
Defined.

Lemma sample_without_target_default_witness :
  create_stratified_sample loans_of_2015 2 43
  = (set_column "ano" (year_cells [Some 2015; Some 2015]) loans_of_2015,
     Raise (KeyError "target_default")).
Proof.
  apply (sample_without_target_default loans_of_2015 2 43).
  - by_evaluation.
  - by_evaluation.
Defined.

Lemma sample_of_unparsed_dates_raises_witness :
  create_stratified_sample plain_loans 2 43
  = (plain_loans,
     Raise (AttributeError "Can only use .dt accessor with datetimelike values")).
Proof.
  apply (sample_of_unparsed_dates_raises plain_loans 2 43
           (list_to_map [("id", CInt 1); ("issue_d", CStr "Mar-2015");
                         ("loan_status", CStr "Fully Paid")]) "Mar-2015").
  - by_evaluation.
  - unfold plain_loans; cbn [rows]. apply elem_of_cons; by left.
  - by_evaluation.
Defined.

Section SamplingReturns.
Context {HF : PyFloat} {HP : PandasLib}.

(** The call up to the draw, for a table whose dates and labels can be
    read. *)
Lemma create_stratified_sample_draw df t seed years :
  (issue_d ← get_column "issue_d" df; dt_year issue_d) = Ok years →
  "target_default" ∈ columns df →
  ∃ col,
    length col = length (rows df) ∧
    (λ r : gmap string cell, r !! "strata")
      <$> rows (create_stratified_sample df t seed).1
    = (λ s, Some (CStr s)) <$> col ∧
    "strata" ∈ columns (create_stratified_sample df t seed).1 ∧
    length (rows (create_stratified_sample df t seed).1) = length (rows df) ∧
    (create_stratified_sample df t seed).2
    = draw_sample (create_stratified_sample df t seed).1 col t seed.
Proof.
  intros Hyears Htarget. unfold create_stratified_sample. rewrite Hyears.
  assert (length years = length (rows df)) as Hlen.
  { destruct (get_column "issue_d" df) as [raw|] eqn:Hraw; [|done].
    rewrite bind_Ok in Hyears. apply dt_year_length in Hyears.
    apply get_column_Ok in Hraw as [_ ->]. by rewrite length_fmap in Hyears. }
  set (df1 := set_column "ano" (year_cells years) df).
  assert (length (rows df1) = length (rows df)) as Hlen1.
  { apply set_column_length. by rewrite year_cells_length. }
  rewrite (get_column_elem "target_default" df1)
    by (apply elem_of_set_column_columns; by left).
  set (col := zip_with _ _ _).
  assert (length col = length (rows df)) as Hcol.
  { unfold col. rewrite length_zip_with, !astype_str_length, year_cells_length.
    rewrite length_fmap. lia. }
  exists col. cbn [fst snd]. split; [done|]. split; [|split; [|split]].
  - cbn [set_column rows]. fold df1.
    rewrite lookup_zip_with_insert by (rewrite length_fmap; lia).
    by rewrite <-list_fmap_compose.
  - apply elem_of_set_column_columns. by right.
  - rewrite set_column_length; [done|]. rewrite length_fmap. lia.
  - done.
Qed.


Lemma omap_None {A B} (f : A → option B) (l : list A) :
  Forall (λ x, f x = None) l → omap f l = [].
Proof.
  induction 1 as [|x l Hx _ IH]; [done|].
  cbn [omap list_omap]. by rewrite Hx.
Qed.


Lemma sample_strata_none (df : DataFrame) col seed (sizes : list (string * Z)) :
  Forall (λ ks, ks.2 ≤ 0) sizes → sample_strata df col seed sizes = Ok [].
Proof.
  induction 1 as [|[k n] sizes Hn _ IH]; [done|]. cbn [sample_strata].
  by rewrite bool_decide_eq_false_2 by (simpl in Hn; lia).
Qed.

Lemma draw_sample_no_stratum (df : DataFrame) col t seed :
  (∀ k, k ∈ col → size_of df col t k ≤ 0) →
  draw_sample df col t seed = Raise (ValueError "No objects to concatenate").
Proof.
  intros Hsizes. rewrite draw_sample_sizes, sample_strata_none; [done|].
  apply Forall_fmap, Forall_forall. intros k Hk.
  apply (proj1 (elem_of_value_counts_keys col k)) in Hk. by apply Hsizes.
Qed.

(** A stratum label of the column is the stratum of a row. *)
Lemma stratum_has_row (df : DataFrame) (col : list string) k :
  (λ r : gmap string cell, r !! "strata") <$> rows df
  = (λ s, Some (CStr s)) <$> col →
  k ∈ col → ∃ r : gmap string cell, r ∈ rows df ∧ in_stratum k r.
Proof.
  intros Hcol [i Hi]%list_elem_of_lookup.
  assert (((λ r : gmap string cell, r !! "strata") <$> rows df) !! i
          = Some (Some (CStr k))) as Hr
    by by rewrite Hcol, list_lookup_fmap, Hi.
  rewrite list_lookup_fmap in Hr.
  destruct (rows df !! i) as [r|] eqn:Hri; [|done].
  exists r. split; [by eapply list_elem_of_lookup_2|].
  injection Hr as Hr. unfold in_stratum, stratum_of. rewrite Hr.
  by apply bool_decide_pack.
Qed.


(** X11: when no stratum is given a size above zero, which a negative target
    size and a table without rows bring about, there is nothing to
    concatenate and the call raises [ValueError]. *)
Theorem sample_of_no_stratum_raises df t seed years :
  (issue_d ← get_column "issue_d" df; dt_year issue_d) = Ok years →
  "target_default" ∈ columns df →
  (∀ (k : string) (r : gmap string cell),
     r ∈ rows (create_stratified_sample df t seed).1 → in_stratum k r →
     let available :=
       length (filter (λ r, in_stratum k r)
                      (rows (create_stratified_sample df t seed).1)) in
     stratum_size t
       (fdiv (of_int (Z.of_nat available))
             (of_int (len (create_stratified_sample df t seed).1)))
       (Z.of_nat available) ≤ 0) →
  (create_stratified_sample df t seed).2
  = Raise (ValueError "No objects to concatenate").
Proof.
  intros Hyears Htarget Hsizes.
  destruct (create_stratified_sample_draw df t seed years Hyears Htarget)
    as (col & Hlen & Hcol & _ & _ & ->).
  apply draw_sample_no_stratum. intros k Hk.
  destruct (stratum_has_row _ _ _ Hcol Hk) as (r & Hr & Hin).
  specialize (Hsizes k r Hr Hin). cbv zeta in Hsizes.
  unfold size_of. by rewrite (count_of_stratum _ col k Hcol).
Qed.

Lemma length_bind_ge {A B} (f : A → list B) (l : list A) :
  (∀ x, x ∈ l → (1 ≤ length (f x))%nat) → (length l ≤ length (l ≫= f))%nat.
Proof.
  induction l as [|x l IH]; intros Hf; [done|].
  rewrite bind_cons, length_app. simpl.
  pose proof (Hf x ltac:(left)). 
  assert (length l ≤ length (l ≫= f))%nat
    by (apply IH; intros y Hy; apply Hf; by right).
  lia.
Qed.

Lemma strata_of_rows (df : DataFrame) (col : list string) :
  (λ r : gmap string cell, r !! "strata") <$> rows df
  = (λ s, Some (CStr s)) <$> col →
  omap stratum_of (rows df) = col.
Proof.
  revert col. induction (rows df) as [|r l IH]; intros [|s col] Hcol; try done.
  rewrite !fmap_cons in Hcol. injection Hcol as Hr Hl.
  cbn [omap list_omap]. unfold stratum_of at 1. rewrite Hr. simpl.
  f_equal. by apply IH.
Qed.

Lemma sample_size_lower df t seed df' out :
  create_stratified_sample df t seed = (df', Ok out) → 0 ≤ t →
  length (omap stratum_of (rows df')) = length (rows df) ∧
  (length (unique (omap stratum_of (rows df'))) ≤ length (rows out))%nat.
Proof.
  intros (years & target & col & _ & Hlen & _ & Hlcol & Hdf' & Hcol & Hdraw)
    %create_stratified_sample_Ok Ht.
  apply draw_sample_Ok in Hdraw as [-> _]; [|done].
  rewrite length_fmap, (strata_of_rows _ _ Hcol). split; [done|].
  rewrite <-(value_counts_keys col). apply length_bind_ge.
  intros k Hk. apply (proj1 (elem_of_value_counts_keys col k)) in Hk.
  destruct (piece_spec df' col t seed k Hcol) as [_ ->].
  destruct (stratum_size_floored t (Z.of_nat (count_of k col)) (len df'))
    as [_ Hsize]; [done|pose proof (count_of_pos k col Hk); lia|unfold len; lia|].
  fold (size_of df' col t k) in Hsize. lia.
Qed.

(** X12: the sample has no more rows than the table, and, for a target size
    that is not negative, at least as many rows as the table has strata. *)
Theorem sample_size_bounds df t seed df' out :
  create_stratified_sample df t seed = (df', Ok out) →
  (length (rows out) ≤ length (rows df))%nat ∧
  (0 ≤ t →
   (length (unique (omap stratum_of (rows df'))) ≤ length (rows out))%nat).
Proof.
  intros Hcreate. split; [|intros Ht; by eapply sample_size_lower].
  apply create_stratified_sample_Ok in Hcreate
    as (years & target & col & _ & Hlen & _ & Hlcol & Hdf' & Hcol & Hdraw).
  apply draw_sample_Ok in Hdraw as [-> _]; [|done].
  rewrite length_fmap.
  assert ((value_counts col).*1 ≫= piece df' col t seed ⊆+ rows df') as Hsub.
  { apply (pieces_submseteq (λ k r, in_stratum k r) in_stratum_functional);
      [apply NoDup_value_counts_keys|].
    intros k _. by apply piece_spec. }
  apply submseteq_length in Hsub.
  assert (length (rows df') = length (rows df)) as <-; [|done].
  rewrite <-Hlcol.
  apply (f_equal length) in Hcol. by rewrite !length_fmap in Hcol.
Qed.
End SamplingReturns.

Section AnonymizeThenSample.
Context {HF : PyFloat} {HP : PandasLib}.

Lemma dt_year_of_dates (column : list cell) :
  Forall (λ c, ∃ d, c = CDate d) column →
  ∃ years, dt_year column = Ok years ∧ None ∉ years.
Proof.
  induction 1 as [|c column [d ->] _ (years & IH & Hyears)].
  - exists []. split; [done|]. by intros ?%elem_of_nil.
  - exists (Some (ts_year d) :: years). simpl. rewrite IH, bind_Ok.
    split; [done|]. rewrite not_elem_of_cons. done.
Qed.

(** The frame [anonymize_and_filter_data] returns can be sampled: its
    dates are timestamps, it has its label and it has rows. *)
Lemma anonymized_ready df df' out :
  anonymize_and_filter_data df = (df', Ok out) →
  (∃ years, (issue_d ← get_column "issue_d" out; dt_year issue_d) = Ok years
            ∧ None ∉ years) ∧
  "target_default" ∈ columns out ∧ rows out ≠ [].
Proof.
  intros Hout.
  pose proof Hout as (ft & Hft & Heq & Hz & _)%anonymize_Ok.
  pose proof Hft as (raw & parsed & [Hissue _]%get_column_Ok & _ & Hdf' & _ & Hrows)
    %filter_period_and_status_Ok.
  assert (∀ c : string,
            c ∈ ["issue_d"; "loan_status"; "target_default"] →
            c ∈ columns ft ∨ c = "target_default" → c ∈ columns out) as Hkept.
  { intros c [Hl Hp]%kept_labels Hc. rewrite Heq. unfold anonymized.
    rewrite !elem_of_drop_existing_columns. split; [|done]. split; [|done].
    by apply elem_of_set_column_columns. }
  split; [|split].
  - assert ("issue_d" ∈ columns out) as Hin.
    { apply Hkept; [by left|]. left. rewrite Hrows, Hdf'. cbn [columns].
      apply elem_of_set_column_columns. by right. }
    rewrite (get_column_elem _ _ Hin), bind_Ok.
    apply dt_year_of_dates, Forall_fmap, Forall_forall. intros r Hr.
    destruct (anonymized_row_kept _ _ _ _ Hout Hr)
      as (r0 & _ & Hperiod & _ & Hd & _).
    apply in_period_inv in Hperiod as (d & Hr0 & _).
    exists d. simpl. unfold cell_of. by rewrite Hd, Hr0.
  - apply Hkept; [by do 2 right; left|by right].
  - rewrite Heq, rows_anonymized.
    apply list_elem_of_fmap in Hz as (r & _ & Hr).
    intros Hnil%fmap_nil_inv. rewrite Hnil in Hr. by apply elem_of_nil in Hr.
Qed.


End AnonymizeThenSample.


Example strata_of_labelled_loans :
  (create_stratified_sample labelled_loans (-8) 43).1 = stratified_loans.
Proof. by_evaluation. Qed.

Lemma sample_of_no_stratum_raises_witness :
  (create_stratified_sample labelled_loans (-8) 43).2
  = Raise (ValueError "No objects to concatenate").
Proof.
  apply (sample_of_no_stratum_raises labelled_loans (-8) 43
           [Some 2016; Some 2016; Some 2017; Some 2016]).
  - by_evaluation.
  - by_evaluation.
  - rewrite strata_of_labelled_loans. intros k r Hr Hk.
    apply bool_decide_unpack in Hk.
    unfold stratified_loans in Hr; cbn [rows] in Hr.
    repeat (apply elem_of_cons in Hr as [->|Hr]);
      [..|by apply elem_of_nil in Hr];
      vm_compute in Hk; injection Hk as <-; by_evaluation.
Defined.

Lemma sample_size_bounds_witness :
  (length (rows sample_of_two) ≤ length (rows labelled_loans))%nat ∧
  (0 ≤ 2 →
   (length (unique (omap stratum_of (rows stratified_loans)))
    ≤ length (rows sample_of_two))%nat).
Proof.
  apply (sample_size_bounds labelled_loans 2 43).
  exact sample_two_loans.
Defined.


Section SamplingInput.
Context {HF : PyFloat} {HP : PandasLib}.

Lemma Forall2_two_inserts (c1 c2 : string) (l : list (gmap string cell))
    (vals1 vals2 : list cell) :
  length vals1 = length l → length vals2 = length l →
  Forall2 (λ r r' : gmap string cell,
             ∀ c : string, c ≠ c1 → c ≠ c2 → r' !! c = r !! c)
          l (zip_with (λ r v, <[c2 := v]> r)
               (zip_with (λ r v, <[c1 := v]> r) l vals1) vals2).
Proof.
  revert vals1 vals2.
  induction l as [|r l IH]; intros [|v1 vals1] [|v2 vals2] H1 H2;
    simplify_eq/=; constructor; [|by apply IH].
  intros c Hc1 Hc2. by rewrite !lookup_insert_ne.
Qed.

(** X14: whether it returns a sample or raises, the call leaves the table
    received with the rows it had, and with every cell it had outside the
    ['ano'] and ['strata'] columns. *)
Theorem sample_leaves_other_cells df t seed :
  Forall2 (λ r r' : gmap string cell,
             ∀ c : string, c ≠ "ano" → c ≠ "strata" → r' !! c = r !! c)
          (rows df) (rows (create_stratified_sample df t seed).1).
Proof.
  unfold create_stratified_sample.
  destruct (get_column "issue_d" df ≫= _) as [years|e] eqn:Hyears; cbn [fst].
  2:{ by apply Forall_Forall2_diag, Forall_true. }
  assert (length (year_cells years) = length (rows df)) as Hlen.
  { rewrite year_cells_length.
    destruct (get_column "issue_d" df) as [raw|] eqn:Hraw; [|done].
    rewrite bind_Ok in Hyears. apply dt_year_length in Hyears.
    apply get_column_Ok in Hraw as [_ ->]. by rewrite length_fmap in Hyears. }
  destruct (get_column "target_default" _) as [target|e] eqn:Htarget;
    cbn [fst set_column rows].
  2:{ pose proof (Forall2_zip_with_insert_other "ano" (rows df) _ Hlen) as Hano.
      eapply Forall2_impl; [exact Hano|]. intros r r' Hr c Hc _. by apply Hr. }
  apply Forall2_two_inserts; [done|].
  rewrite length_fmap, !length_zip_with, !astype_str_length.
  apply get_column_Ok in Htarget as [_ ->].
  rewrite length_fmap. cbn [set_column rows]. rewrite length_zip_with. lia.
Qed.
End SamplingInput.

(** ** The columns of the sample *)

Section SampleColumns.
Context {HF : PyFloat} {HP : PandasLib}.

Lemma filter_all {A} (P : A → Prop) `{∀ x, Decision (P x)} (l : list A) :
  (∀ x, x ∈ l → P x) → filter P l = l.
Proof.
  induction l as [|x l IH]; intros Hall; [done|].
  rewrite filter_cons_True by (apply Hall; left).
  f_equal. apply IH. intros y Hy. apply Hall. by right.
Qed.

Lemma filter_none {A} (P : A → Prop) `{∀ x, Decision (P x)} (l : list A) :
  (∀ x, x ∈ l → ¬ P x) → filter P l = [].
Proof.
  induction l as [|x l IH]; intros Hall; [done|].
  rewrite filter_cons_False by (apply Hall; left).
  apply IH. intros y Hy. apply Hall. by right.
Qed.

Lemma unique_app {K} `{EqDecision K} (l k : list K) :
  unique (l ++ k) = unique l ++ filter (λ y, y ∉ l) (unique k).
Proof.
  induction l as [|x l IH]; simpl.
  - symmetry. apply filter_all. intros y _ ?%elem_of_nil. done.
  - rewrite IH, filter_app, list_filter_filter. do 2 f_equal.
    apply list_filter_iff. intros y. rewrite not_elem_of_cons. naive_solver.
Qed.

Lemma unique_NoDup {K} `{EqDecision K} (l : list K) : NoDup l → unique l = l.
Proof.
  induction 1 as [|x l Hx _ IH]; simpl; [done|]. rewrite IH. f_equal.
  apply filter_all. intros y Hy ->. done.
Qed.

Lemma unique_copies (dfs : list DataFrame) (l : list string) :
  NoDup l → dfs ≠ [] → (∀ d, d ∈ dfs → columns d = l) →
  unique (dfs ≫= columns) = l.
Proof.
  intros Hnd Hne Hall. destruct dfs as [|d dfs]; [done|]. clear Hne.
  rewrite bind_cons, unique_app, (Hall d) by left.
  rewrite (unique_NoDup l Hnd).
  rewrite filter_none; [by rewrite app_nil_r|].
  intros c Hc Hn. apply Hn.
  apply (proj1 (elem_of_unique c _)) in Hc.
  apply list_elem_of_bind in Hc as (d' & Hc & Hd').
  rewrite <-(Hall d'); [done|by right].
Qed.

Lemma columns_set_column_new (c : string) vals (df : DataFrame) :
  c ∉ columns df → columns (set_column c vals df) = columns df ++ [c].
Proof. intros Hc. cbn [set_column columns]. by rewrite decide_False. Qed.

Lemma draw_sample_columns (df : DataFrame) col t seed out :
  NoDup (columns df) → draw_sample df col t seed = Ok out →
  columns out = filter (λ c, c ∉ ["strata"]) (columns df).
Proof.
  intros Hnd. rewrite draw_sample_sizes.
  destruct (sample_strata df col seed _) as [dfs0|] eqn:Hloop; [|done].
  apply sample_strata_Ok in Hloop. rewrite omap_fmap_keys in Hloop.
  cbn [fst snd] in Hloop. subst dfs0. rewrite bind_Ok.
  set (dfs := omap _ _).
  assert (∀ d, d ∈ dfs → columns d = columns df) as Hcols.
  { intros d (k & _ & Hd)%list_elem_of_omap.
    by apply stratum_sample_columns in Hd. }
  assert (dfs ≠ [] → unique (dfs ≫= columns) = columns df) as Hunique
    by (intros ?; by apply unique_copies).
  destruct dfs as [|d dfs']; [done|].
  cbn [concat_frames]. rewrite bind_Ok. unfold drop_columns.
  destruct (filter _ ["strata"]); [|done]. intros [= <-]. cbn [columns].
  change (columns d ++ list_bind DataFrame string columns dfs')
    with ((d :: dfs') ≫= columns).
  by rewrite Hunique.
Qed.

Lemma created_table_columns df t seed df' out :
  create_stratified_sample df t seed = (df', Ok out) →
  "ano" ∉ columns df → "strata" ∉ columns df →
  columns df' = columns df ++ ["ano"; "strata"] ∧
  (NoDup (columns df') → columns out = filter (λ c, c ∉ ["strata"]) (columns df')).
Proof.
  intros (years & target & col & _ & _ & _ & _ & -> & _ & Hdraw)
    %create_stratified_sample_Ok Hano Hstrata.
  split; [|intros Hnd; by eapply draw_sample_columns].
  rewrite columns_set_column_new.
  - rewrite columns_set_column_new by done. by rewrite <-(assoc_L (++)).
  - rewrite elem_of_set_column_columns. naive_solver.
Qed.

Lemma columns_without_strata (cols : list string) :
  NoDup cols → "ano" ∉ cols → "strata" ∉ cols →
  NoDup (cols ++ ["ano"; "strata"]) ∧
  filter (λ c, c ∉ ["strata"]) (cols ++ ["ano"; "strata"]) = cols ++ ["ano"].
Proof.
  intros Hnd Hano Hstrata. split.
  - apply NoDup_app. split; [done|]. split.
    + intros c Hc. rewrite !elem_of_cons, elem_of_nil. naive_solver.
    + apply NoDup_cons. split; [by rewrite list_elem_of_singleton|].
      apply NoDup_singleton.
  - rewrite filter_app, (filter_all _ cols).
    + by rewrite filter_cons_True, filter_cons_False, filter_nil
        by (rewrite list_elem_of_singleton; naive_solver).
    + intros c Hc ->%list_elem_of_singleton. done.
Qed.

(** X15: the columns, in order: the call puts ['ano'] and ['strata'] after
    the columns of the table, and the sample has the columns of the table
    followed by ['ano']. *)
Theorem sample_keeps_column_order df t seed df' out :
  create_stratified_sample df t seed = (df', Ok out) →
  NoDup (columns df) → "ano" ∉ columns df → "strata" ∉ columns df →
  columns df' = columns df ++ ["ano"; "strata"] ∧
  columns out = columns df ++ ["ano"].
Proof.
  intros Hcreate Hnd Hano Hstrata.
  destruct (created_table_columns _ _ _ _ _ Hcreate Hano Hstrata)
    as [Hcols Hout].
  destruct (columns_without_strata _ Hnd Hano Hstrata) as [Hnd' Hfilter].
  split; [done|]. rewrite Hout by (by rewrite Hcols).
  by rewrite Hcols.
Qed.
End SampleColumns.

Lemma sample_keeps_column_order_witness :
  columns stratified_loans = columns labelled_loans ++ ["ano"; "strata"] ∧
  columns sample_of_two = columns labelled_loans ++ ["ano"].
Proof.
  apply (sample_keeps_column_order labelled_loans 2 43).
  - exact sample_two_loans.
  - by_evaluation.
  - by_evaluation.
  - by_evaluation.
Defined.

(** ** The report after sampling *)

Section ReportFacts.
Context {HF : PyFloat} {HP : PandasLib}.

Lemma dt_year_Ok column years :
  dt_year column = Ok years →
  years = cell_year <$> column ∧
  Forall (λ c, c = CNaT ∨ ∃ d, c = CDate d) column.
Proof.
  revert years. induction column as [|c column IH]; intros years; simpl.
  - by intros [= <-].
  - destruct c; try done;
      (destruct (dt_year column) as [ys|] eqn:E; [|done]);
      rewrite bind_Ok; intros [= <-]; destruct (IH ys eq_refl) as [-> ?];
      (split; [done|constructor; eauto]).
Qed.

Lemma dt_year_datetimes column :
  Forall (λ c, c = CNaT ∨ ∃ d, c = CDate d) column →
  dt_year column = Ok (cell_year <$> column).
Proof.
  induction 1 as [|c column [->|[d ->]] _ IH]; [done|..]; simpl;
    by rewrite IH.
Qed.

Lemma get_column_set_column_ne (c c' : string) vals (df : DataFrame) :
  c ≠ c' → c' ∈ columns df → length vals = length (rows df) →
  get_column c' (set_column c vals df) = get_column c' df.
Proof.
  intros Hne Hin Hlen.
  rewrite !get_column_elem; [|done|apply elem_of_set_column_columns; by left].
  by rewrite set_column_cells_ne.
Qed.

(** The parts of a call that returns a sample: the rows picked are rows of
    the table the call leaves, and the sample is made of them. *)
Lemma create_stratified_sample_picked df t seed df' out :
  create_stratified_sample df t seed = (df', Ok out) →
  ∃ years col,
    (issue_d ← get_column "issue_d" df; dt_year issue_d) = Ok years ∧
    (issue_d ← get_column "issue_d" df'; dt_year issue_d) = Ok years ∧
    Forall2 (λ (r : gmap string cell) v, r !! "ano" = Some v)
            (rows df') (year_cells years) ∧
    "ano" ∈ columns df' ∧
    (λ r : gmap string cell, r !! "strata") <$> rows df'
    = (λ s, Some (CStr s)) <$> col ∧
    rows out = delete "strata" <$> ((value_counts col).*1 ≫= piece df' col t seed) ∧
    (value_counts col).*1 ≫= piece df' col t seed ⊆+ rows df' ∧
    ∀ c : string, c ∈ columns out ↔ c ∈ columns df' ∧ c ≠ "strata".
Proof.
  intros (years & target & col & Hyears & Hlen & _ & Hlcol & -> & Hcol & Hdraw)
    %create_stratified_sample_Ok.
  exists years, col. split; [done|].
  assert ("issue_d" ∈ columns df) as Hissue.
  { destruct (get_column "issue_d" df) as [raw|] eqn:Hraw; [|done].
    by apply get_column_Ok in Hraw as [? _]. }
  assert (length (year_cells years) = length (rows df)) as Hano
    by by rewrite year_cells_length.
  split; [|split; [|split; [|split; [done|]]]].
  - rewrite !get_column_set_column_ne; try done.
    + apply elem_of_set_column_columns; by left.
    + rewrite length_fmap, set_column_length by done. done.
  - cbn [set_column rows].
    apply Forall2_zip_with_insert_ne; [done|by rewrite length_fmap, length_zip_with; lia|].
    by apply year_cells_lookup.
  - apply elem_of_set_column_columns. left.
    apply elem_of_set_column_columns. by right.
  - apply draw_sample_Ok in Hdraw as [Hrows Hcols]; [|done].
    split; [done|]. split; [|done].
    apply (pieces_submseteq (λ k r, in_stratum k r) in_stratum_functional);
      [apply NoDup_value_counts_keys|].
    intros k _. by apply piece_spec.
Qed.

(** The years of a table of which [dt_year] reads the dates. *)
Lemma years_of_rows (df : DataFrame) years :
  (issue_d ← get_column "issue_d" df; dt_year issue_d) = Ok years →
  years_of df = years ∧
  years = (λ r, cell_year (cell_of "issue_d" r)) <$> rows df ∧
  Forall (λ r : gmap string cell,
            cell_of "issue_d" r = CNaT ∨ ∃ d, cell_of "issue_d" r = CDate d)
         (rows df).
Proof.
  intros Hyears. unfold years_of. rewrite Hyears. split; [done|].
  destruct (get_column "issue_d" df) as [raw|] eqn:Hraw; [|done].
  rewrite bind_Ok in Hyears. apply get_column_Ok in Hraw as [_ ->].
  apply dt_year_Ok in Hyears as [-> Hall].
  rewrite <-list_fmap_compose. split; [done|].
  by apply Forall_fmap in Hall.
Qed.
End ReportFacts.

Section ReportTheorems.
Context {HF : PyFloat} {HP : PandasLib}.

Lemma Forall2_diag_inv {A} (R : A → A → Prop) (l : list A) :
  Forall2 R l l → Forall (λ x, R x x) l.
Proof.
  induction l as [|x l IH]; [constructor|].
  intros [??]%Forall2_cons. constructor; auto.
Qed.

Lemma year_cells_present (years : list (option Z)) :
  None ∉ years → year_cells years = (λ y, CInt (default 0 y)) <$> years.
Proof.
  intros Hall%all_years_present. unfold year_cells. by rewrite Hall.
Qed.

(** The steps of [analyze_temporal_distribution] when the dates of both
    tables can be read. *)
Lemma analyze_temporal_distribution_years df_original df_sample yo ys :
  (issue_d ← get_column "issue_d" df_original; dt_year issue_d) = Ok yo →
  (issue_d ← get_column "issue_d" df_sample; dt_year issue_d) = Ok ys →
  analyze_temporal_distribution df_original df_sample
  = (set_column "ano" (year_cells yo) df_original,
     set_column "ano" (year_cells ys) df_sample,
     Ok (comparison_frame
           (map_values percent (year_distribution yo))
           (map_values percent (year_distribution ys))
           (map_values (option_map abs_percent)
              (series_sub (year_distribution yo) (year_distribution ys))))).
Proof.
  intros Hyo Hys. unfold analyze_temporal_distribution. by rewrite Hyo, Hys.
Qed.

(** Which cells of a row of the report are filled. *)
Lemma comparison_frame_filled (yo ys : list (option Z)) row :
  row ∈ comparison_frame
          (map_values percent (year_distribution yo))
          (map_values percent (year_distribution ys))
          (map_values (option_map abs_percent)
             (series_sub (year_distribution yo) (year_distribution ys))) →
  (Some (year row) ∈ yo ∨ Some (year row) ∈ ys) ∧
  (Some (year row) ∈ yo → is_Some (original_pct row)) ∧
  (Some (year row) ∈ ys → is_Some (amostra_pct row)) ∧
  (Some (year row) ∈ yo → Some (year row) ∈ ys → is_Some (diferenca_pp row)).
Proof.
  unfold comparison_frame. rewrite !map_values_keys, series_sub_keys.
  intros (y & -> & Hy)%list_elem_of_fmap.
  cbn [year original_pct amostra_pct diferenca_pp].
  rewrite !series_lookup_map_values, !series_lookup_year_distribution.
  split; [|split; [|split]].
  - apply elem_of_index_union in Hy as (l & Hl & Hy).
    rewrite !elem_of_cons, elem_of_nil in Hl.
    destruct Hl as [->|[->|[->|[]]]].
    + left. by apply elem_of_year_distribution_keys.
    + right. by apply elem_of_year_distribution_keys.
    + apply elem_of_index_union in Hy as (l & Hl & Hy).
      rewrite !elem_of_cons, elem_of_nil in Hl.
      destruct Hl as [->|[->|[]]]; [left|right];
        by apply elem_of_year_distribution_keys.
  - intros Ho. by rewrite decide_True.
  - intros Hs. by rewrite decide_True.
  - intros Ho Hs.
    assert (mjoin (option_map abs_percent
                     <$> series_lookup y
                           (series_sub (year_distribution yo)
                                       (year_distribution ys)))
            = abs_percent
                <$> mjoin (series_lookup y
                             (series_sub (year_distribution yo)
                                         (year_distribution ys)))) as ->.
    { by destruct (series_lookup y _) as [[?|]|]. }
    rewrite series_lookup_series_sub, !series_lookup_year_distribution.
    by rewrite !decide_True.
Qed.

(** X16: [analyze_temporal_distribution] changes both tables it receives:
    when it returns a report each table has an ['ano'] column, filled in
    every row, and its other cells as they were. *)
Theorem report_adds_year_to_both_tables df_original df_sample d1 d2 report :
  analyze_temporal_distribution df_original df_sample = (d1, d2, Ok report) →
  (∀ c : string, c ∈ columns d1 ↔ c ∈ columns df_original ∨ c = "ano") ∧
  (∀ c : string, c ∈ columns d2 ↔ c ∈ columns df_sample ∨ c = "ano") ∧
  Forall2 (λ r r' : gmap string cell,
             is_Some (r' !! "ano") ∧ ∀ c : string, c ≠ "ano" → r' !! c = r !! c)
          (rows df_original) (rows d1) ∧
  Forall2 (λ r r' : gmap string cell,
             is_Some (r' !! "ano") ∧ ∀ c : string, c ≠ "ano" → r' !! c = r !! c)
          (rows df_sample) (rows d2).
Proof.
  unfold analyze_temporal_distribution.
  destruct (get_column "issue_d" df_original ≫= _) as [yo|] eqn:Hyo; [|done].
  destruct (get_column "issue_d" df_sample ≫= _) as [ys|] eqn:Hys; [|done].
  intros [= <- <- _].
  assert (∀ (df : DataFrame) years,
            (issue_d ← get_column "issue_d" df; dt_year issue_d) = Ok years →
            Forall2 (λ r r' : gmap string cell,
                       is_Some (r' !! "ano")
                       ∧ ∀ c : string, c ≠ "ano" → r' !! c = r !! c)
                    (rows df) (rows (set_column "ano" (year_cells years) df)))
    as Hrows.
  { intros df years Hyears.
    assert (length (year_cells years) = length (rows df)) as Hlen.
    { rewrite year_cells_length.
      destruct (get_column "issue_d" df) as [raw|] eqn:Hraw; [|done].
      rewrite bind_Ok in Hyears. apply dt_year_length in Hyears.
      apply get_column_Ok in Hraw as [_ ->]. by rewrite length_fmap in Hyears. }
    cbn [set_column rows]. revert Hlen. generalize (year_cells years).
    induction (rows df) as [|r l IH]; intros [|v vals] Hlen; simplify_eq/=;
      constructor; [|by apply IH].
    split; [by rewrite lookup_insert_eq|].
    intros c Hc. by rewrite lookup_insert_ne. }
  split; [|split; [|split]].
  - intros c. apply elem_of_set_column_columns.
  - intros c. apply elem_of_set_column_columns.
  - by apply Hrows.
  - by apply Hrows.
Qed.

(** The dates of the sample of a call that returns one can be read. *)
Lemma sample_years df t seed df' out :
  create_stratified_sample df t seed = (df', Ok out) →
  (issue_d ← get_column "issue_d" out; dt_year issue_d)
  = Ok ((λ r, cell_year (cell_of "issue_d" r)) <$> rows out) ∧
  ∀ r : gmap string cell, r ∈ rows out →
    ∃ r' : gmap string cell,
      r' ∈ rows df' ∧ r = delete "strata" r' ∧
      cell_of "issue_d" r = cell_of "issue_d" r'.
Proof.
  intros (years & col & _ & Hyears & _ & _ & _ & Hrows & Hsub & Hcols)
    %create_stratified_sample_picked.
  assert (∀ r : gmap string cell, r ∈ rows out →
            ∃ r' : gmap string cell,
              r' ∈ rows df' ∧ r = delete "strata" r' ∧
              cell_of "issue_d" r = cell_of "issue_d" r') as Hfrom.
  { intros r. rewrite Hrows. intros (r' & -> & Hr')%list_elem_of_fmap.
    exists r'. split; [by eapply elem_of_submseteq|]. split; [done|].
    unfold cell_of. by rewrite lookup_delete_ne. }
  split; [|done].
  assert ("issue_d" ∈ columns out) as Hin.
  { apply Hcols. split; [|done].
    destruct (get_column "issue_d" df') as [raw|] eqn:Hraw; [|done].
    by apply get_column_Ok in Hraw as [? _]. }
  rewrite (get_column_elem _ _ Hin), bind_Ok.
  rewrite dt_year_datetimes; [by rewrite <-list_fmap_compose|].
  apply Forall_fmap, Forall_forall. intros r Hr.
  destruct (Hfrom r Hr) as (r' & Hr' & _ & Hcell). simpl. rewrite Hcell.
  apply years_of_rows in Hyears as (_ & _ & Hall).
  rewrite Forall_forall in Hall. by apply Hall.
Qed.

(** Sampling followed by the report, on a table in which no issue date is
    missing: the report leaves both tables as they were. *)
Lemma analysis_of_sampled df t seed df' out :
  create_stratified_sample df t seed = (df', Ok out) →
  CNaT ∉ cell_of "issue_d" <$> rows df →
  analyze_temporal_distribution df' out
  = (df', out,
     Ok (comparison_frame
           (map_values percent (year_distribution (years_of df')))
           (map_values percent (year_distribution (years_of out)))
           (map_values (option_map abs_percent)
              (series_sub (year_distribution (years_of df'))
                          (year_distribution (years_of out)))))).
Proof.
  intros Hcreate Hnat.
  pose proof Hcreate
    as (years & col & Hyears0 & Hyears & Hano & Hanocol & _ & Hrows & Hsub & Hcols)
    %create_stratified_sample_picked.
  destruct (sample_years _ _ _ _ _ Hcreate) as [Hys Hfrom].
  set (ys := (λ r, cell_year (cell_of "issue_d" r)) <$> rows out) in *.
  rewrite (analyze_temporal_distribution_years _ _ years ys) by done.
  unfold years_of. rewrite Hyears, Hys.
  f_equal. f_equal; [by apply set_column_id|].
  (* no year is missing in the table, so the years are integers *)
  assert (None ∉ years) as Hall.
  { destruct (get_column "issue_d" df) as [raw|] eqn:Hraw; [|done].
    rewrite bind_Ok in Hyears0. apply get_column_Ok in Hraw as [_ ->].
    apply dt_year_cells in Hyears0.
    by apply (missing_year_missing_date _ _ Hyears0). }
  pose proof (years_of_rows _ _ Hyears) as (_ & Heq & Hdates).
  assert (Forall (λ r : gmap string cell,
                    ∃ d, cell_of "issue_d" r = CDate d
                         ∧ r !! "ano" = Some (CInt (ts_year d))) (rows df'))
    as Hint.
  { rewrite (year_cells_present _ Hall), Heq in Hano.
    rewrite <-list_fmap_compose in Hano.
    apply Forall2_fmap_r, Forall2_diag_inv in Hano.
    rewrite Heq in Hall.
    rewrite Forall_forall in Hano, Hdates. apply Forall_forall.
    intros r Hr. destruct (Hdates r Hr) as [Hn|[d Hd]].
    - destruct Hall. apply list_elem_of_fmap. exists r. by rewrite Hn.
    - exists d. split; [done|]. rewrite (Hano r Hr). simpl. by rewrite Hd. }
  rewrite Forall_forall in Hint.
  apply set_column_id.
  { apply Hcols. split; [done|done]. }
  assert (None ∉ ys) as Hys_all.
  { unfold ys. intros (r & Hnone & Hr)%list_elem_of_fmap.
    destruct (Hfrom r Hr) as (r' & Hr' & _ & Hcell).
    destruct (Hint r' Hr') as (d & Hd & _).
    by rewrite Hcell, Hd in Hnone. }
  rewrite (year_cells_present _ Hys_all). unfold ys.
  rewrite <-list_fmap_compose. apply Forall2_fmap_r, Forall_Forall2_diag.
  apply Forall_forall. intros r Hr.
  destruct (Hfrom r Hr) as (r' & Hr' & -> & Hcell).
  destruct (Hint r' Hr') as (d & Hd & Ha).
  simpl. rewrite Hcell, Hd. simpl. by rewrite lookup_delete_ne.
Qed.

(** X17: sampling followed by the report, on a table in which no issue date
    is missing: the report is returned, both tables are left as they were,
    and every row of the report has the share of its year in the table. *)
Theorem report_leaves_sampled_tables df t seed df' out :
  create_stratified_sample df t seed = (df', Ok out) →
  CNaT ∉ cell_of "issue_d" <$> rows df →
  ∃ report,
    analyze_temporal_distribution df' out = (df', out, Ok report) ∧
    ∀ row, row ∈ report → is_Some (original_pct row).
Proof.
  intros Hcreate Hnat. eexists. split; [by eapply analysis_of_sampled|].
  pose proof Hcreate as (years & col & _ & Hyears & _)
    %create_stratified_sample_picked.
  destruct (sample_years _ _ _ _ _ Hcreate) as [Hys Hfrom].
  intros row (Hyear & Ho & _)%comparison_frame_filled. apply Ho.
  destruct Hyear as [?|Hs]; [done|].
  unfold years_of in *. rewrite Hys in Hs. rewrite Hyears.
  apply list_elem_of_fmap in Hs as (r & Hy & Hr).
  destruct (Hfrom r Hr) as (r' & Hr' & _ & Hcell).
  pose proof (years_of_rows _ _ Hyears) as (_ & -> & _).
  apply list_elem_of_fmap. exists r'. by rewrite <-Hcell.
Qed.
End ReportTheorems.

Section ReportComplete.
Context {HF : PyFloat} {HP : PandasLib}.

(** For a target size that is not negative, every stratum that has a row
    has a row among the rows picked. *)
Lemma stratum_is_picked (df : DataFrame) col t seed k (r : gmap string cell) :
  (λ r : gmap string cell, r !! "strata") <$> rows df
  = (λ s, Some (CStr s)) <$> col →
  0 ≤ t → r ∈ rows df → in_stratum k r →
  ∃ r' : gmap string cell,
    r' ∈ (value_counts col).*1 ≫= piece df col t seed ∧
    r' ∈ rows df ∧ in_stratum k r'.
Proof.
  intros Hcol Ht Hr Hk.
  assert (k ∈ col) as Hin by by eapply in_stratum_elem.
  destruct (piece_spec df col t seed k Hcol) as [Hsub Hlen].
  destruct (stratum_size_floored t (Z.of_nat (count_of k col)) (len df))
    as [_ Hsize]; [done|pose proof (count_of_pos k col Hin); lia|unfold len; lia|].
  fold (size_of df col t k) in Hsize.
  destruct (piece df col t seed k) as [|r' rs] eqn:Hpiece; [simpl in Hlen; lia|].
  assert (r' ∈ filter (λ r, in_stratum k r) (rows df)) as Hr'
    by (eapply elem_of_submseteq; [left|done]).
  apply list_elem_of_filter in Hr' as [Hk' Hr'].
  exists r'. split; [|done].
  apply list_elem_of_bind. exists k. rewrite Hpiece. split; [left|].
  by apply elem_of_value_counts_keys.
Qed.

(** X18: sampling followed by the report, for a target size that is not
    negative and strata that determine the year (the strings of distinct
    years differ): the report is returned, and it has no missing value;
    every year of the table is a year of the sample. *)
Theorem report_of_sample_has_no_gap df t seed df' out :
  create_stratified_sample df t seed = (df', Ok out) → 0 ≤ t →
  (∀ r r' : gmap string cell,
     r ∈ rows df' → r' ∈ rows df' → stratum_of r = stratum_of r' →
     cell_year (cell_of "issue_d" r) = cell_year (cell_of "issue_d" r')) →
  ∃ d2 report,
    analyze_temporal_distribution df' out = (df', d2, Ok report) ∧
    ∀ row, row ∈ report →
      is_Some (original_pct row) ∧ is_Some (amostra_pct row)
      ∧ is_Some (diferenca_pp row).
Proof.
  intros Hcreate Ht Hstrata.
  pose proof Hcreate
    as (years & col & _ & Hyears & Hano & Hanocol & Hcol & Hrows & Hsub & Hcols)
    %create_stratified_sample_picked.
  destruct (sample_years _ _ _ _ _ Hcreate) as [Hys Hfrom].
  set (ys := (λ r, cell_year (cell_of "issue_d" r)) <$> rows out) in *.
  rewrite (analyze_temporal_distribution_years _ _ years ys) by done.
  rewrite (set_column_id "ano" _ df') by done.
  eexists _, _. split; [done|].
  pose proof (years_of_rows _ _ Hyears) as (_ & Heq & _).
  assert (∀ y, Some y ∈ ys ↔ Some y ∈ years) as Hsame.
  { intros y. rewrite Heq. unfold ys. rewrite !list_elem_of_fmap. split.
    - intros (r & Hy & Hr). destruct (Hfrom r Hr) as (r' & Hr' & _ & Hcell).
      exists r'. by rewrite <-Hcell.
    - intros (r & Hy & Hr).
      assert (∃ k, in_stratum k r) as [k Hk].
      { assert (((λ r : gmap string cell, r !! "strata") <$> rows df')
                ≡ (λ s, Some (CStr s)) <$> col) as Hc by by rewrite Hcol.
        apply list_elem_of_lookup in Hr as [i Hi].
        assert (((λ r : gmap string cell, r !! "strata") <$> rows df') !! i
                = Some (r !! "strata")) as Hri
          by by rewrite list_lookup_fmap, Hi.
        rewrite Hcol, list_lookup_fmap in Hri.
        destruct (col !! i) as [s|]; [|done]. injection Hri as Hri.
        exists s. unfold in_stratum, stratum_of. rewrite <-Hri.
        by apply bool_decide_pack. }
      destruct (stratum_is_picked df' col t seed k r Hcol Ht Hr Hk)
        as (r' & Hpicked & Hr' & Hk').
      exists (delete "strata" r'). split.
      + unfold cell_of. rewrite lookup_delete_ne by done.
        fold (cell_of "issue_d" r'). rewrite Hy. apply Hstrata; [done|done|].
        apply bool_decide_unpack in Hk, Hk'. congruence.
      + rewrite Hrows. by apply list_elem_of_fmap_2. }
  intros row (Hyear & Ho & Hs & Hd)%comparison_frame_filled.
  assert (Some (year row) ∈ years ∧ Some (year row) ∈ ys) as [??].
  { destruct Hyear as [?|?]; split; try done; by apply Hsame. }
  auto.
Qed.
End ReportComplete.

Lemma report_adds_year_to_both_tables_witness :
  (∀ c : string,
     c ∈ columns (set_column "ano" (year_cells (years_of labelled_loans))
                    labelled_loans)
     ↔ c ∈ columns labelled_loans ∨ c = "ano") ∧
  (∀ c : string, c ∈ columns sample_of_two ↔ c ∈ columns sample_of_two ∨ c = "ano") ∧
  Forall2 (λ r r' : gmap string cell,
             is_Some (r' !! "ano") ∧ ∀ c : string, c ≠ "ano" → r' !! c = r !! c)
          (rows labelled_loans)
          (rows (set_column "ano" (year_cells (years_of labelled_loans))
                   labelled_loans)) ∧
  Forall2 (λ r r' : gmap string cell,
             is_Some (r' !! "ano") ∧ ∀ c : string, c ≠ "ano" → r' !! c = r !! c)
          (rows sample_of_two) (rows sample_of_two).
Proof.
  apply (report_adds_year_to_both_tables labelled_loans sample_of_two _ _
           report_of_two).
  exact report_labelled_loans.
Defined.

Lemma report_leaves_sampled_tables_witness :
  ∃ report,
    analyze_temporal_distribution stratified_loans sample_of_two
    = (stratified_loans, sample_of_two, Ok report) ∧
    ∀ row, row ∈ report → is_Some (original_pct row).
Proof.
  apply (report_leaves_sampled_tables labelled_loans 2 43).
  - exact sample_two_loans.
  - by_evaluation.
Defined.

Lemma report_of_sample_has_no_gap_witness :
  ∃ d2 report,
    analyze_temporal_distribution stratified_loans sample_of_two
    = (stratified_loans, d2, Ok report) ∧
    ∀ row, row ∈ report →
      is_Some (original_pct row) ∧ is_Some (amostra_pct row)
      ∧ is_Some (diferenca_pp row).
Proof.
  apply (report_of_sample_has_no_gap labelled_loans 2 43).
  - exact sample_two_loans.
  - lia.
  - assert (Forall (λ r : gmap string cell,
              Forall (λ r' : gmap string cell,
                        stratum_of r = stratum_of r' →
                        cell_year (cell_of "issue_d" r)
                        = cell_year (cell_of "issue_d" r'))
                     (rows stratified_loans))
             (rows stratified_loans)) as Hall by by_evaluation.
    intros r r' Hr Hr'. rewrite Forall_forall in Hall.
    specialize (Hall r Hr). rewrite Forall_forall in Hall. exact (Hall r' Hr').
Defined.


(** ** The loader on a missing file *)

Section LoaderMore.
Context {HF : PyFloat}.
Variable read_csv : list Init.Byte.byte → option compression → result DataFrame.

(** X19: a path under which there is no file: the load raises
    [FileNotFoundError], whatever the path ends in. *)
Theorem load_missing_file_raises (fs : filesystem) (path : string) :
  fs path = None →
  load_lending_club_data read_csv fs path = Raise (FileNotFoundError path).
Proof.
  intros Hnone.
  assert (open_rb fs path = Raise (FileNotFoundError path)) as Hopen
    by (unfold open_rb; by rewrite Hnone).
  unfold load_lending_club_data, detect_compression.
  destruct (endswith path ".gz"); [by rewrite bind_Ok, Hopen|].
  destruct (endswith path ".gzip"); by rewrite ?Hopen, ?bind_Ok, ?Hopen.
Qed.
End LoaderMore.

Lemma load_missing_file_raises_witness :
  load_lending_club_data recording_reader one_file "loans.gzip"
  = Raise (FileNotFoundError "loans.gzip").
Proof.
  apply (load_missing_file_raises recording_reader one_file "loans.gzip").
  reflexivity.
Defined.

(** ** The download *)

Section DownloadFacts.

Lemma max_by_spec (key : string → result Z) best bk items m :
  key best = Ok bk → max_by key best bk items = Ok m →
  (m = best ∨ m ∈ items) ∧
  ∃ km, key m = Ok km ∧ bk ≤ km ∧
        ∀ f, f ∈ items → ∃ k, key f = Ok k ∧ k ≤ km.
Proof.
  revert best bk. induction items as [|f items IH]; intros best bk Hbest; simpl.
  - intros [= <-]. split; [by left|]. exists bk. split; [done|]. split; [lia|].
    by intros f ?%elem_of_nil.
  - destruct (key f) as [k|] eqn:Hk; [|done]. rewrite bind_Ok.
    destruct (bool_decide (bk < k)) eqn:Hlt.
    + apply bool_decide_eq_true in Hlt. intros Hm.
      destruct (IH f k Hk Hm) as (Hin & km & Hkm & Hle & Hall).
      split; [right; destruct Hin as [->|?]; [left|by right]|].
      exists km. split; [done|]. split; [lia|].
      intros f' [->|Hf']%elem_of_cons; [exists k; split; [done|lia]|by apply Hall].
    + apply bool_decide_eq_false in Hlt. intros Hm.
      destruct (IH best bk Hbest Hm) as (Hin & km & Hkm & Hle & Hall).
      split; [destruct Hin as [->|?]; [by left|right; by right]|].
      exists km. split; [done|]. split; [done|].
      intros f' [->|Hf']%elem_of_cons; [exists k; split; [done|lia]|by apply Hall].
Qed.

(** X20: the file the download returns is an entry of the download directory
    whose name ends in [.csv], [.gzip] or [.csv.gz], and no entry with such
    a name is larger. *)
Theorem download_returns_largest_data_file (kaggle : kaggle_module)
    (os : os_state) dataset_id download_path os' main_file :
  download_kaggle_dataset kaggle os dataset_id download_path
  = (os', Returned main_file) →
  ∃ files size,
    os_listdir os' download_path = Ok files ∧
    main_file ∈ files ∧
    endswith_any main_file [".csv"; ".gzip"; ".csv.gz"] = true ∧
    os_getsize os' (path_join download_path main_file) = Ok size ∧
    ∀ f, f ∈ files → endswith_any f [".csv"; ".gzip"; ".csv.gz"] = true →
         ∃ s, os_getsize os' (path_join download_path f) = Ok s ∧ s ≤ size.
Proof.
  unfold download_kaggle_dataset. destruct kaggle as [api|]; [|done].
  destruct (api dataset_id download_path os) as [os1 [e|]]; [done|].
  destruct (os_listdir os1 download_path) as [files|] eqn:Hfiles; [|done].
  destruct (filter _ files) as [|f rest] eqn:Hdata; [done|].
  destruct (os_getsize os1 (path_join download_path f)) as [k|] eqn:Hk;
    [rewrite bind_Ok|done].
  destruct (max_by _ f k rest) as [m|] eqn:Hmax; [|done].
  intros [= <- <-]. rewrite Hfiles.
  apply (max_by_spec (λ f, os_getsize os1 (path_join download_path f)))
    in Hmax as (Hin & km & Hkm & Hle & Hall); [|done].
  assert (m ∈ filter (λ f, endswith_any f [".csv"; ".gzip"; ".csv.gz"]) files)
    as [Hsuffix Hm]%list_elem_of_filter.
  { rewrite Hdata. destruct Hin as [->|?]; [left|by right]. }
  exists files, km. split; [done|]. split; [done|].
  split; [by apply Is_true_true|]. split; [done|].
  intros f' Hf' Hs.
  assert (f' ∈ f :: rest) as [->|Hrest]%elem_of_cons.
  { rewrite <-Hdata. apply list_elem_of_filter. split; [|done].
    by apply Is_true_true. }
  - exists k. split; [done|lia].
  - by apply Hall.
Qed.

(** X21: when the client has run and no entry of the download directory has
    a name ending in [.csv], [.gzip] or [.csv.gz], the download raises
    [Exception]. *)
Theorem download_without_data_file_raises api (os : os_state)
    dataset_id download_path os' files :
  api dataset_id download_path os = (os', None) →
  os_listdir os' download_path = Ok files →
  Forall (λ f, endswith_any f [".csv"; ".gzip"; ".csv.gz"] = false) files →
  download_kaggle_dataset (Some api) os dataset_id download_path
  = (os', Raised (Exception "Nenhum arquivo de dados encontrado após download")).
Proof.
  intros Hapi Hfiles Hnone. unfold download_kaggle_dataset.
  rewrite Hapi, Hfiles.
  replace (filter _ files) with (@nil string); [reflexivity|].
  symmetry. clear Hfiles. induction Hnone as [|f files Hf _ IH]; [done|].
  rewrite filter_cons_False; [exact IH|]. rewrite Hf. by intros ?.
Qed.
End DownloadFacts.

(** ** Saving and the pipeline *)

Section SaveFacts.
Context {HF : PyFloat} {HP : PandasLib}.
Variable read_csv : list Init.Byte.byte → option compression → result DataFrame.
Variable to_csv : DataFrame → option compression → list Init.Byte.byte.
Variable write : filesystem → string → list Init.Byte.byte
                 → filesystem * option pipeline_exn.

Lemma load_written_file (fs : filesystem) path content :
  load_lending_club_data read_csv (write_file fs path content) path
  = (if endswith path ".gz" then read_csv content (Some gzip)
     else if endswith path ".gzip"
          then read_csv content
                 (if decide (take 2 content = gzip_magic) then Some gzip else None)
          else read_csv content None).
Proof.
  assert (open_rb (write_file fs path content) path = Ok content) as Hopen
    by (unfold open_rb, write_file; by rewrite decide_True).
  unfold load_lending_club_data, detect_compression.
  destruct (endswith path ".gz"); [by rewrite bind_Ok, Hopen|].
  destruct (endswith path ".gzip"); by rewrite ?Hopen, ?bind_Ok, ?Hopen.
Qed.

(** The call on a system that writes the file. *)
Lemma save_sample_written (fs : filesystem) (df : DataFrame) filename :
  written write fs filename (to_csv df (Some gzip)) →
  save_sample_for_github to_csv write fs df filename
  = (write_file fs filename (to_csv df (Some gzip)),
     let file_size_mb :=
       fdiv (of_int (Z.of_nat (length (to_csv df (Some gzip)))))
            (of_int (1024 ^ 2)) in
     Returned {| file_size_mb := file_size_mb;
                 records := len df;
                 github_suitable := Qle_bool (fvalue file_size_mb) 100 |}).
Proof.
  unfold written, save_sample_for_github. intros ->.
  unfold getsize, write_file. by rewrite decide_True.
Qed.

(** A call that returns: the system has written a file, and the
    information is that of the file found under the name. *)
Lemma save_sample_Returned (fs : filesystem) (df : DataFrame) filename fs' info :
  save_sample_for_github to_csv write fs df filename = (fs', Returned info) →
  write fs filename (to_csv df (Some gzip)) = (fs', None) ∧
  ∃ content,
    fs' filename = Some content ∧
    info = {| file_size_mb :=
                fdiv (of_int (Z.of_nat (length content))) (of_int (1024 ^ 2));
              records := len df;
              github_suitable :=
                Qle_bool
                  (fvalue (fdiv (of_int (Z.of_nat (length content)))
                                (of_int (1024 ^ 2)))) 100 |}.
Proof.
  unfold save_sample_for_github.
  destruct (write fs filename _) as [fs1 [e|]]; [done|].
  unfold getsize. destruct (fs1 filename) as [content|] eqn:Hfile; [|done].
  intros [= <- <-]. split; [done|]. by exists content.
Qed.

(** X22: a sample saved and loaded again under the same name, on a system
    that writes the file. The file is always written compressed; it is read
    compressed when the name ends in [.gz], as the default name does, and
    as plain text when the name ends neither in [.gz] nor in [.gzip],
    although it is compressed. *)
Theorem saved_sample_is_read_by_its_name (fs : filesystem) (df : DataFrame)
    (filename : string) :
  written write fs filename (to_csv df (Some gzip)) →
  (endswith filename ".gz" = true →
   load_lending_club_data read_csv
     (save_sample_for_github to_csv write fs df filename).1 filename
   = read_csv (to_csv df (Some gzip)) (Some gzip)) ∧
  (endswith filename ".gz" = false → endswith filename ".gzip" = false →
   load_lending_club_data read_csv
     (save_sample_for_github to_csv write fs df filename).1 filename
   = read_csv (to_csv df (Some gzip)) None) ∧
  (filename = default_filename →
   load_lending_club_data read_csv
     (save_sample_for_github to_csv write fs df filename).1 filename
   = read_csv (to_csv df (Some gzip)) (Some gzip)).
Proof.
  intros Hwritten. rewrite (save_sample_written _ _ _ Hwritten); cbn [fst].
  rewrite !load_written_file.
  split; [by intros ->|]. split; [by intros -> ->|]. intros ->.
  replace (endswith default_filename ".gz") with true; [done|].
  symmetry. apply bool_decide_eq_true. by exists (String.list_ascii_of_string
    "lending_club_sample_2015_2020.csv").
Qed.

(** X23: when the call returns, the file is reported as fit for GitHub
    exactly when the file found under the name has at most 100 * 1024 *
    1024 bytes, where the division of its size by [1024**2] is exact (a
    power of two divides a float of that size exactly).  On a system that
    writes the file, the file found is the compressed table. *)
Theorem github_suitable_threshold (fs : filesystem) (df : DataFrame)
    (filename : string) fs' info :
  save_sample_for_github to_csv write fs df filename = (fs', Returned info) →
  ∃ content,
    fs' filename = Some content ∧
    (written write fs filename (to_csv df (Some gzip)) →
     content = to_csv df (Some gzip)) ∧
    ((fvalue (fdiv (of_int (Z.of_nat (length content))) (of_int (1024 ^ 2)))
      == inject_Z (Z.of_nat (length content)) / inject_Z (1024 ^ 2))%Q →
     github_suitable info = true ↔ Z.of_nat (length content) ≤ 104857600).
Proof.
  intros Hsave.
  destruct (save_sample_Returned _ _ _ _ _ Hsave)
    as (Hwrite & content & Hfile & ->).
  exists content. split; [done|]. split.
  - unfold written. rewrite Hwrite. intros [= ->].
    unfold write_file in Hfile. rewrite decide_True in Hfile by done.
    by injection Hfile as <-.
  - intros Hexact. cbn [github_suitable]. rewrite Qle_bool_iff, Hexact.
    set (n := Z.of_nat _). unfold Qle, Qdiv, Qmult, Qinv, inject_Z; simpl.
    lia.
Qed.
End SaveFacts.

Section PipelineFacts.
Context {HF : PyFloat} {HP : PandasLib}.
Variable read_csv : list Init.Byte.byte → option compression → result DataFrame.
Variable to_csv : DataFrame → option compression → list Init.Byte.byte.
Variable write : filesystem → string → list Init.Byte.byte
                 → filesystem * option pipeline_exn.

Lemma anonymize_shape df out :
  (anonymize_and_filter_data df).2 = Ok out →
  shape (anonymize_and_filter_data df).1 = shape df.
Proof.
  destruct (anonymize_and_filter_data df) as [df' res] eqn:Hrun. cbn [fst snd].
  intros ->. apply anonymize_Ok in Hrun as (ft & Hft & _).
  pose proof (filter_period_and_status_columns _ _ _ Hft) as [Hcols _].
  apply filter_period_and_status_Ok in Hft
    as (raw & parsed & [_ ->]%get_column_Ok & Hparsed & -> & _).
  apply to_datetime_length in Hparsed. rewrite length_fmap in Hparsed.
  unfold shape, len. rewrite Hcols, set_column_length; [done|].
  by rewrite length_fmap.
Qed.

Lemma anonymized_no_missing_date df df' out :
  anonymize_and_filter_data df = (df', Ok out) →
  CNaT ∉ cell_of "issue_d" <$> rows out.
Proof.
  intros [(years & Hyears & Hall) _]%anonymized_ready.
  destruct (get_column "issue_d" out) as [raw|] eqn:Hraw; [|done].
  rewrite bind_Ok in Hyears. apply get_column_Ok in Hraw as [_ ->].
  apply dt_year_cells in Hyears.
  by apply (missing_year_missing_date _ _ Hyears).
Qed.

(** The pipeline once the sample is drawn: the save decides whether it
    returns, the report does not fail. *)
Lemma pipeline_sampled (kaggle : kaggle_module) (os : os_state) dataset_id t
    main_file df out df' sample :
  (download_kaggle_dataset kaggle os dataset_id ".").2 = Returned main_file →
  load_lending_club_data read_csv
    (os_files (download_kaggle_dataset kaggle os dataset_id ".").1) main_file
  = Ok df →
  (anonymize_and_filter_data df).2 = Ok out →
  create_stratified_sample out t 42 = (df', Ok sample) →
  ∃ report,
    analyze_temporal_distribution df' sample = (df', sample, Ok report) ∧
    process_lending_club_pipeline read_csv to_csv write kaggle os dataset_id t
    = ((save_sample_for_github to_csv write
          (os_files (download_kaggle_dataset kaggle os dataset_id ".").1)
          sample default_filename).1,
       match (save_sample_for_github to_csv write
                (os_files (download_kaggle_dataset kaggle os dataset_id ".").1)
                sample default_filename).2 with
       | Raised e => Raised e
       | Returned info =>
         Returned (sample,
                   {| original_shape := shape (anonymize_and_filter_data df).1;
                      filtered_shape := shape df';
                      sample_shape := shape sample;
                      file_info := info;
                      temporal_analysis := report |})
       end).
Proof.
  intros Hdown Hload Hanon Hcreate.
  destruct (anonymize_and_filter_data df) as [dfm res] eqn:Hrun.
  cbn [snd] in Hanon. subst res.
  pose proof (analysis_of_sampled _ _ _ _ _ Hcreate
                (anonymized_no_missing_date _ _ _ Hrun)) as Hreport.
  eexists. split; [exact Hreport|].
  unfold process_lending_club_pipeline.
  destruct (download_kaggle_dataset kaggle os dataset_id ".") as [os1 res].
  cbn [fst snd] in *. subst res. rewrite Hload, Hrun, Hcreate.
  destruct (save_sample_for_github _ _ _ _ _) as [fs [info|e]]; [|done].
  by rewrite Hreport.
Qed.


(** X25: the shapes the pipeline reports when it returns are read at its
    end: the shape of the anonymised table counts the ['ano'] and
    ['strata'] columns the sampler has added to it, and the shape of the
    sample its ['ano'] column. *)
Theorem pipeline_shapes (kaggle : kaggle_module) (os : os_state)
    dataset_id t main_file df out sample info :
  (download_kaggle_dataset kaggle os dataset_id ".").2 = Returned main_file →
  load_lending_club_data read_csv
    (os_files (download_kaggle_dataset kaggle os dataset_id ".").1) main_file
  = Ok df →
  (anonymize_and_filter_data df).2 = Ok out →
  NoDup (columns out) → "ano" ∉ columns out → "strata" ∉ columns out →
  (process_lending_club_pipeline read_csv to_csv write kaggle os dataset_id t).2
  = Returned (sample, info) →
  original_shape info = shape df ∧
  filtered_shape info = ((shape out).1, (shape out).2 + 2) ∧
  sample_shape info = (len sample, (shape out).2 + 1).
Proof.
  intros Hdown Hload Hanon Hnd Hano Hstrata Hreturn.
  destruct (create_stratified_sample out t 42) as [df' [drawn_rows|e]]
    eqn:Hcreate.
  2:{ revert Hreturn. unfold process_lending_club_pipeline.
      destruct (download_kaggle_dataset kaggle os dataset_id ".") as [os1 res].
      cbn [fst snd] in *. subst res. rewrite Hload.
      destruct (anonymize_and_filter_data df) as [dfm res].
      cbn [snd] in Hanon. subst res. by rewrite Hcreate. }
  destruct (pipeline_sampled kaggle os dataset_id t main_file df out df'
              drawn_rows) as (report & _ & Hrun); [done..|].
  rewrite Hrun in Hreturn. cbn [snd] in Hreturn.
  destruct (save_sample_for_github _ _ _ _ _).2 as [saved|e]; [|done].
  injection Hreturn as <- <-.
  cbn [original_shape filtered_shape sample_shape].
  split; [by eapply anonymize_shape|].
  destruct (created_table_columns _ _ _ _ _ Hcreate Hano Hstrata)
    as [Hc Hsample].
  destruct (columns_without_strata _ Hnd Hano Hstrata) as [Hnd' Hfilter].
  assert (columns drawn_rows = columns out ++ ["ano"]) as Hs
    by (rewrite Hsample by (by rewrite Hc); by rewrite Hc).
  apply create_stratified_sample_Ok in Hcreate
    as (years & target & col & _ & _ & _ & Hlcol & _ & Hcol & _).
  apply (f_equal length) in Hcol. rewrite !length_fmap in Hcol.
  unfold shape, len. rewrite Hc, Hs, !length_app, Hcol, Hlcol. simpl.
  split; f_equal; lia.
Qed.

End PipelineFacts.

(** ** The download and the pipeline on an example machine *)

Example download_archive :
  download_kaggle_dataset kaggle_client before_download
    "ethon0426/lending-club-20072020q1" "."
  = (after_download, Returned "loans.csv.gz").
Proof. reflexivity. Qed.

Lemma download_returns_largest_data_file_witness :
  ∃ files size,
    os_listdir after_download "." = Ok files ∧
    "loans.csv.gz" ∈ files ∧
    endswith_any "loans.csv.gz" [".csv"; ".gzip"; ".csv.gz"] = true ∧
    os_getsize after_download (path_join "." "loans.csv.gz") = Ok size ∧
    ∀ f, f ∈ files → endswith_any f [".csv"; ".gzip"; ".csv.gz"] = true →
         ∃ s, os_getsize after_download (path_join "." f) = Ok s ∧ s ≤ size.
Proof.
  apply (download_returns_largest_data_file kaggle_client before_download
           "ethon0426/lending-club-20072020q1").
  exact download_archive.
Defined.

Lemma download_without_data_file_raises_witness :
  download_kaggle_dataset (Some (λ _ _ _, (only_readme, None))) before_download
    "ethon0426/lending-club-20072020q1" "."
  = (only_readme,
     Raised (Exception "Nenhum arquivo de dados encontrado após download")).
Proof.
  apply (download_without_data_file_raises (λ _ _ _, (only_readme, None))
           before_download "ethon0426/lending-club-20072020q1" "." only_readme
           ["README.md"; "data.json"; "loans.gz"]).
  - reflexivity.
  - reflexivity.
  - by_evaluation.
Defined.

Lemma saved_sample_is_read_by_its_name_witness :
  (endswith default_filename ".gz" = true →
   load_lending_club_data loans_reader
     (save_sample_for_github rows_writer file_writer (os_files after_download)
        loans_anonymized default_filename).1 default_filename
   = loans_reader (rows_writer loans_anonymized (Some gzip)) (Some gzip)) ∧
  (endswith default_filename ".gz" = false →
   endswith default_filename ".gzip" = false →
   load_lending_club_data loans_reader
     (save_sample_for_github rows_writer file_writer (os_files after_download)
        loans_anonymized default_filename).1 default_filename
   = loans_reader (rows_writer loans_anonymized (Some gzip)) None) ∧
  (default_filename = default_filename →
   load_lending_club_data loans_reader
     (save_sample_for_github rows_writer file_writer (os_files after_download)
        loans_anonymized default_filename).1 default_filename
   = loans_reader (rows_writer loans_anonymized (Some gzip)) (Some gzip)).
Proof.
  apply (saved_sample_is_read_by_its_name loans_reader rows_writer file_writer).
  reflexivity.
Defined.

Example save_anonymized_loans :
  save_sample_for_github rows_writer file_writer (os_files after_download)
    loans_anonymized default_filename
  = (write_file (os_files after_download) default_filename
       (rows_writer loans_anonymized (Some gzip)),
     Returned saved_info).
Proof. reflexivity. Qed.

Lemma github_suitable_threshold_witness :
  ∃ content,
    write_file (os_files after_download) default_filename
      (rows_writer loans_anonymized (Some gzip)) default_filename
    = Some content ∧
    (written file_writer (os_files after_download) default_filename
       (rows_writer loans_anonymized (Some gzip)) →
     content = rows_writer loans_anonymized (Some gzip)) ∧
    ((@fvalue exact_float
        (fdiv (of_int (Z.of_nat (length content))) (of_int (1024 ^ 2)))
      == inject_Z (Z.of_nat (length content)) / inject_Z (1024 ^ 2))%Q →
     github_suitable saved_info = true
     ↔ Z.of_nat (length content) ≤ 104857600).
Proof.
  apply (github_suitable_threshold rows_writer file_writer
           (os_files after_download) loans_anonymized default_filename).
  exact save_anonymized_loans.
Defined.

Example run_pipeline :
  (process_lending_club_pipeline loans_reader rows_writer file_writer
     kaggle_client before_download "ethon0426/lending-club-20072020q1" 2).2
  = Returned (pipeline_sample, pipeline_info).
Proof. by_evaluation. Qed.


Lemma pipeline_shapes_witness :
  original_shape pipeline_info = shape loans ∧
  filtered_shape pipeline_info
  = ((shape loans_anonymized).1, (shape loans_anonymized).2 + 2) ∧
  sample_shape pipeline_info
  = (len pipeline_sample, (shape loans_anonymized).2 + 1).
Proof.
  apply (pipeline_shapes loans_reader rows_writer file_writer kaggle_client
           before_download "ethon0426/lending-club-20072020q1" 2
           "loans.csv.gz" loans loans_anonymized pipeline_sample pipeline_info).
  - reflexivity.
  - by_evaluation.
  - by_evaluation.
  - by_evaluation.
  - by_evaluation.
  - by_evaluation.
  - exact run_pipeline.
Defined.


